(** * The Step Functions lab: three Lambda handlers

    A shallow embedding of
    - [process_data.lambda_handler]       (the Data Processor),
    - [send_notification.lambda_handler]  (the Notifier),
    - [trigger_workflow.lambda_handler]   (the Workflow Trigger),
    with the properties their specification states.

    Conventions of the embedding.
    - An event is a JSON document, [pyval]; Python dicts are association
      lists in insertion order.
    - A Python float is the rational it denotes (or NaN, or an infinity).
      Float arithmetic rounds: a literal, a sum, a difference, a product
      is the float nearest to the exact result, ties to even ([double]).
      The exponent range is taken unbounded; the floats met here, between
      2^-60 and 2^31, are far from overflow and from the subnormals.
    - The handlers run in a state-and-exception monad: the state holds what
      the handler reads from its platform (the random generator, the clock,
      the orchestrator), a raised exception keeps the state reached so far.
    - Logging has no effect on a handler's result and is left out, but
      for what a log line evaluates and can fail on.  The Workflow Trigger
      serialises the event for its log before anything else and outside its
      [try]: whether [json.dumps(event, default=str)] returns is up to the
      interpreter (the digits of an int, the depth of the nesting) and is
      part of the platform.  The replacement field [{processing_score:.1%}]
      of the Notifier converts an int to a float, and fails on one that is
      too large.  The other texts and documents the handlers build for
      their logs and results are taken within the limits of the
      interpreter: in the Workflow Trigger they are made of parts of an
      event that it has serialised once already. *)

From Stdlib Require Import ZArith QArith Qround Qabs Qpower.
From Stdlib Require Import String Ascii List Bool Lia Lqa.
From Stdlib Require Import DecimalString.
Import ListNotations.

Set Warnings "-register-all".

Local Open Scope string_scope.
Local Open Scope Z_scope.

(* ================================================================== *)
(** * Python values *)
(* ================================================================== *)

Module Py.

Inductive pyfloat : Type :=
| FNaN
| FInf (negative : bool)
| FFin (q : Q).

(** What [json.loads] produces, and what the handlers build.  A dict is the
    list of its entries, in insertion order; a key stands once in it (were
    one repeated, its first entry would count). *)
Inductive pyval : Type :=
| PNone
| PBool (b : bool)
| PInt (z : Z)
| PFloat (f : pyfloat)
| PStr (s : string)
| PList (items : list pyval)
| PDict (entries : list (string * pyval)).

(** The exceptions the three handlers meet; every one is a subclass of
    [Exception].  [ClientError] is botocore's, with the [Code] and
    [Message] of its [response['Error']]. *)
Inductive exn : Type :=
| ValueError (msg : string)
| TypeError (msg : string)
| AttributeError (msg : string)
| KeyError (key : string)
| IndexError (msg : string)
| JSONDecodeError (msg : string)
| ClientError (code message : string)
| OtherError (cls msg : string)
| Exception (msg : string).

(** [str(e)] *)
Definition exn_str (e : exn) : string :=
  match e with
  | ValueError m | TypeError m | AttributeError m | IndexError m
  | JSONDecodeError m | OtherError _ m | Exception m => m
  | KeyError k => "'" ++ k ++ "'"
  | ClientError code message =>
      "An error occurred (" ++ code
        ++ ") when calling the StartExecution operation: " ++ message
  end.

Inductive outcome (A : Type) : Type :=
| Returned (a : A)
| Raised (e : exn).
Arguments Returned {A} a.
Arguments Raised {A} e.

(** [type(v).__name__] *)
Definition type_name (v : pyval) : string :=
  match v with
  | PNone => "NoneType"
  | PBool _ => "bool"
  | PInt _ => "int"
  | PFloat _ => "float"
  | PStr _ => "str"
  | PList _ => "list"
  | PDict _ => "dict"
  end.

Definition Qlt_bool (x y : Q) : bool := negb (Qle_bool y x).

(** [bool(v)], the test behind [not v] and [if v]. *)
Definition truthy (v : pyval) : bool :=
  match v with
  | PNone => false
  | PBool b => b
  | PInt z => negb (z =? 0)
  | PFloat (FFin q) => negb (Qeq_bool q 0)
  | PFloat _ => true
  | PStr s => negb (String.eqb s "")
  | PList l => match l with [] => false | _ => true end
  | PDict d => match d with [] => false | _ => true end
  end.

Fixpoint assoc {A : Type} (key : string) (entries : list (string * A))
  : option A :=
  match entries with
  | [] => None
  | (k, v) :: rest => if String.eqb k key then Some v else assoc key rest
  end.

(** [key in d] and [d.get(key, default)] on a value known to be a dict. *)
Definition dict_get (entries : list (string * pyval)) (key : string)
           (default : pyval) : pyval :=
  match assoc key entries with
  | Some v => v
  | None => default
  end.

(** [obj.get(key, default)]: only a dict has the method. *)
Definition py_get (obj : pyval) (key : string) (default : pyval)
  : outcome pyval :=
  match obj with
  | PDict entries => Returned (dict_get entries key default)
  | _ => Raised (AttributeError
                   ("'" ++ type_name obj ++ "' object has no attribute 'get'"))
  end.

(** [v == 'literal'] *)
Definition eq_str (v : pyval) (literal : string) : bool :=
  match v with
  | PStr s => String.eqb s literal
  | _ => false
  end.

(** [table.get(key, default)] for a dict literal with string keys: the key
    is hashed first, which a list or a dict refuses. *)
Definition table_get {A : Type} (table : list (string * A)) (key : pyval)
           (default : A) : outcome A :=
  match key with
  | PStr s => Returned (match assoc s table with
                        | Some v => v
                        | None => default
                        end)
  | PList _ => Raised (TypeError "unhashable type: 'list'")
  | PDict _ => Raised (TypeError "unhashable type: 'dict'")
  | _ => Returned default
  end.

(** ** Numbers and their order *)

Inductive pynum : Type :=
| NInt (z : Z)
| NFloat (f : pyfloat).

Definition num_of (v : pyval) : option pynum :=
  match v with
  | PBool b => Some (NInt (Z.b2z b))
  | PInt z => Some (NInt z)
  | PFloat f => Some (NFloat f)
  | _ => None
  end.

Definition float_of_num (n : pynum) : pyfloat :=
  match n with
  | NInt z => FFin (inject_Z z)
  | NFloat f => f
  end.

Definition num_type_name (n : pynum) : string :=
  match n with NInt _ => "int" | NFloat _ => "float" end.

(** [x < y] on floats: false as soon as one side is NaN. *)
Definition float_lt (x y : pyfloat) : bool :=
  match x, y with
  | FNaN, _ | _, FNaN => false
  | FInf true, FInf true => false
  | FInf true, _ => true
  | _, FInf true => false
  | FInf false, _ => false
  | _, FInf false => true
  | FFin a, FFin b => Qlt_bool a b
  end.

Definition comparison_error (op : string) (v : pyval) (n : pynum) : exn :=
  TypeError ("'" ++ op ++ "' not supported between instances of '"
               ++ type_name v ++ "' and '" ++ num_type_name n ++ "'").

(** [v < n] and [v > n] for a number [n]: Python compares the exact values
    of ints and floats and raises [TypeError] for anything else. *)
Definition py_lt (v : pyval) (n : pynum) : outcome bool :=
  match num_of v with
  | Some m => Returned (float_lt (float_of_num m) (float_of_num n))
  | None => Raised (comparison_error "<" v n)
  end.

Definition py_gt (v : pyval) (n : pynum) : outcome bool :=
  match num_of v with
  | Some m => Returned (float_lt (float_of_num n) (float_of_num m))
  | None => Raised (comparison_error ">" v n)
  end.

(** ** Float arithmetic *)

(** The integer nearest to [y], ties to the even one. *)
Definition round_half_even (y : Q) : Z :=
  let f := Qfloor y in
  match (y - inject_Z f ?= 1 # 2)%Q with
  | Lt => f
  | Gt => f + 1
  | Eq => if Z.even f then f else f + 1
  end.

Definition pow2 (e : Z) : Q := Qpower 2 e.

(** The exponent [e] with [2^e <= |x| < 2^(e+1)], for [x <> 0]. *)
Definition binade (x : Q) : Z :=
  let k := Z.log2 (Z.abs (Qnum x)) - Z.log2 (Zpos (Qden x)) in
  if Qle_bool (pow2 k) (Qabs x) then k else k - 1.

(** The binary64 float nearest to the real [x]: [x] rounded to a multiple
    of [2^(e-52)], a significand of 53 bits, ties to the even one.  It is
    what a float literal denotes, and the result of an operation whose
    exact result is [x]. *)
Definition double (x : Q) : Q :=
  if Qeq_bool x 0 then 0%Q
  else
    let ulp := pow2 (binade x - 52) in
    Qred (inject_Z (round_half_even (x / ulp)) * ulp).

Definition fadd (x y : Q) : Q := double (x + y).
Definition fsub (x y : Q) : Q := double (x - y).
Definition fmul (x y : Q) : Q := double (x * y).

(** Half an ulp of the floats of [1/2, 1): [2^-53]. *)
Definition epsilon : Q := 1 # 9007199254740992.

(** [int(x)] for a float: truncation towards zero. *)
Definition int_of_float (x : Q) : Z :=
  if Qle_bool 0 x then Qfloor x else Qceiling x.

(** [round(x, ndigits)] for a float: the multiple of [10^-ndigits] nearest
    to the exact value of [x], ties to the even one, as a float. *)
Definition py_round (x : Q) (ndigits : nat) : Q :=
  let scale := inject_Z (10 ^ Z.of_nat ndigits) in
  double (inject_Z (round_half_even (x * scale)) / scale).

(** [str(n)] for an int. *)
Definition str_of_int (z : Z) : string :=
  NilZero.string_of_int (Z.to_int z).

(** [os.environ.get(name, default)] *)
Definition environ_get (environ : list (string * string)) (name : string)
  : option string :=
  assoc name environ.

Definition environ_get_default (environ : list (string * string))
           (name default : string) : string :=
  match assoc name environ with
  | Some v => v
  | None => default
  end.

(** The [context] object the platform passes to a handler. *)
Record LambdaContext : Type := {
  function_name : string;
  aws_request_id : string
}.

End Py.
Import Py.

(* ================================================================== *)
(** * The monad of a handler *)
(* ================================================================== *)

Module Run.

Definition M (S A : Type) : Type := S -> outcome A * S.

Definition ret {S A : Type} (a : A) : M S A := fun s => (Returned a, s).

Definition raise {S A : Type} (e : exn) : M S A := fun s => (Raised e, s).

Definition bind {S A B : Type} (c : M S A) (k : A -> M S B) : M S B :=
  fun s =>
    match c s with
    | (Returned a, s') => k a s'
    | (Raised e, s') => (Raised e, s')
    end.

(** [try: body  except Exception as e: handler] *)
Definition try_except {S A : Type} (body : M S A) (handler : exn -> M S A)
  : M S A :=
  fun s =>
    match body s with
    | (Returned a, s') => (Returned a, s')
    | (Raised e, s') => handler e s'
    end.

(** A computation without effect on the state. *)
Definition lift {S A : Type} (o : outcome A) : M S A := fun s => (o, s).

End Run.
Import Run.

Declare Scope py_scope.
Delimit Scope py_scope with py.
Notation "x <- c ;; k" := (bind c (fun x => k))
  (at level 61, c at next level, right associativity) : py_scope.
Notation "' pat <- c ;; k" := (bind c (fun x => match x with pat => k end))
  (at level 61, pat pattern, c at next level, right associativity) : py_scope.
Notation "c ;; k" := (bind c (fun _ => k))
  (at level 61, right associativity) : py_scope.
Local Open Scope py_scope.

(* ================================================================== *)
(** * What the simulating handlers read from their platform *)
(* ================================================================== *)

Module Sim.

(** The state of the process during one invocation: the random generator
    (the integers it will hand out, and how many were drawn) and the clock
    read by [time.time()]. *)
Record runtime : Type := {
  entropy : nat -> Z;
  drawn : nat;
  now : Q
}.

(** Each call of [random()] or [_randbelow] takes the next integer of the
    stream and reduces it into its range.  (CPython asks its generator for
    bits, and [_randbelow] asks again when a value falls out of range; the
    results range over the same values.) *)
Definition next_raw : M runtime Z :=
  fun w => (Returned (entropy w (drawn w)),
            {| entropy := entropy w; drawn := S (drawn w); now := now w |}).

(** [random.random()]: 53 random bits scaled into [0, 1), a float. *)
Definition unit_float (raw : Z) : Q := Qmake (raw mod 2 ^ 53) (2 ^ 53).

Definition random_random : M runtime Q :=
  raw <- next_raw ;;
  ret (unit_float raw).

(** What [random.random()] returns when it is the second draw of an
    invocation that starts in [w]. *)
Definition second_draw (w : runtime) : Q :=
  unit_float (entropy w (S (drawn w))).

(** [random._randbelow(n)]: an integer of [0, n). *)
Definition randbelow (n : Z) : M runtime Z :=
  raw <- next_raw ;;
  ret (raw mod n).

(** [random.uniform(a, b)] is [a + (b - a) * random()], in floats. *)
Definition random_uniform (a b : Q) : M runtime Q :=
  r <- random_random ;;
  ret (fadd a (fmul (fsub b a) r)).

(** [random.randint(a, b)] is [a + _randbelow(b - a + 1)]. *)
Definition random_randint (a b : Z) : M runtime Z :=
  k <- randbelow (b - a + 1) ;;
  ret (a + k).

(** [random.choice(seq)] is [seq[_randbelow(len(seq))]]. *)
Definition random_choice {A : Type} (seq : list A) : M runtime A :=
  match seq with
  | [] => raise (IndexError "Cannot choose from an empty sequence")
  | first :: _ =>
      k <- randbelow (Z.of_nat (length seq)) ;;
      ret (nth (Z.to_nat k) seq first)
  end.

Definition time_time : M runtime Q :=
  fun w => (Returned (now w), w).

(** [time.sleep(d)] blocks for [d] seconds, and refuses a negative [d]. *)
Definition time_sleep (d : Q) : M runtime unit :=
  fun w =>
    if Qlt_bool d 0
    then (Raised (ValueError "sleep length must be non-negative"), w)
    else (Returned tt,
          {| entropy := entropy w; drawn := drawn w; now := (now w + d)%Q |}).

End Sim.
Import Sim.

(* ================================================================== *)
(** * process_data.py *)
(* ================================================================== *)

Module ProcessData.

Definition processing_times : list (string * (Q * Q)) :=
  [ ("sales_data", (1, 2)%Q);
    ("customer_data", (double (5 # 10), double (15 # 10)));
    ("inventory_data", (2, 3)%Q);
    ("analytics_data", (double (15 # 10), double (25 # 10)));
    ("general", (1, 2)%Q) ].

Definition success_rates : list (string * Q) :=
  [ ("sales_data", double (9 # 10));
    ("customer_data", double (85 # 100));
    ("inventory_data", double (8 # 10));
    ("analytics_data", double (75 # 100));
    ("general", double (8 # 10)) ].

Definition error_types : list string :=
  [ "data_corruption"; "timeout"; "validation_error"; "resource_unavailable" ].

Definition metadata (username : string) (context : LambdaContext) : pyval :=
  PDict [ ("username", PStr username);
          ("functionName", PStr (function_name context));
          ("requestId", PStr (aws_request_id context)) ].

Definition pyfloat_of (q : Q) : pyval := PFloat (FFin q).

(** The body of the [try] block. *)
Definition attempt (username : string) (event : pyval)
           (context : LambdaContext) : M runtime pyval :=
  user_id <- lift (py_get event "userId" (PStr "unknown")) ;;
  data_type <- lift (py_get event "dataType" (PStr "general")) ;;
  (if negb (truthy user_id) || negb (truthy data_type)
   then raise (ValueError "Missing required fields: userId or dataType")
   else ret tt) ;;
  ' (min_time, max_time) <-
      lift (table_get processing_times data_type (1, 2)%Q) ;;
  processing_duration <- random_uniform min_time max_time ;;
  time_sleep processing_duration ;;
  success_rate <-
    lift (table_get success_rates data_type (double (8 # 10))) ;;
  draw <- random_random ;;
  let success := Qlt_bool draw success_rate in
  result <-
    (if success
     then
       records_processed <- random_randint 100 1000 ;;
       processing_score <-
         random_uniform (double (7 # 10)) (double (99 # 100)) ;;
       processed_at <- time_time ;;
       ret (PDict
              [ ("userId", user_id);
                ("dataType", data_type);
                ("status", PStr "SUCCESS");
                ("processedAt", PInt (int_of_float processed_at));
                ("recordsProcessed", PInt records_processed);
                ("processingDuration",
                  pyfloat_of (py_round processing_duration 2));
                ("processingScore", pyfloat_of (py_round processing_score 3));
                ("nextStep", PStr "send_notification");
                ("metadata", metadata username context) ])
     else
       error_type <- random_choice error_types ;;
       processed_at <- time_time ;;
       let result :=
         PDict
           [ ("userId", user_id);
             ("dataType", data_type);
             ("status", PStr "FAILED");
             ("error", PStr ("Processing error: " ++ error_type));
             ("errorType", PStr error_type);
             ("processedAt", PInt (int_of_float processed_at));
             ("processingDuration",
               pyfloat_of (py_round processing_duration 2));
             ("metadata", metadata username context) ] in
       raise (Exception ("Data processing failed: " ++ error_type))) ;;
  _end_time <- time_time ;;
  ret result.

(** The [except Exception as e] block: it builds [error_result], which reads
    the event again, and raises [Exception(str(e))]. *)
Definition on_exception (username : string) (event : pyval)
           (context : LambdaContext) (start_time : Q) (e : exn)
  : M runtime pyval :=
  end_time <- time_time ;;
  let total_duration := fsub end_time start_time in
  user_id <- lift (py_get event "userId" (PStr "unknown")) ;;
  data_type <- lift (py_get event "dataType" (PStr "unknown")) ;;
  processed_at <- time_time ;;
  let error_result :=
    PDict
      [ ("userId", user_id);
        ("dataType", data_type);
        ("status", PStr "FAILED");
        ("error", PStr (exn_str e));
        ("errorType", PStr "exception");
        ("processedAt", PInt (int_of_float processed_at));
        ("totalDuration", pyfloat_of (py_round total_duration 2));
        ("metadata", metadata username context) ] in
  raise (Exception (exn_str e)).

Definition lambda_handler (environ : list (string * string)) (event : pyval)
           (context : LambdaContext) : M runtime pyval :=
  start_time <- time_time ;;
  let username := environ_get_default environ "USERNAME" "unknown" in
  try_except (attempt username event context)
             (on_exception username event context start_time).

(** ** Vocabulary of the specification *)

(** A Task Descriptor with a non-empty [userId] and [dataType]. *)
Definition valid_task_descriptor (event : pyval) : Prop :=
  exists entries user_id data_type,
    event = PDict entries /\
    assoc "userId" entries = Some user_id /\ truthy user_id = true /\
    assoc "dataType" entries = Some data_type /\ truthy data_type = true.

(** A payload with status SUCCESS, [recordsProcessed] in [100, 1000] and
    [processingScore] in [0.7, 0.99]. *)
Definition success_payload (result : pyval) : Prop :=
  exists entries n q,
    result = PDict entries /\
    assoc "status" entries = Some (PStr "SUCCESS") /\
    assoc "recordsProcessed" entries = Some (PInt n) /\
    (100 <= n <= 1000)%Z /\
    assoc "processingScore" entries = Some (PFloat (FFin q)) /\
    (double (7 # 10) <= q)%Q /\ (q <= double (99 # 100))%Q.

(** The success rate configured for a data type. *)
Definition success_rate_of (data_type : string) : Q :=
  match assoc data_type success_rates with
  | Some rate => rate
  | None => double (8 # 10)
  end.

(** ** Sample inputs *)

Definition sample_context : LambdaContext :=
  {| function_name := "process_data"; aws_request_id := "req-1" |}.

(** A generator whose every draw is the lowest one. *)
Definition lucky : runtime :=
  {| entropy := fun _ => 0; drawn := 0; now := 1700000000 |}.

Definition sample_task : pyval :=
  PDict [ ("userId", PStr "u1"); ("dataType", PStr "sales_data") ].

(** An event without [userId]. *)
Definition task_without_user : pyval :=
  PDict [ ("dataType", PStr "sales_data") ].

End ProcessData.

(* ================================================================== *)
(** * send_notification.py *)
(* ================================================================== *)

Module SendNotification.

Definition notification_times : list (string * (Q * Q)) :=
  [ ("EMAIL", (double (5 # 10), double (15 # 10)));
    ("SMS", (double (2 # 10), double (8 # 10)));
    ("PUSH", (double (1 # 10), double (5 # 10))) ].

(** An f-string whose replacement fields hold values of the event is kept as
    its parts: literal text, [{v}] and [{v:.1%}]. *)
Inductive piece : Type :=
| Lit (text : string)
| Str (v : pyval)
| Percent1 (v : pyval).

Record original_data : Type := {
  dataType : pyval;
  recordsProcessed : pyval;
  processingScore : pyval
}.

Record caller_metadata : Type := {
  username : string;
  functionName : string;
  requestId : string
}.

Record notification_result : Type := {
  userId : pyval;
  notificationType : string;
  status : string;
  priority : string;
  message : list piece;
  sentAt : Z;
  sendDuration : Q;
  deliveryId : string;
  originalData : original_data;
  metadata : caller_metadata
}.

(** [c.lower()] on ASCII. *)
Definition lower_ascii (c : ascii) : ascii :=
  let n := nat_of_ascii c in
  if (65 <=? n)%nat && (n <=? 90)%nat then ascii_of_nat (n + 32) else c.

Fixpoint lower (s : string) : string :=
  match s with
  | EmptyString => EmptyString
  | String c rest => String (lower_ascii c) (lower rest)
  end.

(** The ints that convert to a float: those that do not round to
    [2^1024]. *)
Definition float_int_limit : Z := 2 ^ 1024 - 2 ^ 970.

(** [format(v, '.1%')], what the replacement field [{v:.1%}] evaluates: a
    float is scaled and printed whatever its value, an infinity and NaN
    included; an int (or a bool) is converted to a float first, which fails
    from [float_int_limit] on; no other value has the format.  The text
    itself is kept as the piece [Percent1 v]. *)
Definition format_percent1 (v : pyval) : outcome unit :=
  match v with
  | PFloat _ | PBool _ => Returned tt
  | PInt z =>
      if Z.abs z <? float_int_limit then Returned tt
      else Raised (OtherError "OverflowError"
                              "int too large to convert to float")
  | PStr _ =>
      Raised (ValueError "Unknown format code '%' for object of type 'str'")
  | other =>
      Raised (TypeError ("unsupported format string passed to "
                           ++ type_name other ++ ".__format__"))
  end.

(** The body of the [try] block. *)
Definition attempt (username_ : string) (event : pyval)
           (context : LambdaContext) : M runtime notification_result :=
  user_id <- lift (py_get event "userId" (PStr "unknown")) ;;
  status_ <- lift (py_get event "status" (PStr "UNKNOWN")) ;;
  records_processed <- lift (py_get event "recordsProcessed" (PInt 0)) ;;
  data_type <- lift (py_get event "dataType" (PStr "general")) ;;
  processing_score <-
    lift (py_get event "processingScore" (PFloat (FFin 0))) ;;
  (* Determine notification type based on status and data *)
  notification_type <-
    (if eq_str status_ "SUCCESS"
     then
       excellent <-
         lift (py_gt processing_score (NFloat (FFin (double (9 # 10))))) ;;
       if (excellent : bool) then ret "SMS"
       else
         large <- lift (py_gt records_processed (NInt 500)) ;;
         if (large : bool) then ret "EMAIL" else ret "PUSH"
     else ret "EMAIL") ;;
  (* Simulate notification sending time based on type *)
  let '(min_time, max_time) :=
    match assoc notification_type notification_times with
    | Some range => range
    | None => (double (5 # 10), 1%Q)
    end in
  send_duration <- random_uniform min_time max_time ;;
  time_sleep send_duration ;;
  (* Create notification content based on status *)
  ' (message_, priority_) <-
    (if eq_str status_ "SUCCESS"
     then
       lift (format_percent1 processing_score) ;;
       below <-
         lift (py_lt processing_score (NFloat (FFin (double (9 # 10))))) ;;
       ret ([ Lit "✅ Data processing completed successfully! ";
              Str records_processed; Lit " "; Str data_type;
              Lit " records processed with "; Percent1 processing_score;
              Lit " accuracy." ],
            if (below : bool) then "normal" else "high")
     else
       ret ([ Lit "❌ Data processing failed for "; Str data_type;
              Lit ". Please check logs for details." ],
            "high")) ;;
  (* Simulate occasional notification failures (5% chance) *)
  draw <- random_random ;;
  let notification_success := Qlt_bool (double (5 # 100)) draw in
  (if negb notification_success
   then raise (Exception ("Notification service unavailable for "
                            ++ notification_type))
   else ret tt) ;;
  sent_at <- time_time ;;
  id_time <- time_time ;;
  id_suffix <- random_randint 1000 9999 ;;
  let notification_result :=
    {| userId := user_id;
       notificationType := notification_type;
       status := "SENT";
       priority := priority_;
       message := message_;
       sentAt := int_of_float sent_at;
       sendDuration := py_round send_duration 2;
       deliveryId := lower notification_type ++ "_"
                       ++ str_of_int (int_of_float id_time) ++ "_"
                       ++ str_of_int id_suffix;
       originalData := {| dataType := data_type;
                          recordsProcessed := records_processed;
                          processingScore := processing_score |};
       metadata := {| username := username_;
                      functionName := function_name context;
                      requestId := aws_request_id context |} |} in
  _end_time <- time_time ;;
  ret notification_result.

(** The [except Exception as e] block: it builds [error_result], which reads
    the event again, and raises [Exception(str(e))]. *)
Definition on_exception (event : pyval) (e : exn)
  : M runtime notification_result :=
  _end_time <- time_time ;;
  _user_id <- lift (py_get event "userId" (PStr "unknown")) ;;
  _sent_at <- time_time ;;
  raise (Exception (exn_str e)).

Definition lambda_handler (environ : list (string * string)) (event : pyval)
           (context : LambdaContext) : M runtime notification_result :=
  _start_time <- time_time ;;
  let username_ := environ_get_default environ "USERNAME" "unknown" in
  try_except (attempt username_ event context) (on_exception event).

(** ** Vocabulary of the specification *)

(** The number a field holds, when it holds a real number. *)
Definition real_of (v : pyval) : option Q :=
  match v with
  | PBool b => Some (inject_Z (Z.b2z b))
  | PInt z => Some (inject_Z z)
  | PFloat (FFin q) => Some q
  | _ => None
  end.

(** A Processing Outcome, as the Notifier reads it: status is a string,
    processingScore and recordsProcessed are real numbers; a field that is
    absent has its default. *)
Definition processing_outcome (entries : list (string * pyval))
           (status_ : string) (score records : Q) : Prop :=
  dict_get entries "status" (PStr "UNKNOWN") = PStr status_ /\
  real_of (dict_get entries "processingScore" (PFloat (FFin 0))) = Some score /\
  real_of (dict_get entries "recordsProcessed" (PInt 0)) = Some records.

(** The score of the outcome can be printed as a percentage: it is a
    float, or an int that converts to one. *)
Definition printable_score (entries : list (string * pyval)) : Prop :=
  format_percent1 (dict_get entries "processingScore" (PFloat (FFin 0)))
  = Returned tt.

(** The channel, in the words of the specification: SMS if status=SUCCESS
    and processingScore>0.9; else EMAIL if status=SUCCESS and
    recordsProcessed>500; else PUSH if status=SUCCESS; else EMAIL.
    (0.9 is the float of that name.) *)
Definition channel_spec (status_ : string) (score records : Q) : string :=
  if String.eqb status_ "SUCCESS" && Qlt_bool (double (9 # 10)) score
  then "SMS"
  else if String.eqb status_ "SUCCESS" && Qlt_bool 500 records then "EMAIL"
  else if String.eqb status_ "SUCCESS" then "PUSH"
  else "EMAIL".

(** The priority, in the words of the specification: high if status is not
    SUCCESS or processingScore>=0.9, normal otherwise. *)
Definition priority_spec (status_ : string) (score : Q) : string :=
  if negb (String.eqb status_ "SUCCESS") || Qle_bool (double (9 # 10)) score
  then "high" else "normal".

(** ** Sample inputs *)

Definition sample_context : LambdaContext :=
  {| function_name := "send_notification"; aws_request_id := "req-2" |}.

(** A generator whose every draw is the middle one: [random()] is 0.5. *)
Definition steady : runtime :=
  {| entropy := fun _ => 2 ^ 52; drawn := 0; now := 1700000000 |}.

(** A generator whose every draw is the lowest one: [random()] is 0. *)
Definition unlucky : runtime :=
  {| entropy := fun _ => 0; drawn := 0; now := 1700000000 |}.

Definition excellent_outcome : list (string * pyval) :=
  [ ("userId", PStr "u1"); ("dataType", PStr "sales_data");
    ("status", PStr "SUCCESS"); ("recordsProcessed", PInt 600);
    ("processingScore", PFloat (FFin (double (95 # 100)))) ].

(** A Processing Outcome without [userId]. *)
Definition outcome_without_user : list (string * pyval) :=
  [ ("dataType", PStr "sales_data"); ("status", PStr "SUCCESS");
    ("recordsProcessed", PInt 600);
    ("processingScore", PFloat (FFin (double (8 # 10)))) ].

End SendNotification.

(* ================================================================== *)
(** * trigger_workflow.py *)
(* ================================================================== *)

Module TriggerWorkflow.

(** The text [json.dumps(document)], kept as the document it serialises. *)
Inductive json_string : Type :=
| json_dumps (document : pyval).

Record response : Type := {
  statusCode : Z;
  headers : list (string * string);
  body : json_string
}.

(** The arguments of one [stepfunctions.start_execution] call. *)
Record start_request : Type := {
  stateMachineArn : string;
  name : string;
  input : json_string
}.

(** Its reply; [startDate] is a datetime, kept as its [isoformat()]. *)
Record start_reply : Type := {
  executionArn : string;
  startDate : option string
}.

(** What the handler meets around it: the serialiser of the log line,
    [json.dumps(event, default=str)], which returns or raises as the limits
    of the interpreter decide; the JSON decoder, which returns the document
    or raises ([JSONDecodeError] for text that is no JSON, and [ValueError]
    or [RecursionError] at the limits of the interpreter); the construction
    of the boto3 client; the orchestrator behind [start_execution]; and
    [uuid.uuid4().hex]. *)
Record platform : Type := {
  json_dumps_default_str : pyval -> outcome unit;
  json_loads : string -> outcome pyval;
  boto3_client : outcome unit;
  start_execution : start_request -> outcome start_reply;
  uuid4_hex : string
}.

(** The state of one invocation: the clock and the executions the handler
    asked the orchestrator to start. *)
Record session : Type := {
  now : Q;
  started : list start_request
}.

Definition time_time : M session Q :=
  fun s => (Returned (now s), s).

Definition call_start_execution (P : platform) (request : start_request)
  : M session start_reply :=
  fun s => (start_execution P request,
            {| now := now s; started := (started s ++ [request])%list |}).

Definition allowed_data_types : list string :=
  [ "sales_data"; "customer_data"; "inventory_data"; "analytics_data";
    "general" ].

(** [data_type in allowed_data_types] *)
Definition is_allowed (data_type : pyval) : bool :=
  existsb (eq_str data_type) allowed_data_types.

(** [key in body] on a dict. *)
Definition has_key (entries : list (string * pyval)) (key : string) : bool :=
  match assoc key entries with Some _ => true | None => false end.

Definition create_error_response (status_code : Z) (message : string)
  : M session response :=
  timestamp <- time_time ;;
  ret {| statusCode := status_code;
         headers := [ ("Content-Type", "application/json");
                      ("Access-Control-Allow-Origin", "*") ];
         body := json_dumps
                   (PDict [ ("error", PStr message);
                            ("statusCode", PInt status_code);
                            ("timestamp", PInt (int_of_float timestamp)) ]) |}.

(** The [except ClientError as e] block. *)
Definition on_client_error (e : exn) : M session response :=
  match e with
  | ClientError error_code error_message =>
      if String.eqb error_code "StateMachineDoesNotExist"
      then create_error_response 500 "Step Functions state machine not found"
      else if String.eqb error_code "InvalidParameterValue"
      then create_error_response 400 ("Invalid parameter: " ++ error_message)
      else if String.eqb error_code "ExecutionLimitExceeded"
      then create_error_response 429 "Too many concurrent executions"
      else create_error_response
             500 ("Step Functions error: " ++ error_message)
  | other => raise other
  end.

(** From [# Validate required fields] to the end of the outer [try] block,
    for the decoded request [body]. *)
Definition start_workflow (P : platform) (username state_machine_arn : string)
           (context : LambdaContext) (body : pyval) : M session response :=
  user_id <- lift (py_get body "userId" PNone) ;;
  data_type <- lift (py_get body "dataType" PNone) ;;
  if negb (truthy user_id)
  then create_error_response 400 "Missing required field: userId"
  else if negb (truthy data_type)
  then create_error_response 400 "Missing required field: dataType"
  else
    (* Validate data_type against allowed values *)
    let data_type :=
      match data_type with
      | PStr s => if is_allowed data_type then s else "general"
      | _ => "general"
      end in
    (* Prepare Step Functions input with additional metadata *)
    timestamp <- time_time ;;
    let workflow_input :=
      [ ("userId", user_id);
        ("dataType", PStr data_type);
        ("requestMetadata",
          PDict [ ("requestId", PStr (aws_request_id context));
                  ("triggerSource", PStr "api_gateway");
                  ("username", PStr username);
                  ("timestamp", PInt (int_of_float timestamp));
                  ("apiVersion", PStr "1.0") ]) ] in
    (* Add optional fields if present *)
    let entries := match body with PDict entries => entries | _ => [] end in
    let workflow_input :=
      if has_key entries "priority"
      then (workflow_input
              ++ [ ("priority", dict_get entries "priority" PNone) ])%list
      else workflow_input in
    let workflow_input :=
      if has_key entries "options"
      then (workflow_input
              ++ [ ("options", dict_get entries "options" PNone) ])%list
      else workflow_input in
    (* Generate execution name with timestamp and random suffix *)
    name_time <- time_time ;;
    let execution_name :=
      username ++ "-" ++ data_type ++ "-"
        ++ str_of_int (int_of_float name_time) ++ "-"
        ++ substring 0 8 (uuid4_hex P) in
    (* Start Step Functions execution *)
    try_except
      (reply <- call_start_execution P
                  {| stateMachineArn := state_machine_arn;
                     name := execution_name;
                     input := json_dumps (PDict workflow_input) |} ;;
       let execution_arn := executionArn reply in
       let success_response :=
         PDict
           [ ("message", PStr "Workflow started successfully");
             ("executionArn", PStr execution_arn);
             ("executionName", PStr execution_name);
             ("stateMachineArn", PStr state_machine_arn);
             ("input", PDict workflow_input);
             ("metadata",
               PDict [ ("username", PStr username);
                       ("requestId", PStr (aws_request_id context));
                       ("startedAt", match startDate reply with
                                     | Some date => PStr date
                                     | None => PNone
                                     end) ]) ] in
       ret {| statusCode := 200;
              headers := [ ("Content-Type", "application/json");
                           ("Access-Control-Allow-Origin", "*");
                           ("X-Request-ID", aws_request_id context) ];
              body := json_dumps success_response |})
      on_client_error.

(** The body of the outer [try] block. *)
Definition attempt (P : platform) (username state_machine_arn : string)
           (event : pyval) (context : LambdaContext) : M session response :=
  lift (boto3_client P) ;;
  (* Extract input from API Gateway event or direct invocation *)
  event_body <- lift (py_get event "body" PNone) ;;
  if truthy event_body
  then
    match event_body with
    | PStr text =>
        match json_loads P text with
        | Returned body =>
            start_workflow P username state_machine_arn context body
        | Raised (JSONDecodeError _) =>
            create_error_response 400 "Invalid JSON in request body"
        | Raised other => raise other
        end
    | other =>
        raise (TypeError
                 ("the JSON object must be str, bytes or bytearray, not "
                    ++ type_name other))
    end
  else start_workflow P username state_machine_arn context event.

Definition lambda_handler (P : platform) (environ : list (string * string))
           (event : pyval) (context : LambdaContext) : M session response :=
  _start_time <- time_time ;;
  let username := environ_get_default environ "USERNAME" "unknown" in
  let state_machine_arn := environ_get environ "STATE_MACHINE_ARN" in
  (* logger.debug(f"Received event: {json.dumps(event, default=str)}") *)
  lift (json_dumps_default_str P event) ;;
  match state_machine_arn with
  | None | Some EmptyString =>
      create_error_response
        500 "Configuration error: STATE_MACHINE_ARN not found"
  | Some state_machine_arn =>
      try_except
        (attempt P username state_machine_arn event context)
        (fun e =>
           _end_time <- time_time ;;
           create_error_response
             500 ("Internal server error: " ++ exn_str e))
  end.

(** ** Vocabulary of the specification *)

(** The workflow identifier is configured. *)
Definition configured (environ : list (string * string)) (arn : string)
  : Prop :=
  environ_get environ "STATE_MACHINE_ARN" = Some arn /\ arn <> "".

Definition standard_headers (r : response) : Prop :=
  assoc "Content-Type" (headers r) = Some "application/json" /\
  assoc "Access-Control-Allow-Origin" (headers r) = Some "*".

(** An error response: its status code, the two headers, and a body that is
    the JSON text of [{error, statusCode, timestamp}]. *)
Definition is_error_response (r : response) (code : Z) (message : string)
  : Prop :=
  statusCode r = code /\
  standard_headers r /\
  exists timestamp,
    body r = json_dumps (PDict [ ("error", PStr message);
                                 ("statusCode", PInt code);
                                 ("timestamp", PInt timestamp) ]).

(** The request an event carries, once the handler has written the event
    to its log: the event itself on a direct invocation (no body, or an
    empty one), the decoded body of an API Gateway envelope. *)
Inductive payload_of (P : platform) : pyval -> pyval -> Prop :=
| direct_payload entries :
    json_dumps_default_str P (PDict entries) = Returned tt ->
    truthy (dict_get entries "body" PNone) = false ->
    payload_of P (PDict entries) (PDict entries)
| decoded_payload entries text body :
    json_dumps_default_str P (PDict entries) = Returned tt ->
    dict_get entries "body" PNone = PStr text ->
    text <> "" ->
    json_loads P text = Returned body ->
    payload_of P (PDict entries) body.

(** A request that passes the validation of the trigger: the event carries
    an object whose userId and dataType are not empty. *)
Definition valid_request (P : platform) (event : pyval)
           (entries : list (string * pyval)) : Prop :=
  payload_of P event (PDict entries) /\
  truthy (dict_get entries "userId" PNone) = true /\
  truthy (dict_get entries "dataType" PNone) = true.

(** ** Sample inputs *)

Definition lab_environ : list (string * string) :=
  [ ("USERNAME", "student");
    ("STATE_MACHINE_ARN",
      "arn:aws:states:us-east-1:123456789012:stateMachine:lab") ].

Definition unconfigured : list (string * string) :=
  [ ("USERNAME", "student") ].

(** The serialiser on the events of the examples, which are not nested
    deep: it refuses an int of more than 4300 digits, the default of
    [sys.set_int_max_str_digits]. *)
Fixpoint within_digit_limit (v : pyval) : bool :=
  match v with
  | PInt z => Z.abs z <? 10 ^ 4300
  | PList items => forallb within_digit_limit items
  | PDict entries =>
      forallb (fun entry => match entry with
                            | (_, value) => within_digit_limit value
                            end) entries
  | _ => true
  end.

Definition digit_limit_exceeded : exn :=
  ValueError ("Exceeds the limit (4300 digits) for integer string "
                ++ "conversion; use sys.set_int_max_str_digits() to "
                ++ "increase the limit").

Definition sample_dumps (v : pyval) : outcome unit :=
  if within_digit_limit v then Returned tt
  else Raised digit_limit_exceeded.

(** The decoder on the bodies of the examples: the empty object, the empty
    list, and text that is no JSON document. *)
Definition sample_loads (text : string) : outcome pyval :=
  if String.eqb text "{}" then Returned (PDict [])
  else if String.eqb text "[]" then Returned (PList [])
  else Raised (JSONDecodeError "Expecting value: line 1 column 1 (char 0)").

(** An orchestrator that starts every execution. *)
Definition accepting : platform :=
  {| json_dumps_default_str := sample_dumps;
     json_loads := sample_loads;
     boto3_client := Returned tt;
     start_execution := fun request =>
       Returned
         {| executionArn :=
              "arn:aws:states:us-east-1:123456789012:execution:lab:"
                ++ name request;
            startDate := Some "2024-01-01T00:00:00+00:00" |};
     uuid4_hex := "0123456789abcdef0123456789abcdef" |}.

(** An orchestrator at its limit of concurrent executions. *)
Definition throttled : platform :=
  {| json_dumps_default_str := sample_dumps;
     json_loads := sample_loads;
     boto3_client := Returned tt;
     start_execution := fun _ =>
       Raised (ClientError "ExecutionLimitExceeded"
                           "Maximum number of running executions reached");
     uuid4_hex := "0123456789abcdef0123456789abcdef" |}.

Definition fresh : session := {| now := 1700000000; started := [] |}.

Definition trigger_context : LambdaContext :=
  {| function_name := "trigger_workflow"; aws_request_id := "req-7" |}.

Definition sample_request : list (string * pyval) :=
  [ ("userId", PStr "u1"); ("dataType", PStr "sales_data") ].

Definition bogus_request : list (string * pyval) :=
  [ ("userId", PStr "u1"); ("dataType", PStr "bogus") ].

Definition request_without_user : list (string * pyval) :=
  [ ("dataType", PStr "sales_data") ].

Definition request_without_data_type : list (string * pyval) :=
  [ ("userId", PStr "u1") ].

Definition garbled_envelope : list (string * pyval) :=
  [ ("body", PStr "not json") ].

(** An event with an empty body and a request of its own. *)
Definition event_with_empty_body : list (string * pyval) :=
  [ ("body", PStr ""); ("userId", PStr "u1");
    ("dataType", PStr "sales_data") ].



(** A body of 5000 digits: the text of an int beyond the digit limit. *)
Fixpoint digits (n : nat) : string :=
  match n with
  | O => ""
  | S m => String "1" (digits m)
  end.

Definition overlong_body : string := digits 5000.

(** What [json.loads] raises on that body: a [ValueError] that is no
    [JSONDecodeError]. *)
Definition digits_refused : exn :=
  ValueError ("Exceeds the limit (4300 digits) for integer string "
                ++ "conversion: value has 5000 digits; use "
                ++ "sys.set_int_max_str_digits() to increase the limit").

(** A platform whose decoder meets the digit limit on that body. *)
Definition digit_limited : platform :=
  {| json_dumps_default_str := sample_dumps;
     json_loads := fun text =>
       if String.eqb text overlong_body then Raised digits_refused
       else sample_loads text;
     boto3_client := Returned tt;
     start_execution := start_execution accepting;
     uuid4_hex := uuid4_hex accepting |}.

(** Envelopes: a body that decodes to a list, and the overlong body. *)
Definition envelope_of_a_list : list (string * pyval) :=
  [ ("body", PStr "[]") ].

Definition envelope_of_digits : list (string * pyval) :=
  [ ("body", PStr overlong_body) ].

End TriggerWorkflow.

(* ================================================================== *)
(** * More sample inputs *)
(* ================================================================== *)

Module Scenarios.
(** A valid request with a priority and a field the trigger does not
    know. *)
Definition prioritised_request : list (string * pyval) :=
  [ ("userId", PStr "u1"); ("dataType", PStr "sales_data");
    ("priority", PStr "high"); ("debug", PBool true) ].

(** A platform on which the boto3 client cannot be built. *)
Definition without_region : TriggerWorkflow.platform :=
  {| TriggerWorkflow.json_dumps_default_str := TriggerWorkflow.sample_dumps;
     TriggerWorkflow.json_loads := TriggerWorkflow.sample_loads;
     TriggerWorkflow.boto3_client :=
       Raised (OtherError "NoRegionError" "You must specify a region.");
     TriggerWorkflow.start_execution :=
       TriggerWorkflow.start_execution TriggerWorkflow.accepting;
     TriggerWorkflow.uuid4_hex :=
       TriggerWorkflow.uuid4_hex TriggerWorkflow.accepting |}.

(** An orchestrator that cannot be reached. *)
Definition unreachable : TriggerWorkflow.platform :=
  {| TriggerWorkflow.json_dumps_default_str := TriggerWorkflow.sample_dumps;
     TriggerWorkflow.json_loads := TriggerWorkflow.sample_loads;
     TriggerWorkflow.boto3_client := Returned tt;
     TriggerWorkflow.start_execution := fun _ =>
       Raised (OtherError "EndpointConnectionError"
                          "Could not connect to the endpoint URL");
     TriggerWorkflow.uuid4_hex :=
       TriggerWorkflow.uuid4_hex TriggerWorkflow.accepting |}.

(** A task whose dataType is a list. *)
Definition task_with_listed_type : list (string * pyval) :=
  [ ("userId", PStr "u1"); ("dataType", PList [ PStr "sales_data" ]) ].

(** A generator whose every draw is the highest one. *)
Definition unfortunate : runtime :=
  {| entropy := fun _ => 2 ^ 53 - 1; drawn := 0; now := 1700000000 |}.

(** A failed outcome whose score is no number. *)
Definition failed_outcome : list (string * pyval) :=
  [ ("userId", PStr "u1"); ("status", PStr "FAILED");
    ("processingScore", PStr "n/a") ].

(** Outcomes whose numbers arrive as text. *)
Definition outcome_with_text_score : list (string * pyval) :=
  [ ("status", PStr "SUCCESS"); ("processingScore", PStr "0.95") ].

Definition outcome_with_text_count : list (string * pyval) :=
  [ ("status", PStr "SUCCESS"); ("recordsProcessed", PStr "600") ].

(** An outcome whose score is an int too large for a float. *)
Definition outcome_with_huge_score : list (string * pyval) :=
  [ ("userId", PStr "u1"); ("status", PStr "SUCCESS");
    ("processingScore", PInt (10 ^ 400)) ].

End Scenarios.

(* ================================================================== *)
(** * Properties *)
(* ================================================================== *)

Module RunFacts.

(** Injectivity, without the reduction [injection] performs. *)
Lemma returned_eq {S A : Type} (a b : A) (s s' : S) :
  (Returned a, s) = (Returned b, s') -> a = b /\ s = s'.
Proof. intros H. now injection H. Qed.

End RunFacts.

(** ** Numbers: draws, [random.uniform], [round] *)

Module NumFacts.
Local Open Scope Q_scope.

(** Rounding to an integer. *)

Lemma round_half_even_close (y : Q) :
  y - (1 # 2) <= inject_Z (round_half_even y) /\
  inject_Z (round_half_even y) <= y + (1 # 2).
Proof.
  unfold round_half_even.
  pose proof (Qfloor_le y) as Hlo. pose proof (Qlt_floor y) as Hhi.
  rewrite inject_Z_plus in Hhi. change (inject_Z 1) with 1 in Hhi.
  destruct (Qcompare_spec (y - inject_Z (Qfloor y)) (1 # 2)) as [He | Hl | Hg];
    [ destruct (Z.even _) | | ];
    rewrite ?inject_Z_plus; change (inject_Z 1) with 1; split; lra.
Qed.

Lemma round_half_even_above (k : Z) (y : Q) :
  inject_Z k - (1 # 2) < y -> (k <= round_half_even y)%Z.
Proof.
  intros H. destruct (round_half_even_close y) as [Hlo _].
  assert (Hlt : inject_Z (k - 1) < inject_Z (round_half_even y)).
  { unfold Z.sub. rewrite inject_Z_plus, inject_Z_opp. change (inject_Z 1) with 1. lra. }
  rewrite <- Zlt_Qlt in Hlt. lia.
Qed.

Lemma round_half_even_below (k : Z) (y : Q) :
  y < inject_Z k + (1 # 2) -> (round_half_even y <= k)%Z.
Proof.
  intros H. destruct (round_half_even_close y) as [_ Hhi].
  assert (Hlt : inject_Z (round_half_even y) < inject_Z (k + 1)).
  { rewrite inject_Z_plus. change (inject_Z 1) with 1. lra. }
  rewrite <- Zlt_Qlt in Hlt. lia.
Qed.

Lemma round_half_even_lower (k : Z) (y : Q) :
  inject_Z k <= y -> (k <= round_half_even y)%Z.
Proof. intros H. apply round_half_even_above. lra. Qed.

Lemma round_half_even_upper (k : Z) (y : Q) :
  y <= inject_Z k -> (round_half_even y <= k)%Z.
Proof. intros H. apply round_half_even_below. lra. Qed.

Lemma round_half_even_monotone (x y : Q) :
  x <= y -> (round_half_even x <= round_half_even y)%Z.
Proof.
  intros Hxy.
  pose proof (Qfloor_resp_le x y Hxy) as Hfloor.
  destruct (Z.eq_dec (Qfloor x) (Qfloor y)) as [Heq | Hne].
  - unfold round_half_even. rewrite Heq.
    destruct (Qcompare_spec (x - inject_Z (Qfloor y)) (1 # 2)) as [He | Hl | Hg];
      destruct (Qcompare_spec (y - inject_Z (Qfloor y)) (1 # 2))
        as [He' | Hl' | Hg'];
      try destruct (Z.even _); try lia; lra.
  - apply Z.le_trans with (Qfloor y).
    + apply round_half_even_upper.
      pose proof (Qlt_floor x) as Hx.
      assert (Hle : (Qfloor x + 1 <= Qfloor y)%Z) by lia.
      rewrite Zle_Qle in Hle. lra.
    + apply round_half_even_lower. apply Qfloor_le.
Qed.

(** Powers of two. *)
Lemma pow2_pos (e : Z) : 0 < pow2 e.
Proof. apply Qpower_0_lt. reflexivity. Qed.

Lemma pow2_succ (e : Z) : pow2 (e + 1) == 2 * pow2 e.
Proof.
  unfold pow2. rewrite Qpower_plus by discriminate.
  change (2 ^ 1) with 2. ring.
Qed.

Lemma pow2_le (m n : Z) : (m <= n)%Z -> pow2 m <= pow2 n.
Proof. intros H. apply Qpower_le_compat_l; [ exact H | discriminate ]. Qed.

Lemma pow2_lt (m n : Z) : (m < n)%Z -> pow2 m < pow2 n.
Proof. intros H. apply Qpower_lt_compat_l; [ exact H | reflexivity ]. Qed.

Lemma pow2_lt_inv (m n : Z) : pow2 m < pow2 n -> (m < n)%Z.
Proof. intros H. apply (Qpower_lt_compat_l_inv 2); [ exact H | reflexivity ]. Qed.

Lemma pow2_Z (n : Z) : (0 <= n)%Z -> pow2 n == inject_Z (2 ^ n).
Proof. intros H. unfold pow2. now rewrite Zpower_Qpower. Qed.

(** The exponent of a real. *)
Lemma log2_bounds (n : Z) :
  (0 < n)%Z ->
  inject_Z (2 ^ Z.log2 n) <= inject_Z n /\
  inject_Z n < inject_Z (2 ^ (Z.log2 n + 1)).
Proof.
  intros H. destruct (Z.log2_spec n H) as [Hlo Hhi].
  rewrite <- Zle_Qle, <- Zlt_Qlt. replace (Z.log2 n + 1)%Z with (Z.succ (Z.log2 n)) by lia.
  split; assumption.
Qed.

Lemma Qabs_as_fraction (x : Q) :
  Qabs x == inject_Z (Z.abs (Qnum x)) / inject_Z (Zpos (Qden x)).
Proof.
  destruct x as [n d]. unfold Qabs. cbn [Qnum Qden].
  rewrite (Qmake_Qdiv (Z.abs n) d). reflexivity.
Qed.

Lemma binade_spec (x : Q) :
  ~ x == 0 ->
  pow2 (binade x) <= Qabs x /\ Qabs x < pow2 (binade x + 1).
Proof.
  intros Hx.
  assert (Hn : (0 < Z.abs (Qnum x))%Z).
  { destruct x as [[ | n | n] d]; cbn; try lia. exfalso. apply Hx. reflexivity. }
  assert (Hd : (0 < Zpos (Qden x))%Z) by lia.
  destruct (log2_bounds _ Hn) as [Hn1 Hn2].
  destruct (log2_bounds _ Hd) as [Hd1 Hd2].
  pose proof (Z.log2_nonneg (Z.abs (Qnum x))) as Hln.
  pose proof (Z.log2_nonneg (Zpos (Qden x))) as Hld.
  rewrite <- !pow2_Z in Hn1, Hn2, Hd1, Hd2 by lia.
  set (ln := Z.log2 (Z.abs (Qnum x))) in *.
  set (ld := Z.log2 (Zpos (Qden x))) in *.
  assert (Hdpos : 0 < inject_Z (Zpos (Qden x))).
  { change 0 with (inject_Z 0). now rewrite <- Zlt_Qlt. }
  (* |x| * d = n *)
  assert (Habs : Qabs x * inject_Z (Zpos (Qden x)) == inject_Z (Z.abs (Qnum x))).
  { rewrite Qabs_as_fraction. field. lra. }
  assert (Hsplit : pow2 ln == pow2 (ln - ld) * pow2 ld).
  { unfold pow2. rewrite <- Qpower_plus by discriminate. 
    replace (ln - ld + ld)%Z with ln by lia. reflexivity. }
  pose proof (pow2_pos (ln - ld)) as Hk. pose proof (pow2_pos ld) as Hpld.
  pose proof (pow2_succ ld) as Hsld. pose proof (pow2_succ ln) as Hsln.
  pose proof (pow2_succ (ln - ld)) as Hsk.
  pose proof (pow2_succ (ln - ld - 1)) as Hsk1.
  replace (ln - ld - 1 + 1)%Z with (ln - ld)%Z in Hsk1 by lia.
  pose proof (Qabs_nonneg x) as Hnonneg.
  unfold binade. fold ln ld.
  destruct (Qle_bool (pow2 (ln - ld)) (Qabs x)) eqn:Htest.
  - apply Qle_bool_iff in Htest. split; [ exact Htest | ].
    rewrite Hsk. nra.
  - assert (Hlt : Qabs x < pow2 (ln - ld)).
    { apply Qnot_le_lt. intros Hle. apply Qle_bool_iff in Hle. congruence. }
    replace (ln - ld - 1 + 1)%Z with (ln - ld)%Z by lia.
    split; [ | exact Hlt ].
    nra.
Qed.

Lemma binade_unique (x : Q) (e : Z) :
  pow2 e <= Qabs x -> Qabs x < pow2 (e + 1) -> binade x = e.
Proof.
  intros Hlo Hhi.
  assert (Hx : ~ x == 0).
  { intros H0. rewrite H0 in Hlo. pose proof (pow2_pos e). 
    change (Qabs 0) with 0 in Hlo. lra. }
  destruct (binade_spec x Hx) as [Hlo' Hhi'].
  assert (H1 : (binade x < e + 1)%Z) by (apply pow2_lt_inv; lra).
  assert (H2 : (e < binade x + 1)%Z) by (apply pow2_lt_inv; lra).
  lia.
Qed.

(** Rounding to a float. *)
Lemma double_unfold (x : Q) :
  ~ x == 0 ->
  double x == inject_Z (round_half_even (x / pow2 (binade x - 52)))
          * pow2 (binade x - 52).
Proof.
  intros Hx. unfold double.
  destruct (Qeq_bool x 0) eqn:H0.
  - apply Qeq_bool_iff in H0. contradiction.
  - apply Qred_correct.
Qed.

Lemma double_zero (x : Q) : x == 0 -> double x == 0.
Proof.
  intros Hx. unfold double. apply Qeq_bool_iff in Hx. rewrite Hx. reflexivity.
Qed.

Lemma double_nonneg (x : Q) : 0 <= x -> 0 <= double x.
Proof.
  intros Hx. destruct (Qeq_dec x 0) as [H0 | H0].
  - rewrite (double_zero x H0). lra.
  - rewrite (double_unfold x H0).
    pose proof (pow2_pos (binade x - 52)) as Hu.
    apply Qmult_le_0_compat; [ | lra ].
    change 0 with (inject_Z 0). rewrite <- Zle_Qle.
    apply round_half_even_lower. change (inject_Z 0) with 0.
    apply Qle_shift_div_l; [ exact Hu | lra ].
Qed.

Lemma double_close (x : Q) :
  ~ x == 0 ->
  x - pow2 (binade x - 53) <= double x /\ double x <= x + pow2 (binade x - 53).
Proof.
  intros Hx. rewrite (double_unfold x Hx).
  pose proof (pow2_pos (binade x - 52)) as Hu.
  pose proof (pow2_succ (binade x - 53)) as Hhalf.
  replace (binade x - 53 + 1)%Z with (binade x - 52)%Z in Hhalf by lia.
  set (u := pow2 (binade x - 52)) in *.
  destruct (round_half_even_close (x / u)) as [Hlo Hhi].
  assert (Hxu : x / u * u == x) by (field; lra).
  set (m := inject_Z (round_half_even (x / u))) in *.
  set (y := x / u) in *.
  split; nra.
Qed.

Lemma double_close_unit (x : Q) :
  - (1) <= x -> x <= 1 -> x - epsilon <= double x /\ double x <= x + epsilon.
Proof.
  intros Hlo Hhi. destruct (Qeq_dec x 0) as [H0 | H0].
  - rewrite (double_zero x H0). unfold epsilon. split; lra.
  - destruct (double_close x H0) as [H1 H2].
    destruct (binade_spec x H0) as [Hb _].
    assert (Habs : Qabs x <= 1) by (apply Qabs_Qle_condition; lra).
    assert (Hexp : (binade x <= 0)%Z).
    { assert (H : (binade x < 1)%Z); [ | lia ].
      apply pow2_lt_inv. change (pow2 1) with 2. lra. }
    assert (Hpow : pow2 (binade x - 53) <= epsilon).
    { change epsilon with (pow2 (-53)). apply pow2_le. lia. }
    unfold epsilon in *. split; lra.
Qed.

Lemma double_monotone_in_binade (x y : Q) (e : Z) :
  0 < x -> pow2 e <= x -> x <= y -> y < pow2 (e + 1) -> double x <= double y.
Proof.
  intros Hpos Hlo Hxy Hhi.
  assert (Hbx : binade x = e).
  { apply binade_unique; rewrite Qabs_pos; lra. }
  assert (Hby : binade y = e).
  { apply binade_unique; rewrite Qabs_pos; lra. }
  rewrite (double_unfold x), (double_unfold y) by (intros H0; rewrite H0 in *; lra).
  rewrite Hbx, Hby.
  pose proof (pow2_pos (e - 52)) as Hu.
  apply Qmult_le_compat_r; [ | lra ].
  rewrite <- Zle_Qle. apply round_half_even_monotone.
  apply Qmult_le_compat_r; [ exact Hxy | ].
  apply Qlt_le_weak, Qinv_lt_0_compat, Hu.
Qed.

Lemma Qlt_bool_iff (x y : Q) : Qlt_bool x y = true <-> x < y.
Proof.
  unfold Qlt_bool. rewrite negb_true_iff, <- not_true_iff_false, Qle_bool_iff.
  split; [apply Qnot_le_lt | apply Qlt_not_le].
Qed.

Lemma Qlt_bool_false_iff (x y : Q) : Qlt_bool x y = false <-> y <= x.
Proof.
  unfold Qlt_bool. rewrite negb_false_iff. apply Qle_bool_iff.
Qed.

(** [random.random()] lies in [0, 1). *)
Lemma unit_float_range (raw : Z) : 0 <= unit_float raw /\ unit_float raw < 1.
Proof.
  unfold unit_float.
  pose proof (Z.mod_pos_bound raw (2 ^ 53) eq_refl) as [Hlo Hhi].
  split.
  - unfold Qle; simpl. lia.
  - unfold Qlt; simpl. lia.
Qed.

(** [random.uniform(a, b)] is not negative when [0 <= a <= b]: no rounding
    crosses zero. *)
Lemma uniform_nonneg (a b r : Q) :
  0 <= a -> a <= b -> 0 <= r -> 0 <= fadd a (fmul (fsub b a) r).
Proof.
  intros Ha Hab Hr. unfold fadd, fmul, fsub.
  assert (Hd : 0 <= double (b - a)) by (apply double_nonneg; lra).
  assert (Hp : 0 <= double (double (b - a) * r)).
  { apply double_nonneg. apply Qmult_le_0_compat; assumption. }
  apply double_nonneg. lra.
Qed.

Lemma double_0_7 : double (7 # 10) = 3152519739159347 # 4503599627370496.
Proof. vm_compute. reflexivity. Qed.

Lemma width_0_7_0_99 :
  fsub (double (99 # 100)) (double (7 # 10))
  = 326510972984361 # 1125899906842624.
Proof. vm_compute. reflexivity. Qed.

(** [random.uniform(0.7, 0.99)], rounding included, stays within half a
    thousandth of the two ends. *)
Lemma score_draw_range (r : Q) :
  0 <= r -> r < 1 ->
  let x := fadd (double (7 # 10))
                (fmul (fsub (double (99 # 100)) (double (7 # 10))) r) in
  6995 # 10000 < x /\ x < 9905 # 10000.
Proof.
  intros Hr0 Hr1. rewrite width_0_7_0_99, double_0_7. unfold fadd, fmul.
  set (d := 326510972984361 # 1125899906842624).
  set (a := 3152519739159347 # 4503599627370496).
  assert (Hd : 0 <= d /\ d <= 2901 # 10000) by (unfold d; split; lra).
  assert (Hdr : 0 <= d * r /\ d * r <= 2901 # 10000) by (split; nra).
  destruct (double_close_unit (d * r)) as [Hp1 Hp2]; try lra.
  unfold epsilon in Hp1, Hp2.
  assert (Hp0 : 0 <= double (d * r)) by (apply double_nonneg; lra).
  set (p := double (d * r)) in *.
  assert (Ha : 6999 # 10000 <= a /\ a <= 7 # 10) by (unfold a; split; lra).
  destruct (double_close_unit (a + p)) as [Hs1 Hs2];
    unfold epsilon in *; lra.
Qed.

(** [round(x, 3)] of such a draw is a float between the floats 0.7 and
    0.99. *)
Lemma score_rounding (x : Q) :
  6995 # 10000 < x -> x < 9905 # 10000 ->
  double (7 # 10) <= py_round x 3 /\ py_round x 3 <= double (99 # 100).
Proof.
  intros Hlo Hhi. unfold py_round.
  change (inject_Z (10 ^ Z.of_nat 3)) with (1000 # 1).
  set (k := round_half_even (x * (1000 # 1))).
  assert (Hk1 : (700 <= k)%Z).
  { apply round_half_even_above. change (inject_Z 700) with (700 # 1). lra. }
  assert (Hk2 : (k <= 990)%Z).
  { apply round_half_even_below. change (inject_Z 990) with (990 # 1). lra. }
  rewrite Zle_Qle in Hk1, Hk2.
  change (inject_Z 700) with (700 # 1) in Hk1.
  change (inject_Z 990) with (990 # 1) in Hk2.
  assert (Hq1 : 7 # 10 <= inject_Z k / (1000 # 1)).
  { apply Qle_shift_div_l; lra. }
  assert (Hq2 : inject_Z k / (1000 # 1) <= 99 # 100).
  { apply Qle_shift_div_r; lra. }
  split.
  - apply (double_monotone_in_binade _ _ (-1));
      change (pow2 (-1)) with (1 # 2); change (pow2 (-1 + 1)) with 1; lra.
  - apply (double_monotone_in_binade _ _ (-1));
      change (pow2 (-1)) with (1 # 2); change (pow2 (-1 + 1)) with 1; lra.
Qed.
End NumFacts.

(** ** The Data Processor *)

Module ProcessDataFacts.
Import ProcessData RunFacts NumFacts.

(** Symbolic execution of [attempt] in a hypothesis: unfold the monad and
    the library calls, then split on every test that is met. *)
Ltac run_in H :=
  cbv beta iota zeta delta
    [attempt bind lift ret raise random_uniform random_random random_randint
     randbelow next_raw time_time time_sleep random_choice error_types] in H.

Ltac break_in H :=
  repeat match type of H with
    | context [match ?x with _ => _ end] =>
        lazymatch x with
        | context [match _ with _ => _ end] => fail
        | _ => destruct x eqn:?
        end
    | context [if ?x then _ else _] =>
        lazymatch x with
        | context [match _ with _ => _ end] => fail
        | context [if _ then _ else _] => fail
        | _ => destruct x eqn:?
        end
    end; try discriminate H; cbn [entropy drawn now] in *.

(** Whatever the event, a payload that the attempt returns is a SUCCESS
    payload within the bounds. *)
Lemma attempt_returns_success username event context w result w' :
  attempt username event context w = (Returned result, w') ->
  success_payload result.
Proof.
  intros H. run_in H. break_in H.
  apply returned_eq in H. destruct H as [Hresult _]. subst result.
  match goal with
  | |- success_payload (PDict ?es) =>
      match es with
      | context [("recordsProcessed", PInt ?n)] =>
          match es with
          | context [("processingScore", pyfloat_of ?q)] => exists es, n, q
          end
      end
  end.
  split; [ reflexivity | ].
  split; [ reflexivity | ]. split; [ reflexivity | ].
  split.
  { pose proof (Z.mod_pos_bound (entropy w (S (S (drawn w)))) 901 eq_refl).
    change (1000 - 100 + 1)%Z with 901%Z. lia. }
  split; [ reflexivity | ].
  destruct (unit_float_range (entropy w (S (S (S (drawn w)))))) as [H0 H1].
  destruct (score_draw_range _ H0 H1) as [Hlo Hhi].
  apply score_rounding; assumption.
Qed.

(** The [except] block raises [Exception(str(e))]. *)
Lemma on_exception_raises username entries context start_time e w :
  exists w',
    on_exception username (PDict entries) context start_time e w
    = (Raised (Exception (exn_str e)), w').
Proof. eexists. reflexivity. Qed.

(** Every range of [processing_times], and the default one, is a range of
    non-negative durations. *)
Lemma processing_times_range (s : string) :
  let range := match assoc s processing_times with
               | Some v => v
               | None => (1, 2)%Q
               end in
  (0 <= fst range)%Q /\ (fst range <= snd range)%Q.
Proof.
  cbv beta iota zeta delta [assoc processing_times].
  repeat match goal with
         | |- context [String.eqb ?a ?b] => destruct (String.eqb a b)
         end;
    cbn [fst snd]; split; apply Qle_bool_iff; vm_compute; reflexivity.
Qed.

Ltac run_attempt :=
  cbv beta iota zeta delta
    [attempt bind lift ret raise random_uniform random_random random_randint
     randbelow next_raw time_time time_sleep random_choice error_types
     py_get table_get].

(** With both fields non-empty and a string for the data type, the attempt
    reaches the success draw, which decides between the SUCCESS payload and
    the simulated failure. *)
Lemma attempt_reaches_draw username entries context w s :
  truthy (dict_get entries "userId" (PStr "unknown")) = true ->
  dict_get entries "dataType" (PStr "general") = PStr s ->
  truthy (PStr s) = true ->
  (Qlt_bool (second_draw w) (success_rate_of s) = true ->
   exists rest w',
     attempt username (PDict entries) context w
     = (Returned
          (PDict (("userId", dict_get entries "userId" (PStr "unknown"))
                    :: ("dataType", PStr s)
                    :: ("status", PStr "SUCCESS") :: rest)), w'))
  /\ (Qlt_bool (second_draw w) (success_rate_of s)
      = false ->
      exists error_type w',
        In error_type error_types /\
        attempt username (PDict entries) context w
        = (Raised (Exception ("Data processing failed: " ++ error_type)), w')).
Proof.
  intros Htu Hd Htd.
  pose proof (processing_times_range s) as Hrange.
  run_attempt. rewrite Hd, Htu, Htd. cbn [negb orb].
  destruct (match assoc s processing_times with
            | Some v => v
            | None => (1, 2)%Q
            end) as [min_time max_time].
  cbn [fst snd] in Hrange. destruct Hrange as [Hmin Hminmax].
  cbn [entropy drawn now].
  destruct (unit_float_range (entropy w (drawn w))) as [H0 _].
  assert (Hsleep :
    Qlt_bool (fadd min_time
                   (fmul (fsub max_time min_time)
                         (unit_float (entropy w (drawn w))))) 0 = false).
  { apply Qlt_bool_false_iff. apply uniform_nonneg; assumption. }
  rewrite Hsleep. cbn [entropy drawn now].
  unfold success_rate_of, second_draw.
  split; intros Hdraw; rewrite Hdraw; cbn [entropy drawn now length].
  - eexists _, _. reflexivity.
  - eexists _, _. split; [ | reflexivity ].
    apply nth_In. change (length _) with 4%nat.
    pose proof (Z.mod_pos_bound (entropy w (S (S (drawn w)))) 4 eq_refl).
    change (Z.of_nat 4) with 4%Z. lia.
Qed.

Lemma validation_rejects username entries context w :
  truthy (dict_get entries "userId" (PStr "unknown")) = false \/
  truthy (dict_get entries "dataType" (PStr "general")) = false ->
  attempt username (PDict entries) context w
  = (Raised (ValueError "Missing required fields: userId or dataType"), w).
Proof.
  intros H. run_attempt.
  destruct H as [H | H]; rewrite H; cbn [negb orb];
    [ | rewrite orb_true_r ]; reflexivity.
Qed.

(** C5: for every valid Task Descriptor (non-empty userId and dataType) the
    Data Processor either returns a payload with status SUCCESS, with
    recordsProcessed in [100, 1000] and processingScore in [0.7, 0.99], or
    raises.  It never swallows an error: whatever is raised inside the
    attempt is raised by the handler, as [Exception(str(e))].  And it does
    return: when dataType is a string and the success draw, the second of
    the generator, is below the success rate of that data type. *)
Theorem data_processor_success_or_raise
        environ event context w :
  valid_task_descriptor event ->
  let username := environ_get_default environ "USERNAME" "unknown" in
  ((exists result w',
       lambda_handler environ event context w = (Returned result, w') /\
       success_payload result)
   \/ (exists e w', lambda_handler environ event context w = (Raised e, w')))
  /\ (forall e w1,
         attempt username event context w = (Raised e, w1) ->
         exists w',
           lambda_handler environ event context w
           = (Raised (Exception (exn_str e)), w'))
  /\ (forall s,
         py_get event "dataType" PNone = Returned (PStr s) ->
         Qlt_bool (second_draw w) (success_rate_of s)
         = true ->
         exists result w',
           lambda_handler environ event context w = (Returned result, w')).
Proof.
  intros (entries & user_id & data_type & -> & Hu & Htu & Hd & Htd) username.
  unfold lambda_handler. fold username.
  cbv beta iota delta [bind time_time try_except].
  split; [ | split ].
  - destruct (attempt username (PDict entries) context w)
      as [[result | e] w1] eqn:Hrun.
    + left. exists result, w1. split; [ reflexivity | ].
      exact (attempt_returns_success _ _ _ _ _ _ Hrun).
    + right. destruct (on_exception_raises username entries context (now w) e w1)
        as [w' Hraise].
      exists (Exception (exn_str e)), w'. exact Hraise.
  - intros e w1 Hrun. rewrite Hrun.
    apply on_exception_raises.
  - intros s Hs Hdraw.
    cbv [py_get dict_get] in Hs. rewrite Hd in Hs.
    apply (f_equal (fun o => match o with Returned v => v | Raised _ => PNone end))
      in Hs. subst data_type.
    destruct (attempt_reaches_draw username entries context w s)
      as [Hsuccess _].
    { unfold dict_get. now rewrite Hu. }
    { unfold dict_get. now rewrite Hd. }
    { exact Htd. }
    destruct (Hsuccess Hdraw) as (rest & w' & Hrun).
    rewrite Hrun. eexists _, w'. reflexivity.
Qed.

Lemma data_processor_success_or_raise_witness :
  valid_task_descriptor sample_task /\
  exists result w',
    lambda_handler [] sample_task sample_context lucky = (Returned result, w')
    /\ success_payload result.
Proof.
  assert (Hvalid : valid_task_descriptor sample_task).
  { exists [ ("userId", PStr "u1"); ("dataType", PStr "sales_data") ],
      (PStr "u1"), (PStr "sales_data").
    repeat split; reflexivity. }
  split; [ exact Hvalid | ].
  destruct (data_processor_success_or_raise [] sample_task sample_context lucky
              Hvalid) as (Hpayload & _ & Hreturns).
  destruct (Hreturns "sales_data" eq_refl eq_refl) as (result & w' & Hrun).
  exists result, w'. split; [ exact Hrun | ].
  destruct Hpayload as [(result0 & w0 & Hrun0 & Hsuccess) | (e & w0 & Hrun0)];
    rewrite Hrun in Hrun0.
  - apply returned_eq in Hrun0. destruct Hrun0 as [-> _]. exact Hsuccess.
  - discriminate Hrun0.
Defined.

(** The same run, evaluated. *)
Example sample_task_run :
  fst (lambda_handler [] sample_task sample_context lucky)
  = Returned
      (PDict
         [ ("userId", PStr "u1");
           ("dataType", PStr "sales_data");
           ("status", PStr "SUCCESS");
           ("processedAt", PInt 1700000001);
           ("recordsProcessed", PInt 100);
           ("processingDuration", PFloat (FFin 1));
           ("processingScore", PFloat (FFin (double (7 # 10))));
           ("nextStep", PStr "send_notification");
           ("metadata",
             PDict [ ("username", PStr "unknown");
                     ("functionName", PStr "process_data");
                     ("requestId", PStr "req-1") ]) ]).
Proof. vm_compute. reflexivity. Qed.

(** An unlucky run: the fourth kind of failure is raised. *)
Example sample_task_failure :
  fst (lambda_handler
         [] sample_task sample_context
         {| entropy := fun _ => 2 ^ 53 - 1; drawn := 0; now := 1700000000 |})
  = Raised (Exception "Data processing failed: resource_unavailable").
Proof. vm_compute. reflexivity. Qed.

(** The part of the validation that works: a field that is there and empty
    (or an absent one whose default were empty) is rejected. *)
Lemma empty_field_is_rejected environ entries context w :
  truthy (dict_get entries "userId" (PStr "unknown")) = false \/
  truthy (dict_get entries "dataType" (PStr "general")) = false ->
  lambda_handler environ (PDict entries) context w
  = (Raised (Exception "Missing required fields: userId or dataType"), w).
Proof.
  intros H. unfold lambda_handler.
  cbv beta iota delta [bind time_time try_except].
  rewrite (validation_rejects _ _ _ _ H). reflexivity.
Qed.

(** C1, on the event [{dataType: sales_data}], which has no userId: for
    every environment, context, generator and clock the Data Processor
    takes userId to be [unknown] and goes on; it returns a SUCCESS payload
    for that user or raises a simulated processing failure, and never the
    validation error. *)
Theorem absent_user_id_is_not_rejected environ context w :
  (exists rest w',
      lambda_handler environ task_without_user context w
      = (Returned
           (PDict (("userId", PStr "unknown")
                     :: ("dataType", PStr "sales_data")
                     :: ("status", PStr "SUCCESS") :: rest)), w'))
  \/ (exists error_type w',
         In error_type error_types /\
         lambda_handler environ task_without_user context w
         = (Raised (Exception ("Data processing failed: " ++ error_type)), w')).
Proof.
  unfold lambda_handler, task_without_user.
  cbv beta iota delta [bind time_time try_except].
  destruct (attempt_reaches_draw
              (environ_get_default environ "USERNAME" "unknown")
              [ ("dataType", PStr "sales_data") ] context w "sales_data")
    as [Hsuccess Hfailure]; try reflexivity.
  destruct (Qlt_bool (second_draw w)
                     (success_rate_of "sales_data")) eqn:Hdraw.
  - left. destruct (Hsuccess eq_refl) as (rest & w' & Hrun).
    rewrite Hrun. exists rest, w'. reflexivity.
  - right. destruct (Hfailure eq_refl) as (error_type & w' & Hin & Hrun).
    rewrite Hrun. exists error_type. eexists. split; [ exact Hin | reflexivity ].
Qed.

(** The empty event is processed too, for the user [unknown] and the data
    type [general]. *)
Example empty_event_is_processed :
  fst (lambda_handler [] (PDict []) sample_context lucky)
  = Returned
      (PDict
         [ ("userId", PStr "unknown");
           ("dataType", PStr "general");
           ("status", PStr "SUCCESS");
           ("processedAt", PInt 1700000001);
           ("recordsProcessed", PInt 100);
           ("processingDuration", PFloat (FFin 1));
           ("processingScore", PFloat (FFin (double (7 # 10))));
           ("nextStep", PStr "send_notification");
           ("metadata",
             PDict [ ("username", PStr "unknown");
                     ("functionName", PStr "process_data");
                     ("requestId", PStr "req-1") ]) ]).
Proof. vm_compute. reflexivity. Qed.

(** An event that is no object is refused by [event.get] itself, in the
    [try] block and again in the [except] block. *)
Example list_event_raises :
  fst (lambda_handler [] (PList []) sample_context lucky)
  = Raised (AttributeError "'list' object has no attribute 'get'").
Proof. reflexivity. Qed.

End ProcessDataFacts.

(** ** The Notifier *)

Module SendNotificationFacts.
Import SendNotification RunFacts NumFacts.

Lemma py_gt_real v q c :
  real_of v = Some q ->
  py_gt v (NFloat (FFin c)) = Returned (Qlt_bool c q).
Proof.
  destruct v as [ | b | z | [ | | x] | | | ]; try discriminate;
    intros [= <-]; reflexivity.
Qed.

Lemma py_gt_real_int v q n :
  real_of v = Some q ->
  py_gt v (NInt n) = Returned (Qlt_bool (inject_Z n) q).
Proof.
  destruct v as [ | b | z | [ | | x] | | | ]; try discriminate;
    intros [= <-]; reflexivity.
Qed.

Lemma py_lt_real v q c :
  real_of v = Some q ->
  py_lt v (NFloat (FFin c)) = Returned (Qlt_bool q c).
Proof.
  destruct v as [ | b | z | [ | | x] | | | ]; try discriminate;
    intros [= <-]; reflexivity.
Qed.

Lemma notification_times_range (channel : string) :
  let range := match assoc channel notification_times with
               | Some v => v
               | None => (double (5 # 10), 1%Q)
               end in
  (0 <= fst range)%Q /\ (fst range <= snd range)%Q.
Proof.
  cbv beta iota zeta delta [assoc notification_times].
  repeat match goal with
         | |- context [String.eqb ?a ?b] => destruct (String.eqb a b)
         end;
    cbn [fst snd]; split; apply Qle_bool_iff; vm_compute; reflexivity.
Qed.

Ltac run_send :=
  cbv beta iota zeta delta
    [attempt bind lift ret raise random_uniform random_random random_randint
     randbelow next_raw time_time time_sleep py_get].

(** What the attempt does on a well-typed outcome: the delivery draw
    decides between the SENT record and the simulated failure. *)
Lemma send_attempt_outcome username_ entries context w status_ score records :
  processing_outcome entries status_ score records ->
  (status_ = "SUCCESS" -> printable_score entries) ->
  let delivery := second_draw w in
  let channel := channel_spec status_ score records in
  (Qlt_bool (double (5 # 100)) delivery = true ->
   exists result w',
     attempt username_ (PDict entries) context w = (Returned result, w') /\
     userId result = dict_get entries "userId" (PStr "unknown") /\
     notificationType result = channel /\
     status result = "SENT" /\
     priority result = priority_spec status_ score)
  /\ (Qlt_bool (double (5 # 100)) delivery = false ->
      exists w',
        attempt username_ (PDict entries) context w
        = (Raised (Exception ("Notification service unavailable for "
                                ++ channel)), w')).
Proof.
  intros (Hstatus & Hscore & Hrecords) Hprintable delivery channel.
  pose proof (notification_times_range channel) as Hrange.
  assert (Hformat :
    eq_str (PStr status_) "SUCCESS" = true ->
    format_percent1 (dict_get entries "processingScore" (PFloat (FFin 0)))
    = Returned tt).
  { cbn [eq_str]. intros H. apply String.eqb_eq in H. exact (Hprintable H). }
  clear Hprintable.
  assert (Hchannel :
    (if eq_str (PStr status_) "SUCCESS"
     then
       if Qlt_bool (double (9 # 10)) score then "SMS"
       else if Qlt_bool (inject_Z 500) records then "EMAIL" else "PUSH"
     else "EMAIL") = channel).
  { unfold channel, channel_spec. cbn [eq_str].
    destruct (String.eqb status_ "SUCCESS"); cbn [andb]; [ | reflexivity ].
    destruct (Qlt_bool (double (9 # 10)) score); [ reflexivity | ].
    destruct (Qlt_bool 500 records) eqn:E; change (inject_Z 500) with 500%Q;
      rewrite E; reflexivity. }
  assert (Hpriority :
    (if eq_str (PStr status_) "SUCCESS"
     then if Qlt_bool score (double (9 # 10)) then "normal" else "high"
     else "high") = priority_spec status_ score).
  { unfold priority_spec, Qlt_bool. cbn [eq_str].
    destruct (String.eqb status_ "SUCCESS"); cbn [negb orb]; [ | reflexivity ].
    destruct (Qle_bool (double (9 # 10)) score); reflexivity. }
  clearbody channel.
  run_send. rewrite Hstatus.
  rewrite (py_gt_real _ _ (double (9 # 10)) Hscore).
  rewrite (py_gt_real_int _ _ 500 Hrecords).
  rewrite (py_lt_real _ _ (double (9 # 10)) Hscore).
  destruct (eq_str (PStr status_) "SUCCESS");
    [ rewrite (Hformat eq_refl);
      destruct (Qlt_bool (double (9 # 10)) score);
      [ | destruct (Qlt_bool (inject_Z 500) records) ] | ];
    subst channel; cbv beta iota.
  all: destruct (match assoc _ notification_times with
                 | Some range => range
                 | None => (double (5 # 10), 1%Q)
                 end) as [min_time max_time].
  all: cbn [fst snd] in Hrange; destruct Hrange as [Hmin Hminmax].
  all: destruct (unit_float_range (entropy w (drawn w))) as [H0 _].
  all: assert (Hsleep :
         Qlt_bool (fadd min_time
                        (fmul (fsub max_time min_time)
                              (unit_float (entropy w (drawn w))))) 0 = false)
         by (apply Qlt_bool_false_iff; apply uniform_nonneg; assumption).
  all: rewrite Hsleep; cbn [entropy drawn now].
  all: unfold delivery, second_draw; split; intros Hdraw; rewrite Hdraw;
    cbn [negb].
  all: cbn [entropy drawn now].
  all: try (eexists; reflexivity).
  all: eexists _, _; split; [ reflexivity | ].
  all: cbn [userId notificationType status priority].
  all: repeat split; try reflexivity; exact Hpriority.
Qed.

(** On a SUCCESS whose score cannot be printed the attempt raises what the
    format raises. *)
Lemma unprintable_attempt_raises username_ entries context w score records e :
  processing_outcome entries "SUCCESS" score records ->
  format_percent1 (dict_get entries "processingScore" (PFloat (FFin 0)))
  = Raised e ->
  exists w', attempt username_ (PDict entries) context w = (Raised e, w').
Proof.
  intros (Hstatus & Hscore & Hrecords) Hformat.
  run_send. rewrite Hstatus, Hformat.
  rewrite (py_gt_real _ _ (double (9 # 10)) Hscore).
  rewrite (py_gt_real_int _ _ 500 Hrecords).
  cbn [eq_str String.eqb Ascii.eqb Bool.eqb].
  destruct (Qlt_bool (double (9 # 10)) score);
    [ | destruct (Qlt_bool (inject_Z 500) records) ]; cbv beta iota.
  all: match goal with
       | |- context [assoc ?channel notification_times] =>
           pose proof (notification_times_range channel) as Hrange
       end.
  all: destruct (match assoc _ notification_times with
                 | Some range => range
                 | None => (double (5 # 10), 1%Q)
                 end) as [min_time max_time].
  all: cbn [fst snd] in Hrange; destruct Hrange as [Hmin Hminmax].
  all: destruct (unit_float_range (entropy w (drawn w))) as [H0 _].
  all: assert (Hsleep :
         Qlt_bool (fadd min_time
                        (fmul (fsub max_time min_time)
                              (unit_float (entropy w (drawn w))))) 0 = false)
         by (apply Qlt_bool_false_iff; apply uniform_nonneg; assumption).
  all: rewrite Hsleep; cbn [entropy drawn now].
  all: eexists; reflexivity.
Qed.

Lemma notifier_outcome environ entries context w status_ score records :
  processing_outcome entries status_ score records ->
  (status_ = "SUCCESS" -> printable_score entries) ->
  let delivery := second_draw w in
  let channel := channel_spec status_ score records in
  (Qlt_bool (double (5 # 100)) delivery = true ->
   exists result w',
     lambda_handler environ (PDict entries) context w = (Returned result, w') /\
     userId result = dict_get entries "userId" (PStr "unknown") /\
     notificationType result = channel /\
     status result = "SENT" /\
     priority result = priority_spec status_ score)
  /\ (Qlt_bool (double (5 # 100)) delivery = false ->
      exists w',
        lambda_handler environ (PDict entries) context w
        = (Raised (Exception ("Notification service unavailable for "
                                ++ channel)), w')).
Proof.
  intros Houtcome Hprintable delivery channel.
  destruct (send_attempt_outcome
              (environ_get_default environ "USERNAME" "unknown")
              entries context w status_ score records Houtcome Hprintable)
    as [Hsent Hfailed].
  unfold lambda_handler. cbv beta iota delta [bind time_time try_except].
  split; intros Hdraw.
  - destruct (Hsent Hdraw) as (result & w' & Hrun & Hfields).
    rewrite Hrun. exists result, w'. split; [ reflexivity | exact Hfields ].
  - destruct (Hfailed Hdraw) as (w' & Hrun).
    rewrite Hrun. eexists. reflexivity.
Qed.

(** What is known of a record returned for a well-typed outcome. *)
Lemma returned_record_of_outcome
      environ entries context w status_ score records result w' :
  processing_outcome entries status_ score records ->
  lambda_handler environ (PDict entries) context w = (Returned result, w') ->
  notificationType result = channel_spec status_ score records /\
  priority result = priority_spec status_ score.
Proof.
  intros Houtcome Hrun.
  assert (Hprintable : status_ = "SUCCESS" -> printable_score entries).
  { intros ->. unfold printable_score.
    destruct (format_percent1
                (dict_get entries "processingScore" (PFloat (FFin 0))))
      as [[] | e] eqn:Hformat; [ reflexivity | exfalso ].
    destruct (unprintable_attempt_raises
                (environ_get_default environ "USERNAME" "unknown")
                entries context w score records e Houtcome Hformat)
      as (w1 & Hraise).
    revert Hrun. unfold lambda_handler.
    cbv beta iota delta [bind time_time try_except]. rewrite Hraise.
    discriminate. }
  destruct (notifier_outcome environ entries context w status_ score records
              Houtcome Hprintable) as [Hsent Hfailed].
  destruct (Qlt_bool (double (5 # 100)) (second_draw w)).
  - destruct (Hsent eq_refl)
      as (result0 & w0 & Hrun0 & _ & Hchannel & _ & Hpriority).
    rewrite Hrun in Hrun0. apply returned_eq in Hrun0.
    destruct Hrun0 as [<- _]. split; assumption.
  - destruct (Hfailed eq_refl) as (w0 & Hrun0).
    rewrite Hrun in Hrun0. discriminate Hrun0.
Qed.

Lemma priority_spec_high status_ score :
  priority_spec status_ score = "high" <->
  (status_ <> "SUCCESS" \/ (double (9 # 10) <= score)%Q).
Proof.
  unfold priority_spec.
  destruct (String.eqb_spec status_ "SUCCESS") as [Heq | Hne]; cbn [negb orb].
  - destruct (Qle_bool (double (9 # 10)) score) eqn:Hle.
    + apply Qle_bool_iff in Hle. split; [ now right | reflexivity ].
    + split; [ discriminate | ].
      intros [Hne | Hle']; [ contradiction | ].
      apply Qle_bool_iff in Hle'. congruence.
  - split; [ now left | reflexivity ].
Qed.

Lemma priority_spec_normal status_ score :
  priority_spec status_ score = "normal" <->
  ~ (status_ <> "SUCCESS" \/ (double (9 # 10) <= score)%Q).
Proof.
  rewrite <- priority_spec_high. unfold priority_spec.
  destruct (negb (String.eqb status_ "SUCCESS") || Qle_bool (double (9 # 10)) score);
    split; try discriminate; try reflexivity; intros H; now contradiction H.
Qed.

(** C3: the channel depends on (status, processingScore, recordsProcessed)
    alone, and is the one the specification names.  For every Processing
    Outcome, whatever the environment, the context, the other fields, the
    generator and the clock, every record the Notifier returns has the
    notificationType [channel_spec status score records]; and when the
    score can be printed as a percentage (it is a float, or an int that
    converts to one; it is printed for status SUCCESS only), the Notifier
    either returns such a record or reports that this very channel is
    unavailable. *)
Theorem channel_selection environ entries context w status_ score records :
  processing_outcome entries status_ score records ->
  let channel := channel_spec status_ score records in
  (forall result w',
      lambda_handler environ (PDict entries) context w = (Returned result, w') ->
      notificationType result = channel)
  /\ ((status_ = "SUCCESS" -> printable_score entries) ->
      (exists result w',
          lambda_handler environ (PDict entries) context w
          = (Returned result, w') /\
          notificationType result = channel)
      \/ (exists w',
             lambda_handler environ (PDict entries) context w
             = (Raised (Exception ("Notification service unavailable for "
                                     ++ channel)), w'))).
Proof.
  intros Houtcome channel. split.
  - intros result w' Hrun.
    apply (returned_record_of_outcome _ _ _ _ _ _ _ _ _ Houtcome Hrun).
  - intros Hprintable.
    destruct (notifier_outcome environ entries context w status_ score records
                Houtcome Hprintable) as [Hsent Hfailed].
    destruct (Qlt_bool (double (5 # 100)) (second_draw w)).
    + left.
      destruct (Hsent eq_refl) as (result & w' & Hrun & _ & Hchannel & _).
      exists result, w'. split; assumption.
    + right. exact (Hfailed eq_refl).
Qed.

(** C10: on a Processing Outcome every record the Notifier returns has
    priority high exactly when status is not SUCCESS or processingScore is
    at least 0.9, and priority normal otherwise; and the Notifier does
    return one whenever the delivery draw, the second of the generator, is
    above 0.05 and the score can be printed as a percentage (a float, or an
    int that converts to one; it is printed for status SUCCESS only). *)
Theorem priority_rule environ entries context w status_ score records :
  processing_outcome entries status_ score records ->
  ((status_ = "SUCCESS" -> printable_score entries) ->
   Qlt_bool (double (5 # 100)) (second_draw w) = true ->
   exists result w',
     lambda_handler environ (PDict entries) context w = (Returned result, w'))
  /\ (forall result w',
         lambda_handler environ (PDict entries) context w
         = (Returned result, w') ->
         (priority result = "high" <->
          (status_ <> "SUCCESS" \/ (double (9 # 10) <= score)%Q))
         /\ (priority result = "normal" <->
             ~ (status_ <> "SUCCESS" \/ (double (9 # 10) <= score)%Q))).
Proof.
  intros Houtcome. split.
  - intros Hprintable Hdraw.
    destruct (notifier_outcome environ entries context w status_ score records
                Houtcome Hprintable) as [Hsent _].
    destruct (Hsent Hdraw) as (result & w' & Hrun & _).
    exists result, w'. exact Hrun.
  - intros result w' Hrun.
    destruct (returned_record_of_outcome _ _ _ _ _ _ _ _ _ Houtcome Hrun)
      as [_ Hpriority].
    rewrite Hpriority.
    split; [ apply priority_spec_high | apply priority_spec_normal ].
Qed.

(** C2, as amended: the Notifier validates nothing.  For a Processing
    Outcome without userId (status a string, processingScore and
    recordsProcessed real numbers, the score printable as a percentage when
    status is SUCCESS) it takes the user to be [unknown] and proceeds with
    the send: it returns a SENT record for that user when the delivery draw
    is above 0.05, and otherwise raises the simulated delivery failure,
    which is no validation error. *)
Theorem missing_user_id_is_defaulted
        environ entries context w status_ score records :
  assoc "userId" entries = None ->
  processing_outcome entries status_ score records ->
  (status_ = "SUCCESS" -> printable_score entries) ->
  let delivery := second_draw w in
  (Qlt_bool (double (5 # 100)) delivery = true ->
   exists result w',
     lambda_handler environ (PDict entries) context w = (Returned result, w') /\
     userId result = PStr "unknown" /\ status result = "SENT")
  /\ (Qlt_bool (double (5 # 100)) delivery = false ->
      exists w',
        lambda_handler environ (PDict entries) context w
        = (Raised (Exception ("Notification service unavailable for "
                                ++ channel_spec status_ score records)), w')).
Proof.
  intros Habsent Houtcome Hprintable delivery.
  destruct (notifier_outcome environ entries context w status_ score records
              Houtcome Hprintable) as [Hsent Hfailed].
  split; [ | exact Hfailed ].
  intros Hdraw.
  destruct (Hsent Hdraw) as (result & w' & Hrun & Huser & _ & Hstate & _).
  exists result, w'. repeat split; try assumption.
  rewrite Huser. unfold dict_get. now rewrite Habsent.
Qed.

Lemma excellent_outcome_is_read :
  processing_outcome excellent_outcome
                     "SUCCESS" (double (95 # 100)) (inject_Z 600).
Proof. split; [ | split ]; reflexivity. Defined.

Lemma outcome_without_user_is_read :
  processing_outcome outcome_without_user
                     "SUCCESS" (double (8 # 10)) (inject_Z 600).
Proof. split; [ | split ]; reflexivity. Defined.

Lemma channel_selection_witness :
  processing_outcome excellent_outcome
                     "SUCCESS" (double (95 # 100)) (inject_Z 600) /\
  printable_score excellent_outcome /\
  ((exists result w',
       lambda_handler [] (PDict excellent_outcome) sample_context steady
       = (Returned result, w') /\
       notificationType result = "SMS")
   \/ (exists w',
          lambda_handler [] (PDict excellent_outcome) sample_context steady
          = (Raised (Exception "Notification service unavailable for SMS"),
             w'))).
Proof.
  split; [ exact excellent_outcome_is_read | ].
  split; [ reflexivity | ].
  destruct (channel_selection [] excellent_outcome sample_context steady
              "SUCCESS" (double (95 # 100)) (inject_Z 600)
              excellent_outcome_is_read) as [_ Hchannel].
  exact (Hchannel (fun _ => eq_refl)).
Defined.

Lemma priority_rule_witness :
  processing_outcome excellent_outcome
                     "SUCCESS" (double (95 # 100)) (inject_Z 600) /\
  printable_score excellent_outcome /\
  exists result w',
    lambda_handler [] (PDict excellent_outcome) sample_context steady
    = (Returned result, w') /\
    priority result = "high".
Proof.
  split; [ exact excellent_outcome_is_read | ].
  split; [ reflexivity | ].
  destruct (priority_rule [] excellent_outcome sample_context steady
              "SUCCESS" (double (95 # 100)) (inject_Z 600)
              excellent_outcome_is_read)
    as [Hreturns Hpriority].
  destruct (Hreturns (fun _ => eq_refl) eq_refl) as (result & w' & Hrun).
  exists result, w'. split; [ exact Hrun | ].
  apply (Hpriority result w' Hrun). right.
  apply Qle_bool_iff. vm_compute. reflexivity.
Defined.

Lemma missing_user_id_is_defaulted_witness :
  assoc "userId" outcome_without_user = None /\
  processing_outcome outcome_without_user
                     "SUCCESS" (double (8 # 10)) (inject_Z 600) /\
  printable_score outcome_without_user /\
  (exists result w',
      lambda_handler [] (PDict outcome_without_user) sample_context steady
      = (Returned result, w') /\
      userId result = PStr "unknown" /\ status result = "SENT")
  /\ (exists w',
         lambda_handler [] (PDict outcome_without_user) sample_context unlucky
         = (Raised (Exception "Notification service unavailable for EMAIL"),
            w')).
Proof.
  split; [ reflexivity | ].
  split; [ exact outcome_without_user_is_read | ].
  split; [ reflexivity | ].
  split.
  - apply (missing_user_id_is_defaulted
             [] outcome_without_user sample_context steady
             "SUCCESS" (double (8 # 10)) (inject_Z 600)
             eq_refl outcome_without_user_is_read (fun _ => eq_refl)).
    reflexivity.
  - apply (missing_user_id_is_defaulted
             [] outcome_without_user sample_context unlucky
             "SUCCESS" (double (8 # 10)) (inject_Z 600)
             eq_refl outcome_without_user_is_read (fun _ => eq_refl)).
    reflexivity.
Defined.

(** The four examples of the specification. *)
Example channel_of_excellent_score :
  channel_spec "SUCCESS" (double (95 # 100)) 0 = "SMS".
Proof. reflexivity. Qed.

Example channel_of_large_dataset :
  channel_spec "SUCCESS" (double (5 # 10)) 600 = "EMAIL".
Proof. reflexivity. Qed.

Example channel_of_small_job :
  channel_spec "SUCCESS" (double (5 # 10)) 100 = "PUSH".
Proof. reflexivity. Qed.

Example channel_of_failure (score records : Q) :
  channel_spec "FAILED" score records = "EMAIL".
Proof. reflexivity. Qed.

(** A run of the Notifier, evaluated. *)
Example excellent_outcome_run :
  exists result,
    fst (lambda_handler [] (PDict excellent_outcome) sample_context steady)
    = Returned result /\
    userId result = PStr "u1" /\
    notificationType result = "SMS" /\
    priority result = "high" /\
    sendDuration result = 1 # 2 /\
    deliveryId result = "sms_1700000000_7496".
Proof. eexists. split; [ vm_compute; reflexivity | repeat split ]. Qed.

(** C2 fails as stated: a Processing Outcome without userId is sent, by
    e-mail, to the user [unknown]. *)
Lemma notifier_accepts_missing_user_id :
  assoc "userId" outcome_without_user = None /\
  exists result w',
    lambda_handler [] (PDict outcome_without_user) sample_context steady
    = (Returned result, w') /\
    userId result = PStr "unknown" /\ status result = "SENT" /\
    notificationType result = "EMAIL".
Proof.
  split; [ reflexivity | ].
  eexists _, _. split; [ vm_compute; reflexivity | ].
  repeat split.
Qed.
End SendNotificationFacts.

(** ** The Workflow Trigger *)

Module TriggerWorkflowFacts.
Import TriggerWorkflow RunFacts.

Lemma create_error_response_run code message s :
  exists r,
    create_error_response code message s = (Returned r, s) /\
    is_error_response r code message.
Proof.
  eexists. split; [ reflexivity | ].
  repeat split. eexists. reflexivity.
Qed.

(** The log line comes first: what it raises, the handler raises. *)
Lemma unlogged_event_escapes P environ event context s e :
  json_dumps_default_str P event = Raised e ->
  lambda_handler P environ event context s = (Raised e, s).
Proof.
  intros Hlog. unfold lambda_handler.
  cbv beta iota delta [bind time_time lift]. rewrite Hlog. reflexivity.
Qed.

Lemma lambda_handler_configured P environ event context s arn :
  configured environ arn ->
  json_dumps_default_str P event = Returned tt ->
  lambda_handler P environ event context s
  = try_except
      (attempt P (environ_get_default environ "USERNAME" "unknown")
               arn event context)
      (fun e =>
         _ <- time_time ;;
         create_error_response 500 ("Internal server error: " ++ exn_str e)) s.
Proof.
  intros [Harn Hne] Hlogged. unfold lambda_handler.
  cbv beta iota delta [bind time_time lift]. rewrite Harn, Hlogged.
  destruct arn; [ contradiction | reflexivity ].
Qed.

Ltac break_session H :=
  repeat match type of H with
    | context [match ?x with _ => _ end] =>
        lazymatch x with
        | context [match _ with _ => _ end] => fail
        | context [if _ then _ else _] => fail
        | _ => destruct x eqn:?
        end
    | context [if ?x then _ else _] =>
        lazymatch x with
        | context [match _ with _ => _ end] => fail
        | context [if _ then _ else _] => fail
        | _ => destruct x eqn:?
        end
    end; try discriminate H; cbn [now started] in *.

Lemma on_client_error_headers e s r s' :
  on_client_error e s = (Returned r, s') -> standard_headers r.
Proof.
  intros H.
  cbv beta iota zeta delta
    [on_client_error create_error_response bind ret raise time_time] in H.
  break_session H.
  all: apply returned_eq in H; destruct H as [<- _]; split; reflexivity.
Qed.

Lemma start_workflow_headers P username arn context body s r s' :
  start_workflow P username arn context body s = (Returned r, s') ->
  standard_headers r.
Proof.
  intros H.
  cbv beta iota zeta delta
    [start_workflow bind lift ret raise try_except create_error_response
     call_start_execution time_time] in H.
  destruct (py_get body "userId" PNone) as [user_id | e]; [ | discriminate H ].
  destruct (py_get body "dataType" PNone) as [data_type | e];
    [ | discriminate H ].
  destruct (negb (truthy user_id)).
  { apply returned_eq in H; destruct H as [<- _]; split; reflexivity. }
  destruct (negb (truthy data_type)).
  { apply returned_eq in H; destruct H as [<- _]; split; reflexivity. }
  cbn [now started] in H.
  destruct (start_execution P _) as [reply | e].
  - apply returned_eq in H; destruct H as [<- _]; split; reflexivity.
  - exact (on_client_error_headers _ _ _ _ H).
Qed.

Lemma attempt_response_headers P username arn event context s r s' :
  attempt P username arn event context s = (Returned r, s') ->
  standard_headers r.
Proof.
  intros H.
  cbv beta iota zeta delta
    [attempt bind lift ret raise create_error_response time_time] in H.
  destruct (boto3_client P) as [[] | e]; [ | discriminate H ].
  destruct (py_get event "body" PNone) as [event_body | e];
    [ | discriminate H ].
  destruct (truthy event_body).
  - destruct event_body; try discriminate H.
    destruct (json_loads P s0) as [body | e].
    + exact (start_workflow_headers _ _ _ _ _ _ _ _ H).
    + destruct e; try discriminate H.
      apply returned_eq in H; destruct H as [<- _]; split; reflexivity.
  - exact (start_workflow_headers _ _ _ _ _ _ _ _ H).
Qed.

Lemma lab_is_configured :
  configured lab_environ
             "arn:aws:states:us-east-1:123456789012:stateMachine:lab".
Proof. split; [ reflexivity | discriminate ]. Defined.



(** X28: for every platform (serialiser, decoder, client, orchestrator,
    uuid), environment, context and clock, and every event that the log
    line [json.dumps(event, default=str)] can serialise, the Workflow
    Trigger returns a response [{statusCode, headers, body}], never an
    exception; its headers hold Content-Type and
    Access-Control-Allow-Origin; and an exception that escapes the attempt
    becomes the 500 response [Internal server error: str(e)]. *)
Theorem trigger_responds_once_logged P environ event context s :
  json_dumps_default_str P event = Returned tt ->
  exists r s',
    lambda_handler P environ event context s = (Returned r, s') /\
    standard_headers r /\
    (forall arn e s1,
        configured environ arn ->
        attempt P (environ_get_default environ "USERNAME" "unknown")
                arn event context s = (Raised e, s1) ->
        is_error_response r 500 ("Internal server error: " ++ exn_str e)).
Proof.
  intros Hlogged.
  destruct (environ_get environ "STATE_MACHINE_ARN") as [arn | ] eqn:Harn.
  - destruct (string_dec arn "") as [-> | Hne].
    + unfold lambda_handler. cbv beta iota delta [bind time_time lift].
      rewrite Harn, Hlogged.
      destruct (create_error_response_run
                  500 "Configuration error: STATE_MACHINE_ARN not found" s)
        as (r & Hrun & Hcode & Hheaders & _).
      exists r, s. split; [ exact Hrun | ]. split; [ exact Hheaders | ].
      intros arn e s1 [Harn' Hne]. congruence.
    + rewrite (lambda_handler_configured P environ event context s arn
                 (conj Harn Hne) Hlogged).
      unfold try_except.
      destruct (attempt P _ arn event context s) as [[r | e] s1] eqn:Hrun.
      * exists r, s1. split; [ reflexivity | ].
        split; [ exact (attempt_response_headers _ _ _ _ _ _ _ _ Hrun) | ].
        intros arn' e s2 [Harn' _] Hrun'.
        assert (arn' = arn) by congruence. subst arn'.
        rewrite Hrun in Hrun'. discriminate Hrun'.
      * cbv beta iota delta [bind time_time].
        destruct (create_error_response_run
                    500 ("Internal server error: " ++ exn_str e) s1)
          as (r & Hresp & Herr).
        exists r, s1. split; [ exact Hresp | ].
        split; [ apply Herr | ].
        intros arn' e' s2 [Harn' _] Hrun'.
        assert (arn' = arn) by congruence. subst arn'.
        rewrite Hrun in Hrun'.
        assert (e' = e) by congruence. subst e'. exact Herr.
  - unfold lambda_handler. cbv beta iota delta [bind time_time lift].
    rewrite Harn, Hlogged.
    destruct (create_error_response_run
                500 "Configuration error: STATE_MACHINE_ARN not found" s)
      as (r & Hrun & Hcode & Hheaders & _).
    exists r, s. split; [ exact Hrun | ]. split; [ exact Hheaders | ].
    intros arn e s1 [Harn' Hne]. congruence.
Qed.

Lemma trigger_responds_once_logged_witness :
  json_dumps_default_str Scenarios.unreachable (PDict sample_request)
  = Returned tt /\
  exists r s',
    lambda_handler Scenarios.unreachable lab_environ (PDict sample_request)
                   trigger_context fresh = (Returned r, s') /\
    standard_headers r /\
    is_error_response
      r 500 "Internal server error: Could not connect to the endpoint URL".
Proof.
  split; [ reflexivity | ].
  destruct (trigger_responds_once_logged
              Scenarios.unreachable lab_environ (PDict sample_request)
              trigger_context fresh eq_refl)
    as (r & s' & Hrun & Hheaders & Hescaped).
  exists r, s'. split; [ exact Hrun | ]. split; [ exact Hheaders | ].
  eapply (Hescaped _ (OtherError "EndpointConnectionError"
                                "Could not connect to the endpoint URL")
                   _ lab_is_configured).
  lazy. reflexivity.
Defined.

(** X29: when STATE_MACHINE_ARN is absent (or empty) the Workflow Trigger
    answers 500 [Configuration error] for every platform and every event
    that it could write to its log (the log line comes before the check),
    before anything is validated, and leaves the session as it was: no
    execution is started. *)
Theorem missing_configuration_is_500 P environ event context s :
  environ_get environ "STATE_MACHINE_ARN" = None \/
  environ_get environ "STATE_MACHINE_ARN" = Some "" ->
  json_dumps_default_str P event = Returned tt ->
  exists r,
    lambda_handler P environ event context s = (Returned r, s) /\
    is_error_response
      r 500 "Configuration error: STATE_MACHINE_ARN not found".
Proof.
  intros Hmissing Hlogged. unfold lambda_handler.
  cbv beta iota delta [bind time_time lift]. rewrite Hlogged.
  destruct Hmissing as [-> | ->]; apply create_error_response_run.
Qed.

Lemma missing_configuration_is_500_witness :
  environ_get unconfigured "STATE_MACHINE_ARN" = None /\
  json_dumps_default_str accepting (PDict sample_request) = Returned tt /\
  exists r,
    lambda_handler accepting unconfigured (PDict sample_request)
                   trigger_context fresh
    = (Returned r, fresh) /\
    is_error_response
      r 500 "Configuration error: STATE_MACHINE_ARN not found".
Proof.
  split; [ reflexivity | ]. split; [ reflexivity | ].
  apply (missing_configuration_is_500
           accepting unconfigured (PDict sample_request) trigger_context fresh).
  - left. reflexivity.
  - reflexivity.
Defined.

Lemma start_workflow_rejects_user P username arn context entries s :
  truthy (dict_get entries "userId" PNone) = false ->
  start_workflow P username arn context (PDict entries) s
  = create_error_response 400 "Missing required field: userId" s.
Proof.
  intros H. cbv beta iota zeta delta [start_workflow bind lift py_get].
  rewrite H. reflexivity.
Qed.

Lemma start_workflow_rejects_data_type P username arn context entries s :
  truthy (dict_get entries "userId" PNone) = true ->
  truthy (dict_get entries "dataType" PNone) = false ->
  start_workflow P username arn context (PDict entries) s
  = create_error_response 400 "Missing required field: dataType" s.
Proof.
  intros Hu Hd. cbv beta iota zeta delta [start_workflow bind lift py_get].
  rewrite Hu, Hd. reflexivity.
Qed.

(** What [start_workflow] does once the request passed validation: one call
    of [start_execution], whose outcome decides the response. *)
Lemma start_workflow_calls P username arn context entries s :
  truthy (dict_get entries "userId" PNone) = true ->
  truthy (dict_get entries "dataType" PNone) = true ->
  exists request data_type rest suffix,
    stateMachineArn request = arn /\
    name request = username ++ "-" ++ data_type ++ "-" ++ suffix /\
    input request
    = json_dumps (PDict (("userId", dict_get entries "userId" PNone)
                           :: ("dataType", PStr data_type) :: rest)) /\
    (is_allowed (dict_get entries "dataType" PNone) = true ->
     dict_get entries "dataType" PNone = PStr data_type) /\
    (is_allowed (dict_get entries "dataType" PNone) = false ->
     data_type = "general") /\
    let s1 := {| now := now s; started := (started s ++ [request])%list |} in
    match start_execution P request with
    | Returned reply =>
        exists r,
          start_workflow P username arn context (PDict entries) s
          = (Returned r, s1) /\
          statusCode r = 200 /\
          assoc "X-Request-ID" (headers r) = Some (aws_request_id context)
    | Raised e =>
        start_workflow P username arn context (PDict entries) s
        = on_client_error e s1
    end.
Proof.
  intros Hu Hd.
  cbv beta iota zeta delta
    [start_workflow bind lift ret try_except call_start_execution time_time
     py_get].
  rewrite Hu, Hd. cbn [negb now started].
  match goal with
  | |- context [start_execution P ?request] =>
      exists request;
      match request with
      | {| stateMachineArn := _;
           name := (_ ++ "-" ++ ?data_type ++ "-" ++ ?suffix);
           input := json_dumps (PDict ?input) |} =>
          exists data_type; eexists (tl (tl input)), suffix
      end
  end.
  cbn [stateMachineArn name input].
  split; [ reflexivity | ]. split; [ reflexivity | ].
  split.
  { destruct (has_key entries "priority"), (has_key entries "options");
      reflexivity. }
  split.
  { destruct (dict_get entries "dataType" PNone); try discriminate.
    intros ->. reflexivity. }
  split.
  { destruct (dict_get entries "dataType" PNone); try reflexivity.
    intros ->. reflexivity. }
  destruct (start_execution P _) as [reply | e].
  - eexists. split; [ reflexivity | ]. split; reflexivity.
  - destruct e; reflexivity.
Qed.

(** The mapping of the [except ClientError] block. *)
Lemma on_client_error_run code message s :
  exists r,
    on_client_error (ClientError code message) s = (Returned r, s) /\
    (code = "ExecutionLimitExceeded" ->
     is_error_response r 429 "Too many concurrent executions") /\
    (code = "StateMachineDoesNotExist" ->
     is_error_response r 500 "Step Functions state machine not found") /\
    (code = "InvalidParameterValue" ->
     is_error_response r 400 ("Invalid parameter: " ++ message)) /\
    (code <> "ExecutionLimitExceeded" ->
     code <> "StateMachineDoesNotExist" ->
     code <> "InvalidParameterValue" ->
     is_error_response r 500 ("Step Functions error: " ++ message)).
Proof.
  unfold on_client_error.
  destruct (String.eqb_spec code "StateMachineDoesNotExist") as [-> | H1];
    [ | destruct (String.eqb_spec code "InvalidParameterValue") as [-> | H2];
        [ | destruct (String.eqb_spec code "ExecutionLimitExceeded")
              as [-> | H3] ] ].
  all: match goal with
       | |- context [create_error_response ?c ?m ?s0] =>
           destruct (create_error_response_run c m s0) as (r & -> & Herr)
       end.
  all: exists r; split; [ reflexivity | ].
  all: (split; [ | split; [ | split ] ]); intros; try congruence; exact Herr.
Qed.

(** *** A configured trigger

    From here on the workflow identifier is configured and the boto3 client
    gets built: the handler reaches the request. *)

Section Configured.

Variable P : platform.
Variable environ : list (string * string).
Variable arn : string.
Hypothesis Hconfigured : configured environ arn.
Hypothesis Hclient : boto3_client P = Returned tt.
Variable event : pyval.
Variable context : LambdaContext.
Variable s : session.

(** The handler is [start_workflow] on the request the event carries, under
    the outer [except]. *)
Lemma handler_on_payload body :
  payload_of P event body ->
  lambda_handler P environ event context s
  = try_except
      (start_workflow P (environ_get_default environ "USERNAME" "unknown")
                      arn context body)
      (fun e =>
         _ <- time_time ;;
         create_error_response 500 ("Internal server error: " ++ exn_str e)) s.
Proof.
  intros Hpayload.
  assert (Hlogged : json_dumps_default_str P event = Returned tt)
    by (destruct Hpayload; assumption).
  rewrite (lambda_handler_configured P environ event context s arn
             Hconfigured Hlogged).
  unfold try_except.
  replace (attempt P (environ_get_default environ "USERNAME" "unknown")
                   arn event context s)
    with (start_workflow P (environ_get_default environ "USERNAME" "unknown")
                         arn context body s); [ reflexivity | ].
  cbv beta iota zeta delta [attempt bind lift py_get].
  rewrite Hclient.
  destruct Hpayload
    as [entries _ Hnone | entries text body _ Htext Hne Hloads].
  - rewrite Hnone. reflexivity.
  - rewrite Htext. cbn [truthy].
    destruct (String.eqb_spec text "") as [-> | _]; [ contradiction | ].
    cbn [negb]. rewrite Hloads. reflexivity.
Qed.

(** C6, as amended: with the workflow configured and the client built, the
    Workflow Trigger answers 400 when the request has no (or an empty)
    userId, 400 when it has no (or an empty) dataType, and 400 when the body
    of the event is a non-empty text on which [json.loads] raises
    [JSONDecodeError]; each time the session is left as it was: no
    execution is started.  (An empty body is no body: the event itself is
    then the request.)  A body on which [json.loads] raises anything else,
    as it does at the limits of the interpreter, is answered 500, not
    400. *)
Theorem invalid_requests_get_400 :
  (forall entries,
      payload_of P event (PDict entries) ->
      truthy (dict_get entries "userId" PNone) = false ->
      exists r,
        lambda_handler P environ event context s = (Returned r, s) /\
        is_error_response r 400 "Missing required field: userId")
  /\ (forall entries,
         payload_of P event (PDict entries) ->
         truthy (dict_get entries "dataType" PNone) = false ->
         exists r,
           lambda_handler P environ event context s = (Returned r, s) /\
           statusCode r = 400 /\
           (truthy (dict_get entries "userId" PNone) = true ->
            is_error_response r 400 "Missing required field: dataType"))
  /\ (forall entries text message,
         event = PDict entries ->
         json_dumps_default_str P event = Returned tt ->
         dict_get entries "body" PNone = PStr text ->
         text <> "" ->
         json_loads P text = Raised (JSONDecodeError message) ->
         exists r,
           lambda_handler P environ event context s = (Returned r, s) /\
           is_error_response r 400 "Invalid JSON in request body")
  /\ (forall entries text e,
         event = PDict entries ->
         json_dumps_default_str P event = Returned tt ->
         dict_get entries "body" PNone = PStr text ->
         text <> "" ->
         json_loads P text = Raised e ->
         (forall message, e <> JSONDecodeError message) ->
         exists r,
           lambda_handler P environ event context s = (Returned r, s) /\
           is_error_response r 500 ("Internal server error: " ++ exn_str e)).
Proof.
  split; [ | split; [ | split ] ].
  - intros entries Hpayload Hu.
    rewrite (handler_on_payload _ Hpayload). unfold try_except.
    rewrite (start_workflow_rejects_user _ _ _ _ _ _ Hu).
    destruct (create_error_response_run 400 "Missing required field: userId" s)
      as (r & -> & Herr).
    exists r. split; [ reflexivity | exact Herr ].
  - intros entries Hpayload Hd.
    rewrite (handler_on_payload _ Hpayload). unfold try_except.
    destruct (truthy (dict_get entries "userId" PNone)) eqn:Hu.
    + rewrite (start_workflow_rejects_data_type _ _ _ _ _ _ Hu Hd).
      destruct (create_error_response_run
                  400 "Missing required field: dataType" s)
        as (r & -> & Herr).
      exists r. split; [ reflexivity | ].
      split; [ apply Herr | intros _; exact Herr ].
    + rewrite (start_workflow_rejects_user _ _ _ _ _ _ Hu).
      destruct (create_error_response_run 400 "Missing required field: userId" s)
        as (r & -> & Herr).
      exists r. split; [ reflexivity | ].
      split; [ apply Herr | discriminate ].
  - intros entries text message Hevent Hlogged Htext Hne Hloads.
    rewrite (lambda_handler_configured P environ event context s arn
               Hconfigured Hlogged).
    unfold try_except. rewrite Hevent.
    cbv beta iota zeta delta [attempt bind lift py_get].
    rewrite Hclient, Htext. cbn [truthy].
    destruct (String.eqb_spec text "") as [-> | _]; [ contradiction | ].
    cbn [negb]. rewrite Hloads.
    destruct (create_error_response_run 400 "Invalid JSON in request body" s)
      as (r & -> & Herr).
    exists r. split; [ reflexivity | exact Herr ].
  - intros entries text e Hevent Hlogged Htext Hne Hloads Hother.
    rewrite (lambda_handler_configured P environ event context s arn
               Hconfigured Hlogged).
    unfold try_except. rewrite Hevent.
    cbv beta iota zeta delta [attempt bind lift py_get].
    rewrite Hclient, Htext. cbn [truthy].
    destruct (String.eqb_spec text "") as [-> | _]; [ contradiction | ].
    cbn [negb]. rewrite Hloads.
    destruct e; try (now contradiction (Hother msg));
      cbv beta iota delta [raise bind time_time];
      apply create_error_response_run.
Qed.

(** The handler on a request that passes validation. *)
Lemma valid_request_outcome entries :
  valid_request P event entries ->
  exists request data_type rest suffix,
    stateMachineArn request = arn /\
    name request
    = environ_get_default environ "USERNAME" "unknown"
        ++ "-" ++ data_type ++ "-" ++ suffix /\
    input request
    = json_dumps (PDict (("userId", dict_get entries "userId" PNone)
                           :: ("dataType", PStr data_type) :: rest)) /\
    (is_allowed (dict_get entries "dataType" PNone) = true ->
     dict_get entries "dataType" PNone = PStr data_type) /\
    (is_allowed (dict_get entries "dataType" PNone) = false ->
     data_type = "general") /\
    let s1 := {| now := now s; started := (started s ++ [request])%list |} in
    match start_execution P request with
    | Returned reply =>
        exists r,
          lambda_handler P environ event context s = (Returned r, s1) /\
          statusCode r = 200 /\
          assoc "X-Request-ID" (headers r) = Some (aws_request_id context)
    | Raised (ClientError code message) =>
        lambda_handler P environ event context s
        = on_client_error (ClientError code message) s1
    | Raised e =>
        exists r,
          lambda_handler P environ event context s = (Returned r, s1) /\
          is_error_response r 500 ("Internal server error: " ++ exn_str e)
    end.
Proof.
  intros (Hpayload & Hu & Hd).
  rewrite (handler_on_payload _ Hpayload). unfold try_except.
  destruct (start_workflow_calls
              P (environ_get_default environ "USERNAME" "unknown")
              arn context entries s Hu Hd)
    as (request & data_type & rest & suffix & Harn & Hname & Hinput
        & Hallowed & Hgeneral & Hcall).
  exists request, data_type, rest, suffix.
  repeat (split; [ assumption | ]).
  cbv zeta in Hcall |- *.
  destruct (start_execution P request) as [reply | e].
  - destruct Hcall as (r & -> & Hresp).
    exists r. split; [ reflexivity | exact Hresp ].
  - rewrite Hcall.
    destruct e;
      try (cbv beta iota delta [on_client_error raise bind time_time];
           apply create_error_response_run).
    destruct (on_client_error_run code message
                {| now := now s; started := (started s ++ [request])%list |})
      as (r & -> & _).
    reflexivity.
Qed.

(** C7: when a valid request reaches the orchestrator and
    [start_execution] fails with a [ClientError], the response is 429 for
    ExecutionLimitExceeded, 500 for StateMachineDoesNotExist, 400 for
    InvalidParameterValue, and for every other code 500 with the raw
    message, [Step Functions error: message]. *)
Theorem orchestrator_errors_are_mapped entries code message :
  valid_request P event entries ->
  (forall request, start_execution P request
                   = Raised (ClientError code message)) ->
  exists r request,
    lambda_handler P environ event context s
    = (Returned r,
       {| now := now s; started := (started s ++ [request])%list |}) /\
    (code = "ExecutionLimitExceeded" ->
     is_error_response r 429 "Too many concurrent executions") /\
    (code = "StateMachineDoesNotExist" ->
     is_error_response r 500 "Step Functions state machine not found") /\
    (code = "InvalidParameterValue" ->
     is_error_response r 400 ("Invalid parameter: " ++ message)) /\
    (code <> "ExecutionLimitExceeded" ->
     code <> "StateMachineDoesNotExist" ->
     code <> "InvalidParameterValue" ->
     is_error_response r 500 ("Step Functions error: " ++ message)).
Proof.
  intros Hvalid Hfails.
  destruct (valid_request_outcome entries Hvalid)
    as (request & data_type & rest & suffix & _ & _ & _ & _ & _ & Hcall).
  cbv zeta in Hcall. rewrite (Hfails request) in Hcall.
  destruct (on_client_error_run code message
              {| now := now s; started := (started s ++ [request])%list |})
    as (r & Hrun & Hmap).
  exists r, request. split; [ congruence | exact Hmap ].
Qed.


End Configured.

(** *** The theorems at sample requests *)

Lemma invalid_requests_get_400_witness :
  configured lab_environ
             "arn:aws:states:us-east-1:123456789012:stateMachine:lab" /\
  boto3_client accepting = Returned tt /\
  (exists r,
      lambda_handler accepting lab_environ (PDict request_without_user)
                     trigger_context fresh = (Returned r, fresh) /\
      is_error_response r 400 "Missing required field: userId")
  /\ (exists r,
         lambda_handler accepting lab_environ (PDict request_without_data_type)
                        trigger_context fresh = (Returned r, fresh) /\
         is_error_response r 400 "Missing required field: dataType")
  /\ (exists r,
         lambda_handler accepting lab_environ (PDict garbled_envelope)
                        trigger_context fresh = (Returned r, fresh) /\
         is_error_response r 400 "Invalid JSON in request body")
  /\ (exists r,
         json_loads digit_limited overlong_body = Raised digits_refused /\
         lambda_handler digit_limited lab_environ (PDict envelope_of_digits)
                        trigger_context fresh = (Returned r, fresh) /\
         is_error_response
           r 500 ("Internal server error: " ++ exn_str digits_refused)).
Proof.
  split; [ exact lab_is_configured | ].
  split; [ reflexivity | ].
  split; [ | split; [ | split ] ].
  - destruct (invalid_requests_get_400
                accepting lab_environ _ lab_is_configured eq_refl
                (PDict request_without_user) trigger_context fresh)
      as (Huser & _ & _ & _).
    apply (Huser request_without_user);
      [ apply direct_payload | ]; reflexivity.
  - destruct (invalid_requests_get_400
                accepting lab_environ _ lab_is_configured eq_refl
                (PDict request_without_data_type) trigger_context fresh)
      as (_ & Hdata & _ & _).
    destruct (Hdata request_without_data_type) as (r & Hrun & _ & Herr);
      [ apply direct_payload; reflexivity | reflexivity | ].
    exists r. split; [ exact Hrun | apply Herr; reflexivity ].
  - destruct (invalid_requests_get_400
                accepting lab_environ _ lab_is_configured eq_refl
                (PDict garbled_envelope) trigger_context fresh)
      as (_ & _ & Hbody & _).
    apply (Hbody garbled_envelope "not json"
                 "Expecting value: line 1 column 1 (char 0)");
      [ reflexivity | reflexivity | reflexivity | discriminate | reflexivity ].
  - destruct (invalid_requests_get_400
                digit_limited lab_environ _ lab_is_configured eq_refl
                (PDict envelope_of_digits) trigger_context fresh)
      as (_ & _ & _ & Hlimit).
    destruct (Hlimit envelope_of_digits overlong_body digits_refused
                     eq_refl eq_refl eq_refl) as (r & Hrun & Herr).
    + discriminate.
    + vm_compute. reflexivity.
    + discriminate.
    + exists r. split; [ vm_compute; reflexivity | ].
      split; assumption.
Defined.

(** C6 fails as stated: a body that is there and is no JSON document, the
    empty text, is not decoded; the event is taken as the request, and with
    a userId and a dataType of its own it starts an execution and gets 200. *)
Lemma empty_body_starts_an_execution :
  assoc "body" event_with_empty_body = Some (PStr "") /\
  (exists message,
      json_loads accepting "" = Raised (JSONDecodeError message)) /\
  exists r request,
    lambda_handler accepting lab_environ (PDict event_with_empty_body)
                   trigger_context fresh
    = (Returned r, {| now := now fresh; started := [request] |}) /\
    statusCode r = 200.
Proof.
  split; [ reflexivity | ]. split; [ eexists; reflexivity | ].
  eexists _, _. split; [ vm_compute; reflexivity | reflexivity ].
Qed.

Lemma sample_request_is_valid (P : platform) :
  json_dumps_default_str P (PDict sample_request) = Returned tt ->
  valid_request P (PDict sample_request) sample_request.
Proof.
  intros Hlogged.
  split; [ apply direct_payload; [ exact Hlogged | reflexivity ]
         | split; reflexivity ].
Defined.

Lemma orchestrator_errors_are_mapped_witness :
  configured lab_environ
             "arn:aws:states:us-east-1:123456789012:stateMachine:lab" /\
  boto3_client throttled = Returned tt /\
  valid_request throttled (PDict sample_request) sample_request /\
  (forall request,
      start_execution throttled request
      = Raised (ClientError "ExecutionLimitExceeded"
                            "Maximum number of running executions reached")) /\
  exists r request,
    lambda_handler throttled lab_environ (PDict sample_request)
                   trigger_context fresh
    = (Returned r, {| now := now fresh; started := [request] |}) /\
    is_error_response r 429 "Too many concurrent executions".
Proof.
  split; [ exact lab_is_configured | ].
  split; [ reflexivity | ].
  split; [ exact (sample_request_is_valid throttled eq_refl) | ].
  split; [ intros request; reflexivity | ].
  destruct (orchestrator_errors_are_mapped
              throttled lab_environ _ lab_is_configured eq_refl
              (PDict sample_request) trigger_context fresh sample_request
              "ExecutionLimitExceeded"
              "Maximum number of running executions reached"
              (sample_request_is_valid throttled eq_refl) (fun _ => eq_refl))
    as (r & request & Hrun & Hlimit & _).
  exists r, request. split; [ exact Hrun | exact (Hlimit eq_refl) ].
Defined.




(** *** More runs *)

(** An event that is no object, and an envelope whose body is the empty
    object. *)
Example list_event_gets_500 :
  exists r,
    lambda_handler accepting lab_environ (PList []) trigger_context fresh
    = (Returned r, fresh) /\
    is_error_response
      r 500 "Internal server error: 'list' object has no attribute 'get'".
Proof.
  eexists. split; [ vm_compute; reflexivity | ].
  repeat split. eexists. reflexivity.
Qed.

Example empty_object_body_gets_400 :
  exists r,
    lambda_handler accepting lab_environ (PDict [ ("body", PStr "{}") ])
                   trigger_context fresh
    = (Returned r, fresh) /\
    is_error_response r 400 "Missing required field: userId".
Proof.
  eexists. split; [ vm_compute; reflexivity | ].
  repeat split. eexists. reflexivity.
Qed.

(** The request with the dataType [bogus], run: the execution that is
    started, and the 200. *)
Example bogus_request_run :
  exists r,
    lambda_handler accepting lab_environ (PDict bogus_request)
                   trigger_context fresh
    = (Returned r,
       {| now := now fresh;
          started :=
            [ {| stateMachineArn :=
                   "arn:aws:states:us-east-1:123456789012:stateMachine:lab";
                 name := "student-general-1700000000-01234567";
                 input :=
                   json_dumps
                     (PDict
                        [ ("userId", PStr "u1");
                          ("dataType", PStr "general");
                          ("requestMetadata",
                            PDict [ ("requestId", PStr "req-7");
                                    ("triggerSource", PStr "api_gateway");
                                    ("username", PStr "student");
                                    ("timestamp", PInt 1700000000);
                                    ("apiVersion", PStr "1.0") ]) ]) |} ] |})
    /\ statusCode r = 200.
Proof. eexists. split; [ vm_compute; reflexivity | reflexivity ]. Qed.

End TriggerWorkflowFacts.

(* ================================================================== *)
(** * Further properties of the handlers *)
(* ================================================================== *)

(** ** Equalities, and the order of the floats *)

Module Injections.

Lemma outcome_returned_eq {A : Type} (a b : A) :
  Returned a = Returned b -> a = b.
Proof. intros H. now injection H. Qed.

Lemma pair_eq {A B : Type} (a a' : A) (b b' : B) :
  (a, b) = (a', b') -> a = a' /\ b = b'.
Proof. intros H. now injection H. Qed.

End Injections.

Module FloatOrder.
Import RunFacts NumFacts.
Local Open Scope Q_scope.

Lemma pow2_plus (m n : Z) : pow2 (m + n) == pow2 m * pow2 n.
Proof. unfold pow2. apply Qpower_plus. discriminate. Qed.

(** A positive real rounds to a float of its own binade, or to the power of
    two that ends it. *)
Lemma double_in_binade (x : Q) :
  0 < x -> pow2 (binade x) <= double x /\ double x <= pow2 (binade x + 1).
Proof.
  intros Hx.
  assert (H0 : ~ x == 0) by (intros H; rewrite H in Hx; lra).
  destruct (binade_spec x H0) as [Hlo Hhi]. rewrite Qabs_pos in Hlo, Hhi by lra.
  rewrite (double_unfold x H0).
  pose proof (pow2_pos (binade x - 52)) as Hu.
  assert (H52 : pow2 (binade x) == inject_Z (2 ^ 52) * pow2 (binade x - 52)).
  { rewrite <- pow2_Z by lia. rewrite <- pow2_plus.
    replace (52 + (binade x - 52))%Z with (binade x) by lia. reflexivity. }
  assert (H53 : pow2 (binade x + 1) == inject_Z (2 ^ 53) * pow2 (binade x - 52)).
  { rewrite <- pow2_Z by lia. rewrite <- pow2_plus.
    replace (53 + (binade x - 52))%Z with (binade x + 1)%Z by lia. reflexivity. }
  set (u := pow2 (binade x - 52)) in *.
  assert (Hxu : x / u * u == x) by (field; lra).
  split.
  - rewrite H52. apply Qmult_le_compat_r; [ | lra ].
    rewrite <- Zle_Qle. apply round_half_even_lower.
    apply Qle_shift_div_l; [ exact Hu | ]. rewrite <- H52. exact Hlo.
  - rewrite H53. apply Qmult_le_compat_r; [ | lra ].
    rewrite <- Zle_Qle. apply round_half_even_upper.
    apply Qle_shift_div_r; [ exact Hu | ]. rewrite <- H53. lra.
Qed.

(** Rounding to a float keeps the order of the non-negative reals. *)
Lemma double_monotone (x y : Q) : 0 <= x -> x <= y -> double x <= double y.
Proof.
  intros Hx Hxy. destruct (Qeq_dec x 0) as [H0 | H0].
  - rewrite (double_zero x H0). apply double_nonneg. lra.
  - assert (Hxpos : 0 < x) by lra.
    assert (Hypos : 0 < y) by lra.
    assert (Hy0 : ~ y == 0) by (intros H; rewrite H in Hypos; lra).
    destruct (binade_spec x H0) as [Hxlo Hxhi].
    destruct (binade_spec y Hy0) as [Hylo Hyhi].
    rewrite Qabs_pos in Hxlo, Hxhi, Hylo, Hyhi by lra.
    assert (Hle : (binade x < binade y + 1)%Z) by (apply pow2_lt_inv; lra).
    destruct (Z.eq_dec (binade x) (binade y)) as [Heq | Hne].
    + apply (double_monotone_in_binade x y (binade x)); try assumption.
      rewrite Heq. exact Hyhi.
    + destruct (double_in_binade x Hxpos) as [_ Hux].
      destruct (double_in_binade y Hypos) as [Hly _].
      assert (Hpow : pow2 (binade x + 1) <= pow2 (binade y)) by (apply pow2_le; lia).
      lra.
Qed.

Lemma double_equal (x y : Q) : 0 <= x -> x == y -> double x == double y.
Proof.
  intros Hx Hxy. apply Qle_antisym; apply double_monotone; lra.
Qed.

(** [random.uniform(a, b)] lies between the float [a] and the float of
    [a + (b - a)]. *)
Lemma uniform_within (a b r : Q) :
  0 <= a -> a <= b -> 0 <= r -> r <= 1 ->
  double a <= fadd a (fmul (fsub b a) r) /\
  fadd a (fmul (fsub b a) r) <= double (a + double (fsub b a)).
Proof.
  intros Ha Hab Hr0 Hr1. unfold fadd, fmul.
  assert (Hd : 0 <= fsub b a) by (apply double_nonneg; lra).
  set (d := fsub b a) in *.
  assert (Hdr : 0 <= d * r) by (apply Qmult_le_0_compat; assumption).
  assert (Hdr' : d * r <= d) by nra.
  assert (Ht0 : 0 <= double (d * r)) by (apply double_nonneg; exact Hdr).
  assert (Ht1 : double (d * r) <= double d) by (apply double_monotone; assumption).
  split; apply double_monotone; lra.
Qed.

(** [round(x, n)] keeps the order of the non-negative floats. *)
Lemma py_round_monotone (x y : Q) (n : nat) :
  0 <= x -> x <= y -> py_round x n <= py_round y n.
Proof.
  intros Hx Hxy. unfold py_round.
  assert (Hscale : 0 < inject_Z (10 ^ Z.of_nat n)).
  { change 0 with (inject_Z 0). rewrite <- Zlt_Qlt. apply Z.pow_pos_nonneg; lia. }
  set (scale := inject_Z (10 ^ Z.of_nat n)) in *.
  assert (Hk0 : (0 <= round_half_even (x * scale))%Z).
  { apply round_half_even_lower. change (inject_Z 0) with 0.
    apply Qmult_le_0_compat; lra. }
  assert (Hk : (round_half_even (x * scale) <= round_half_even (y * scale))%Z).
  { apply round_half_even_monotone. apply Qmult_le_compat_r; lra. }
  rewrite Zle_Qle in Hk0, Hk. change (inject_Z 0) with 0 in Hk0.
  apply double_monotone.
  - apply Qle_shift_div_l; lra.
  - apply Qmult_le_compat_r; [ exact Hk | ].
    apply Qlt_le_weak, Qinv_lt_0_compat, Hscale.
Qed.

End FloatOrder.

(** ** The Data Processor: validation, timing, payload *)

Module ProcessDataBehaviour.
Import ProcessData Scenarios RunFacts Injections NumFacts FloatOrder
  ProcessDataFacts.

(** Every range of [processing_times], and the default one: its ends are
    floats with two decimals, and no rounding of [random.uniform] leaves
    it. *)
Lemma processing_times_exact data_type lo hi :
  table_get processing_times data_type (1, 2)%Q = Returned (lo, hi) ->
  (0 <= lo)%Q /\ (lo <= hi)%Q /\ (double lo == lo)%Q /\
  (double (lo + double (fsub hi lo)) <= hi)%Q /\
  (py_round lo 2 == lo)%Q /\ (py_round hi 2 == hi)%Q.
Proof.
  intros H.
  destruct data_type; try discriminate H;
    cbv beta iota delta [table_get assoc processing_times] in H;
    repeat match type of H with
      | context [String.eqb ?a ?b] => destruct (String.eqb a b)
      end;
    apply outcome_returned_eq, pair_eq in H; destruct H as [<- <-].
  all: repeat split;
    first [ apply Qle_bool_iff; vm_compute; reflexivity
          | apply Qeq_bool_iff; vm_compute; reflexivity ].
Qed.


(** The attempt on an event whose two fields are not empty and whose data
    type can be looked up: one draw for the duration, the sleep, one draw
    that decides, then two draws for a success and one for a failure. *)
Lemma attempt_run username entries context w lo hi rate :
  let user_id := dict_get entries "userId" (PStr "unknown") in
  let data_type := dict_get entries "dataType" (PStr "general") in
  truthy user_id = true ->
  truthy data_type = true ->
  table_get processing_times data_type (1, 2)%Q = Returned (lo, hi) ->
  table_get success_rates data_type (double (8 # 10)) = Returned rate ->
  let duration :=
    fadd lo (fmul (fsub hi lo) (unit_float (entropy w (drawn w)))) in
  let finished := (now w + duration)%Q in
  attempt username (PDict entries) context w
  = if Qlt_bool (second_draw w) rate
    then
      (Returned
         (PDict
            [ ("userId", user_id);
              ("dataType", data_type);
              ("status", PStr "SUCCESS");
              ("processedAt", PInt (int_of_float finished));
              ("recordsProcessed",
                PInt (100 + entropy w (S (S (drawn w))) mod 901));
              ("processingDuration", pyfloat_of (py_round duration 2));
              ("processingScore",
                pyfloat_of
                  (py_round
                     (fadd (double (7 # 10))
                           (fmul (fsub (double (99 # 100)) (double (7 # 10)))
                                 (unit_float
                                    (entropy w (S (S (S (drawn w))))))))
                     3));
              ("nextStep", PStr "send_notification");
              ("metadata", metadata username context) ]),
       {| entropy := entropy w; drawn := S (S (S (S (drawn w))));
          now := finished |})
    else
      (Raised
         (Exception
            ("Data processing failed: "
               ++ nth (Z.to_nat (entropy w (S (S (drawn w))) mod 4))
                      error_types "data_corruption")),
       {| entropy := entropy w; drawn := S (S (S (drawn w)));
          now := finished |}).
Proof.
  intros user_id data_type Hu Hd Htimes Hrate duration finished.
  destruct (processing_times_exact _ _ _ Htimes) as (Hlo & Hlohi & _).
  destruct (unit_float_range (entropy w (drawn w))) as [H0 _].
  assert (Hsleep : Qlt_bool duration 0 = false).
  { apply Qlt_bool_false_iff. apply uniform_nonneg; assumption. }
  cbv beta iota zeta delta
    [attempt bind lift ret raise random_uniform random_random random_randint
     randbelow next_raw time_time time_sleep random_choice error_types py_get].
  fold user_id data_type. rewrite Hu, Hd, Htimes. cbn [negb orb].
  cbn [entropy drawn now]. fold duration. rewrite Hsleep.
  cbn [entropy drawn now]. rewrite Hrate. unfold second_draw.
  destruct (Qlt_bool _ rate); reflexivity.
Qed.


(** The two tables have the same keys: a data type that has a range has a
    rate. *)
Lemma success_rate_exists data_type lo hi :
  table_get processing_times data_type (1, 2)%Q = Returned (lo, hi) ->
  exists rate,
    table_get success_rates data_type (double (8 # 10)) = Returned rate.
Proof.
  destruct data_type; try discriminate; intros _; eexists; reflexivity.
Qed.

(** The handler on an object: what the attempt returns, or
    [Exception(str(e))] for what it raises. *)
Lemma processor_of_attempt environ entries context w :
  lambda_handler environ (PDict entries) context w
  = match attempt (environ_get_default environ "USERNAME" "unknown")
                  (PDict entries) context w with
    | (Returned result, w') => (Returned result, w')
    | (Raised e, w') => (Raised (Exception (exn_str e)), w')
    end.
Proof.
  unfold lambda_handler. cbv beta iota delta [bind time_time try_except].
  destruct (attempt _ (PDict entries) context w) as [[result | e] w'];
    reflexivity.
Qed.

(** What is known of an invocation that returned. *)
Lemma processor_returns_inv environ event context w result w' :
  lambda_handler environ event context w = (Returned result, w') ->
  exists entries lo hi rate,
    event = PDict entries /\
    truthy (dict_get entries "userId" (PStr "unknown")) = true /\
    truthy (dict_get entries "dataType" (PStr "general")) = true /\
    table_get processing_times
              (dict_get entries "dataType" (PStr "general")) (1, 2)%Q
    = Returned (lo, hi) /\
    table_get success_rates
              (dict_get entries "dataType" (PStr "general")) (double (8 # 10))
    = Returned rate /\
    Qlt_bool (second_draw w) rate = true /\
    attempt (environ_get_default environ "USERNAME" "unknown")
            (PDict entries) context w
    = (Returned result, w').
Proof.
  intros H.
  destruct event as [ | | | | | | entries]; try discriminate H.
  rewrite processor_of_attempt in H.
  destruct (truthy (dict_get entries "userId" (PStr "unknown"))) eqn:Hu;
    [ | rewrite validation_rejects in H by (now left); discriminate H ].
  destruct (truthy (dict_get entries "dataType" (PStr "general"))) eqn:Hd;
    [ | rewrite validation_rejects in H by (now right); discriminate H ].
  destruct (table_get processing_times
                      (dict_get entries "dataType" (PStr "general")) (1, 2)%Q)
    as [[lo hi] | e] eqn:Htimes.
  - destruct (success_rate_exists _ _ _ Htimes) as [rate Hrate].
    exists entries, lo, hi, rate.
    destruct (attempt _ (PDict entries) context w) as [[result0 | e] w0] eqn:Hrun;
      [ | discriminate H ].
    rewrite (attempt_run _ _ _ _ _ _ _ Hu Hd Htimes Hrate) in Hrun.
    destruct (Qlt_bool (second_draw w) rate) eqn:Hdraw;
      [ | discriminate Hrun ].
    repeat (split; [ reflexivity || assumption | ]). exact H.
  - exfalso. revert H.
    cbv beta iota zeta delta [attempt bind lift ret raise py_get].
    rewrite Hu, Hd, Htimes. discriminate.
Qed.


(** A draw of [random.uniform] over a range of [processing_times] lies in
    the range, and so does its rounding to two decimals. *)
Lemma processing_duration_bounds data_type lo hi r :
  table_get processing_times data_type (1, 2)%Q = Returned (lo, hi) ->
  (0 <= r)%Q -> (r < 1)%Q ->
  let duration := fadd lo (fmul (fsub hi lo) r) in
  (lo <= duration)%Q /\ (duration <= hi)%Q /\
  (lo <= py_round duration 2)%Q /\ (py_round duration 2 <= hi)%Q.
Proof.
  intros Htimes Hr0 Hr1 duration.
  destruct (processing_times_exact _ _ _ Htimes)
    as (Hlo & Hlohi & Hfloat & Htop & Hrlo & Hrhi).
  destruct (uniform_within lo hi r) as [H1 H2]; try lra.
  fold duration in H1, H2.
  assert (Hd1 : (lo <= duration)%Q) by lra.
  assert (Hd2 : (duration <= hi)%Q) by lra.
  pose proof (py_round_monotone lo duration 2 Hlo Hd1) as Hr1'.
  assert (Hdpos : (0 <= duration)%Q) by lra.
  pose proof (py_round_monotone duration hi 2 Hdpos Hd2) as Hr2'.
  repeat split; lra.
Qed.


(** X1: on an object the Data Processor raises its validation error, the
    exception [Missing required fields: userId or dataType], exactly when
    userId or dataType, after the defaults [unknown] and [general] were
    filled in, is empty (falsy); it then raises at once: no random draw, no
    sleep. *)
Theorem validation_error_iff_empty_field environ entries context w :
  let user_id := dict_get entries "userId" (PStr "unknown") in
  let data_type := dict_get entries "dataType" (PStr "general") in
  (fst (lambda_handler environ (PDict entries) context w)
   = Raised (Exception "Missing required fields: userId or dataType")
   <-> truthy user_id = false \/ truthy data_type = false)
  /\ (truthy user_id = false \/ truthy data_type = false ->
      snd (lambda_handler environ (PDict entries) context w) = w).
Proof.
  intros user_id data_type. split.
  - split.
    + intros H.
      destruct (truthy user_id) eqn:Hu; [ | now left ].
      destruct (truthy data_type) eqn:Hd; [ | now right ].
      exfalso. revert H. rewrite processor_of_attempt.
      destruct (table_get processing_times data_type (1, 2)%Q)
        as [[lo hi] | e] eqn:Htimes.
      * destruct (success_rate_exists _ _ _ Htimes) as [rate Hrate].
        rewrite (attempt_run _ _ _ _ _ _ _ Hu Hd Htimes Hrate).
        destruct (Qlt_bool (second_draw w) rate); cbn [fst exn_str];
          discriminate.
      * cbv beta iota zeta delta [attempt bind lift ret raise py_get].
        fold user_id data_type. rewrite Hu, Hd. cbn [negb orb].
        destruct data_type; try discriminate Htimes; cbn; discriminate.
    + intros H. now rewrite (empty_field_is_rejected _ _ _ _ H).
  - intros H. now rewrite (empty_field_is_rejected _ _ _ _ H).
Qed.

Lemma validation_error_iff_empty_field_witness :
  truthy (dict_get [ ("userId", PStr "") ] "userId" (PStr "unknown")) = false /\
  lambda_handler [] (PDict [ ("userId", PStr "") ]) sample_context lucky
  = (Raised (Exception "Missing required fields: userId or dataType"), lucky).
Proof.
  split; [ reflexivity | ].
  destruct (validation_error_iff_empty_field
              [] [ ("userId", PStr "") ] sample_context lucky)
    as [[_ Hraises] Hstate].
  specialize (Hraises (or_introl eq_refl)).
  specialize (Hstate (or_introl eq_refl)).
  destruct (lambda_handler [] (PDict [ ("userId", PStr "") ])
                           sample_context lucky) as [o w'].
  cbn [fst snd] in Hraises, Hstate. now subst.
Defined.

(** X2: an event that is no object (a list, a string, a number, null) is
    refused by [event.get] in the [try] block and again in the [except]
    block: the Data Processor raises [AttributeError], not the
    [Exception(str(e))] of its other failures, before any draw or sleep. *)
Theorem non_object_event_raises_attribute_error environ event context w :
  (forall entries, event <> PDict entries) ->
  lambda_handler environ event context w
  = (Raised (AttributeError
               ("'" ++ type_name event ++ "' object has no attribute 'get'")),
     w).
Proof.
  intros H. destruct event; try reflexivity.
  now contradiction (H entries).
Qed.

Lemma non_object_event_raises_attribute_error_witness :
  (forall entries, PStr "sales_data" <> PDict entries) /\
  lambda_handler [] (PStr "sales_data") sample_context lucky
  = (Raised (AttributeError "'str' object has no attribute 'get'"), lucky).
Proof.
  assert (H : forall entries, PStr "sales_data" <> PDict entries)
    by discriminate.
  split; [ exact H | ].
  exact (non_object_event_raises_attribute_error
           [] (PStr "sales_data") sample_context lucky H).
Defined.

(** X3: a dataType that is a non-empty list or object passes the
    validation and fails the lookup of its processing time: the Data
    Processor raises [Exception] with the text [unhashable type: 'list'] (or
    ['dict']), before any draw or sleep. *)
Theorem unhashable_data_type_is_reported environ entries context w :
  let data_type := dict_get entries "dataType" (PStr "general") in
  truthy (dict_get entries "userId" (PStr "unknown")) = true ->
  (forall items,
      data_type = PList items -> items <> [] ->
      lambda_handler environ (PDict entries) context w
      = (Raised (Exception "unhashable type: 'list'"), w))
  /\ (forall fields,
         data_type = PDict fields -> fields <> [] ->
         lambda_handler environ (PDict entries) context w
         = (Raised (Exception "unhashable type: 'dict'"), w)).
Proof.
  intros data_type Hu.
  split; intros items Hd Hne; rewrite processor_of_attempt;
    cbv beta iota zeta delta [attempt bind lift ret raise py_get];
    fold data_type; rewrite Hu, Hd;
    (destruct items; [ contradiction | reflexivity ]).
Qed.

Lemma unhashable_data_type_is_reported_witness :
  truthy (dict_get task_with_listed_type "userId" (PStr "unknown")) = true /\
  dict_get task_with_listed_type "dataType" (PStr "general")
  = PList [ PStr "sales_data" ] /\
  lambda_handler [] (PDict task_with_listed_type) sample_context lucky
  = (Raised (Exception "unhashable type: 'list'"), lucky).
Proof.
  split; [ reflexivity | ]. split; [ reflexivity | ].
  destruct (unhashable_data_type_is_reported
              [] task_with_listed_type sample_context lucky eq_refl)
    as [Hlist _].
  apply (Hlist [ PStr "sales_data" ]).
  - reflexivity.
  - discriminate.
Defined.

(** X4: a payload the Data Processor returns carries the userId and the
    dataType of the event as they were received (or their defaults), names
    [send_notification] as the next step, carries the metadata of the
    invocation (USERNAME or [unknown], the function name, the request id),
    and has these nine fields and no other. *)
Theorem payload_echoes_task environ event context w result w' :
  lambda_handler environ event context w = (Returned result, w') ->
  exists entries fields,
    event = PDict entries /\ result = PDict fields /\
    assoc "userId" fields = Some (dict_get entries "userId" (PStr "unknown")) /\
    assoc "dataType" fields
    = Some (dict_get entries "dataType" (PStr "general")) /\
    assoc "nextStep" fields = Some (PStr "send_notification") /\
    assoc "metadata" fields
    = Some (PDict
              [ ("username",
                  PStr (environ_get_default environ "USERNAME" "unknown"));
                ("functionName", PStr (function_name context));
                ("requestId", PStr (aws_request_id context)) ]) /\
    map fst fields
    = [ "userId"; "dataType"; "status"; "processedAt"; "recordsProcessed";
        "processingDuration"; "processingScore"; "nextStep"; "metadata" ].
Proof.
  intros H.
  destruct (processor_returns_inv _ _ _ _ _ _ H)
    as (entries & lo & hi & rate & -> & Hu & Hd & Htimes & Hrate & Hdraw & Hrun).
  rewrite (attempt_run _ _ _ _ _ _ _ Hu Hd Htimes Hrate), Hdraw in Hrun.
  apply returned_eq in Hrun. destruct Hrun as [<- _].
  eexists entries, _. split; [ reflexivity | ]. split; [ reflexivity | ].
  repeat split.
Qed.

Lemma payload_echoes_task_witness :
  exists fields w',
    lambda_handler [ ("USERNAME", "student") ] sample_task sample_context lucky
    = (Returned (PDict fields), w') /\
    assoc "userId" fields = Some (PStr "u1") /\
    assoc "dataType" fields = Some (PStr "sales_data") /\
    assoc "metadata" fields
    = Some (PDict [ ("username", PStr "student");
                    ("functionName", PStr "process_data");
                    ("requestId", PStr "req-1") ]).
Proof.
  destruct (lambda_handler [ ("USERNAME", "student") ] sample_task
                           sample_context lucky) as [[result | e] w'] eqn:Hrun;
    [ | vm_compute in Hrun; discriminate Hrun ].
  destruct (payload_echoes_task _ _ _ _ _ _ Hrun)
    as (entries & fields & Hevent & -> & Huser & Htype & _ & Hmeta & _).
  apply (f_equal (fun v => match v with PDict es => es | _ => [] end)) in Hevent.
  subst entries.
  exists fields, w'. repeat split; assumption.
Defined.

(** X5: the processing time is drawn within the range configured for the
    data type ((1, 2) seconds for one that has no range of its own): the
    Data Processor sleeps that long, the processingDuration it reports (the
    draw rounded to two decimals) lies within the range too, and processedAt
    is read when the sleep is over. *)
Theorem processing_duration_in_range environ event context w result w' :
  lambda_handler environ event context w = (Returned result, w') ->
  exists entries fields lo hi d,
    event = PDict entries /\ result = PDict fields /\
    table_get processing_times
              (dict_get entries "dataType" (PStr "general")) (1, 2)%Q
    = Returned (lo, hi) /\
    assoc "processingDuration" fields = Some (PFloat (FFin d)) /\
    (lo <= d)%Q /\ (d <= hi)%Q /\
    (lo <= now w' - now w)%Q /\ (now w' - now w <= hi)%Q /\
    assoc "processedAt" fields = Some (PInt (int_of_float (now w'))).
Proof.
  intros H.
  destruct (processor_returns_inv _ _ _ _ _ _ H)
    as (entries & lo & hi & rate & -> & Hu & Hd & Htimes & Hrate & Hdraw & Hrun).
  rewrite (attempt_run _ _ _ _ _ _ _ Hu Hd Htimes Hrate), Hdraw in Hrun.
  apply returned_eq in Hrun. destruct Hrun as [<- <-].
  destruct (unit_float_range (entropy w (drawn w))) as [H0 H1].
  destruct (processing_duration_bounds _ _ _ _ Htimes H0 H1)
    as (Hd1 & Hd2 & Hr1 & Hr2).
  eexists entries, _, lo, hi, _.
  split; [ reflexivity | ]. split; [ reflexivity | ].
  split; [ exact Htimes | ]. split; [ reflexivity | ].
  cbn [now]. repeat split; try assumption; lra.
Qed.

Lemma processing_duration_in_range_witness :
  exists fields w' d,
    lambda_handler [] sample_task sample_context lucky
    = (Returned (PDict fields), w') /\
    assoc "processingDuration" fields = Some (PFloat (FFin d)) /\
    (1 <= d)%Q /\ (d <= 2)%Q /\
    (1 <= now w' - now lucky)%Q /\ (now w' - now lucky <= 2)%Q.
Proof.
  destruct (lambda_handler [] sample_task sample_context lucky)
    as [[result | e] w'] eqn:Hrun;
    [ | vm_compute in Hrun; discriminate Hrun ].
  destruct (processing_duration_in_range _ _ _ _ _ _ Hrun)
    as (entries & fields & lo & hi & d & Hevent & -> & Htimes & Hfield
        & Hd1 & Hd2 & Ht1 & Ht2 & _).
  apply (f_equal (fun v => match v with PDict es => es | _ => [] end)) in Hevent.
  subst entries.
  apply outcome_returned_eq, pair_eq in Htimes. destruct Htimes as [<- <-].
  exists fields, w', d. repeat split; assumption.
Defined.

(** X6: once the event passed the validation and its data type has a
    processing time, the second draw of the generator decides: the Data
    Processor returns exactly when that draw is below the success rate of
    the data type; otherwise it raises [Data processing failed: t], [t]
    being one of the four error types, and it has slept the processing time
    before it fails. *)
Theorem success_draw_decides environ entries context w lo hi rate :
  let data_type := dict_get entries "dataType" (PStr "general") in
  truthy (dict_get entries "userId" (PStr "unknown")) = true ->
  truthy data_type = true ->
  table_get processing_times data_type (1, 2)%Q = Returned (lo, hi) ->
  table_get success_rates data_type (double (8 # 10)) = Returned rate ->
  (Qlt_bool (second_draw w) rate = true <->
   exists result w',
     lambda_handler environ (PDict entries) context w = (Returned result, w'))
  /\ (Qlt_bool (second_draw w) rate = false ->
      exists error_type w',
        In error_type error_types /\
        lambda_handler environ (PDict entries) context w
        = (Raised (Exception ("Data processing failed: " ++ error_type)), w') /\
        (lo <= now w' - now w)%Q /\ (now w' - now w <= hi)%Q).
Proof.
  intros data_type Hu Hd Htimes Hrate.
  rewrite processor_of_attempt.
  rewrite (attempt_run _ _ _ _ _ _ _ Hu Hd Htimes Hrate).
  split; [ split | ].
  - intros Hdraw. rewrite Hdraw. eexists _, _. reflexivity.
  - intros (result & w' & Hrun).
    destruct (Qlt_bool (second_draw w) rate); [ reflexivity | discriminate Hrun ].
  - intros Hdraw. rewrite Hdraw.
    destruct (unit_float_range (entropy w (drawn w))) as [H0 H1].
    destruct (processing_duration_bounds _ _ _ _ Htimes H0 H1)
      as (Hd1 & Hd2 & _).
    pose proof (Z.mod_pos_bound (entropy w (S (S (drawn w)))) 4 eq_refl)
      as Hindex.
    assert (Hlt : (Z.to_nat (entropy w (S (S (drawn w))) mod 4)
                   < length error_types)%nat).
    { change (length error_types) with 4%nat. lia. }
    eexists _, _. split; [ apply nth_In; exact Hlt | ].
    split; [ reflexivity | ].
    cbn [now]. split; lra.
Qed.

Lemma success_draw_decides_witness :
  table_get processing_times (PStr "sales_data") (1, 2)%Q
  = Returned (1, 2)%Q /\
  table_get success_rates (PStr "sales_data") (double (8 # 10))
  = Returned (double (9 # 10)) /\
  Qlt_bool (second_draw lucky) (double (9 # 10)) = true /\
  Qlt_bool (second_draw unfortunate) (double (9 # 10)) = false /\
  (exists result w',
      lambda_handler [] sample_task sample_context lucky
      = (Returned result, w'))
  /\ (exists error_type w',
         In error_type error_types /\
         lambda_handler [] sample_task sample_context unfortunate
         = (Raised (Exception ("Data processing failed: " ++ error_type)), w') /\
         (1 <= now w' - now unfortunate)%Q).
Proof.
  split; [ reflexivity | ]. split; [ reflexivity | ].
  split; [ reflexivity | ]. split; [ reflexivity | ].
  split.
  - apply (success_draw_decides
             [] [ ("userId", PStr "u1"); ("dataType", PStr "sales_data") ]
             sample_context lucky 1%Q 2%Q (double (9 # 10))
             eq_refl eq_refl eq_refl eq_refl).
    reflexivity.
  - destruct (success_draw_decides
                [] [ ("userId", PStr "u1"); ("dataType", PStr "sales_data") ]
                sample_context unfortunate
                1%Q 2%Q (double (9 # 10)) eq_refl eq_refl eq_refl eq_refl)
      as [_ Hfails].
    destruct (Hfails eq_refl)
      as (error_type & w' & Hin & Hrun & Hslept & _).
    exists error_type, w'. repeat split; assumption.
Defined.

End ProcessDataBehaviour.

(** ** The Notifier: failures, ill-typed outcomes, the record *)

Module SendNotificationBehaviour.
Import SendNotification Scenarios RunFacts Injections NumFacts FloatOrder
  SendNotificationFacts.

Lemma notifier_of_attempt environ entries context w :
  lambda_handler environ (PDict entries) context w
  = match attempt (environ_get_default environ "USERNAME" "unknown")
                  (PDict entries) context w with
    | (Returned result, w') => (Returned result, w')
    | (Raised e, w') => (Raised (Exception (exn_str e)), w')
    end.
Proof.
  unfold lambda_handler. cbv beta iota delta [bind time_time try_except].
  destruct (attempt _ (PDict entries) context w) as [[result | e] w'];
    reflexivity.
Qed.

(** Every range of [notification_times]. *)
Lemma notification_times_exact channel lo hi :
  assoc channel notification_times = Some (lo, hi) ->
  (0 <= lo)%Q /\ (lo <= hi)%Q /\ (double lo == lo)%Q /\
  (double (lo + double (fsub hi lo)) <= hi)%Q /\
  (py_round lo 2 == lo)%Q /\ (py_round hi 2 == hi)%Q.
Proof.
  intros H.
  cbv beta iota delta [assoc notification_times] in H;
    repeat match type of H with
      | context [String.eqb ?a ?b] => destruct (String.eqb a b)
      end;
    match type of H with
    | None = _ => discriminate H
    | _ => idtac
    end.
  all: apply (f_equal (fun o => match o with Some v => v | None => (0, 0)%Q end))
         in H; cbv beta iota in H; apply pair_eq in H; destruct H as [<- <-].
  all: repeat split;
    first [ apply Qle_bool_iff; vm_compute; reflexivity
          | apply Qeq_bool_iff; vm_compute; reflexivity ].
Qed.

Lemma send_duration_bounds channel lo hi r :
  assoc channel notification_times = Some (lo, hi) ->
  (0 <= r)%Q -> (r < 1)%Q ->
  let duration := fadd lo (fmul (fsub hi lo) r) in
  (lo <= duration)%Q /\ (duration <= hi)%Q /\
  (lo <= py_round duration 2)%Q /\ (py_round duration 2 <= hi)%Q.
Proof.
  intros Htimes Hr0 Hr1 duration.
  destruct (notification_times_exact _ _ _ Htimes)
    as (Hlo & Hlohi & Hfloat & Htop & Hrlo & Hrhi).
  destruct (uniform_within lo hi r) as [H1 H2]; try lra.
  fold duration in H1, H2.
  assert (Hd1 : (lo <= duration)%Q) by lra.
  assert (Hd2 : (duration <= hi)%Q) by lra.
  pose proof (py_round_monotone lo duration 2 Hlo Hd1) as Hr1'.
  assert (Hdpos : (0 <= duration)%Q) by lra.
  pose proof (py_round_monotone duration hi 2 Hdpos Hd2) as Hr2'.
  repeat split; lra.
Qed.

Ltac break_send H :=
  repeat match type of H with
    | context [match ?x with _ => _ end] =>
        lazymatch x with
        | context [match _ with _ => _ end] => fail
        | context [if _ then _ else _] => fail
        | _ => destruct x eqn:?
        end
    | context [if ?x then _ else _] =>
        lazymatch x with
        | context [match _ with _ => _ end] => fail
        | context [if _ then _ else _] => fail
        | _ => destruct x eqn:?
        end
    end; try discriminate H; cbn [entropy drawn now] in *.


Lemma float_lt_asym (x y : pyfloat) :
  float_lt x y = true -> float_lt y x = false.
Proof.
  destruct x as [ | [ | ] | a], y as [ | [ | ] | b]; cbn; try congruence.
  intros H. apply Qlt_bool_iff in H. apply Qlt_bool_false_iff. lra.
Qed.

(** A score above 0.9 is not below it. *)
Lemma excellent_is_not_below v c below :
  py_gt v (NFloat (FFin c)) = Returned true ->
  py_lt v (NFloat (FFin c)) = Returned below ->
  below = false.
Proof.
  unfold py_gt, py_lt. destruct (num_of v) as [m | ]; [ | discriminate ].
  intros Hgt Hlt. apply outcome_returned_eq in Hgt, Hlt.
  rewrite <- Hlt. apply float_lt_asym. exact Hgt.
Qed.

(** What is known of an attempt that returned. *)
Lemma attempt_returns_inv username_ entries context w result w' :
  attempt username_ (PDict entries) context w = (Returned result, w') ->
  exists lo hi,
    let duration :=
      fadd lo (fmul (fsub hi lo) (unit_float (entropy w (drawn w)))) in
    let finished := (now w + duration)%Q in
    assoc (notificationType result) notification_times = Some (lo, hi) /\
    In (notificationType result) [ "SMS"; "EMAIL"; "PUSH" ] /\
    In (priority result) [ "normal"; "high" ] /\
    (notificationType result = "SMS" -> priority result = "high") /\
    (eq_str (dict_get entries "status" (PStr "UNKNOWN")) "SUCCESS" = false ->
     notificationType result = "EMAIL" /\ priority result = "high") /\
    Qlt_bool (double (5 # 100)) (second_draw w) = true /\
    userId result = dict_get entries "userId" (PStr "unknown") /\
    status result = "SENT" /\
    sentAt result = int_of_float finished /\
    sendDuration result = py_round duration 2 /\
    deliveryId result
    = lower (notificationType result) ++ "_"
        ++ str_of_int (int_of_float finished) ++ "_"
        ++ str_of_int (1000 + entropy w (S (S (drawn w))) mod 9000) /\
    originalData result
    = {| dataType := dict_get entries "dataType" (PStr "general");
         recordsProcessed := dict_get entries "recordsProcessed" (PInt 0);
         processingScore :=
           dict_get entries "processingScore" (PFloat (FFin 0)) |} /\
    metadata result
    = {| username := username_;
         functionName := function_name context;
         requestId := aws_request_id context |} /\
    w' = {| entropy := entropy w; drawn := S (S (S (drawn w)));
            now := finished |}.
Proof.
  intros H.
  cbv beta iota zeta delta
    [attempt bind lift ret raise random_uniform random_random random_randint
     randbelow next_raw time_time time_sleep py_get] in H.
  break_send H.
  all: match goal with
       | E : assoc _ notification_times = None |- _ =>
           exfalso; clear - E; vm_compute in E; discriminate E
       | _ => idtac
       end.
  all: match goal with
       | E : assoc _ notification_times = Some (?lo, ?hi) |- _ => exists lo, hi
       end.
  all: apply returned_eq in H; destruct H as [<- <-].
  all: cbv zeta;
    cbn [notificationType priority userId status sentAt sendDuration
         deliveryId originalData metadata].
  all: repeat match goal with |- _ /\ _ => split end;
    try reflexivity; try assumption.
  all: try (cbn [In]; tauto).
  all: try (intros Hc;
            first [ discriminate Hc
                  | congruence
                  | match goal with
                    | Hgt : py_gt _ _ = Returned true,
                      Hlt : py_lt _ _ = Returned ?below |- _ =>
                        pose proof (excellent_is_not_below _ _ _ Hgt Hlt)
                          as Hbelow;
                        discriminate Hbelow
                    end ]).
  all: try (unfold second_draw;
            match goal with
            | Hn : negb _ = false |- _ =>
                apply negb_false_iff in Hn; exact Hn
            end).
Qed.


(** What is known of an invocation that returned. *)
Lemma notifier_returns_inv environ event context w result w' :
  lambda_handler environ event context w = (Returned result, w') ->
  exists entries,
    event = PDict entries /\
    attempt (environ_get_default environ "USERNAME" "unknown")
            (PDict entries) context w
    = (Returned result, w').
Proof.
  intros H.
  destruct event as [ | | | | | | entries]; try discriminate H.
  exists entries. split; [ reflexivity | ].
  rewrite notifier_of_attempt in H.
  destruct (attempt _ (PDict entries) context w) as [[result0 | e] w0];
    [ exact H | discriminate H ].
Qed.

(** X7: a status other than [SUCCESS] (FAILED, absent, not even a string)
    makes a failure notification whatever processingScore and
    recordsProcessed hold, numbers or not: sent by EMAIL with priority high
    and the failure message when the delivery draw, the second of the
    generator, is above 0.05, and otherwise the failure [Notification
    service unavailable for EMAIL]. *)
Theorem failure_notification_ignores_numbers environ entries context w :
  eq_str (dict_get entries "status" (PStr "UNKNOWN")) "SUCCESS" = false ->
  (Qlt_bool (double (5 # 100)) (second_draw w) = true ->
   exists result w',
     lambda_handler environ (PDict entries) context w = (Returned result, w') /\
     notificationType result = "EMAIL" /\
     priority result = "high" /\
     message result
     = [ Lit "❌ Data processing failed for ";
         Str (dict_get entries "dataType" (PStr "general"));
         Lit ". Please check logs for details." ])
  /\ (Qlt_bool (double (5 # 100)) (second_draw w) = false ->
      exists w',
        lambda_handler environ (PDict entries) context w
        = (Raised (Exception "Notification service unavailable for EMAIL"),
           w')).
Proof.
  intros Hstatus. rewrite notifier_of_attempt. run_send. rewrite Hstatus.
  cbv beta iota.
  change (assoc "EMAIL" notification_times)
    with (Some (double (5 # 10), double (15 # 10))).
  cbv beta iota. cbn [entropy drawn now].
  destruct (notification_times_exact
              "EMAIL" (double (5 # 10)) (double (15 # 10)) eq_refl)
    as (Hlo & Hlohi & _).
  destruct (unit_float_range (entropy w (drawn w))) as [H0 _].
  assert (Hsleep :
    Qlt_bool (fadd (double (5 # 10))
                   (fmul (fsub (double (15 # 10)) (double (5 # 10)))
                         (unit_float (entropy w (drawn w))))) 0 = false).
  { apply Qlt_bool_false_iff. apply uniform_nonneg; assumption. }
  rewrite Hsleep. cbn [entropy drawn now]. unfold second_draw.
  split; intros Hdraw; rewrite Hdraw; cbn [negb entropy drawn now].
  - eexists _, _. split; [ reflexivity | ]. repeat split.
  - eexists. reflexivity.
Qed.

Lemma failure_notification_ignores_numbers_witness :
  eq_str (dict_get failed_outcome "status" (PStr "UNKNOWN")) "SUCCESS" = false /\
  num_of (dict_get failed_outcome "processingScore" (PFloat (FFin 0))) = None /\
  exists result w',
    lambda_handler [] (PDict failed_outcome) sample_context steady
    = (Returned result, w') /\
    notificationType result = "EMAIL" /\ priority result = "high".
Proof.
  split; [ reflexivity | ]. split; [ reflexivity | ].
  destruct (failure_notification_ignores_numbers
              [] failed_outcome sample_context steady eq_refl) as [Hsent _].
  destruct (Hsent eq_refl) as (result & w' & Hrun & Hchannel & Hpriority & _).
  exists result, w'. repeat split; assumption.
Defined.

(** X8: with status SUCCESS, a processingScore that is no number (a
    string, null, a list) makes the comparison [processing_score > 0.9]
    fail: the Notifier raises [Exception] with the text of that
    [TypeError], before any draw or sleep; and so does a recordsProcessed
    that is no number, once the score was found not to exceed 0.9. *)
Theorem ill_typed_numbers_are_reported environ entries context w :
  let score := dict_get entries "processingScore" (PFloat (FFin 0)) in
  let records := dict_get entries "recordsProcessed" (PInt 0) in
  dict_get entries "status" (PStr "UNKNOWN") = PStr "SUCCESS" ->
  (num_of score = None ->
   lambda_handler environ (PDict entries) context w
   = (Raised (Exception ("'>' not supported between instances of '"
                           ++ type_name score ++ "' and 'float'")), w))
  /\ (py_gt score (NFloat (FFin (double (9 # 10)))) = Returned false ->
      num_of records = None ->
      lambda_handler environ (PDict entries) context w
      = (Raised (Exception ("'>' not supported between instances of '"
                              ++ type_name records ++ "' and 'int'")), w)).
Proof.
  intros score records Hstatus.
  split; [ intros Hscore | intros Hscore Hrecords ];
    rewrite notifier_of_attempt; run_send; rewrite Hstatus;
    fold score records; cbn [eq_str String.eqb Ascii.eqb Bool.eqb].
  - unfold py_gt at 1. rewrite Hscore. reflexivity.
  - rewrite Hscore. cbv beta iota. unfold py_gt. rewrite Hrecords. reflexivity.
Qed.

Lemma ill_typed_numbers_are_reported_witness :
  (dict_get outcome_with_text_score "status" (PStr "UNKNOWN") = PStr "SUCCESS" /\
   lambda_handler [] (PDict outcome_with_text_score) sample_context steady
   = (Raised (Exception
                "'>' not supported between instances of 'str' and 'float'"),
      steady))
  /\ (dict_get outcome_with_text_count "status" (PStr "UNKNOWN")
      = PStr "SUCCESS" /\
      lambda_handler [] (PDict outcome_with_text_count) sample_context steady
      = (Raised (Exception
                   "'>' not supported between instances of 'str' and 'int'"),
         steady)).
Proof.
  split; (split; [ reflexivity | ]).
  - apply (ill_typed_numbers_are_reported
             [] outcome_with_text_score sample_context steady eq_refl).
    reflexivity.
  - apply (ill_typed_numbers_are_reported
             [] outcome_with_text_count sample_context steady eq_refl).
    + reflexivity.
    + reflexivity.
Defined.

(** X9: whatever the event, a record the Notifier returns has status
    SENT, one of the three channels SMS, EMAIL, PUSH and one of the two
    priorities; an SMS always has priority high; and it is returned only
    when the delivery draw was above 0.05. *)
Theorem notification_record_invariants environ event context w result w' :
  lambda_handler environ event context w = (Returned result, w') ->
  status result = "SENT" /\
  In (notificationType result) [ "SMS"; "EMAIL"; "PUSH" ] /\
  In (priority result) [ "normal"; "high" ] /\
  (notificationType result = "SMS" -> priority result = "high") /\
  Qlt_bool (double (5 # 100)) (second_draw w) = true.
Proof.
  intros H.
  destruct (notifier_returns_inv _ _ _ _ _ _ H) as (entries & -> & Hrun).
  destruct (attempt_returns_inv _ _ _ _ _ _ Hrun)
    as (lo & hi & _ & Hchannel & Hpriority & Hsms & _ & Hdraw & _ & Hstatus & _).
  repeat split; assumption.
Qed.

Lemma notification_record_invariants_witness :
  exists result w',
    lambda_handler [] (PDict excellent_outcome) sample_context steady
    = (Returned result, w') /\
    status result = "SENT" /\
    In (notificationType result) [ "SMS"; "EMAIL"; "PUSH" ] /\
    In (priority result) [ "normal"; "high" ].
Proof.
  destruct (lambda_handler [] (PDict excellent_outcome) sample_context steady)
    as [[result | e] w'] eqn:Hrun;
    [ | vm_compute in Hrun; discriminate Hrun ].
  destruct (notification_record_invariants _ _ _ _ _ _ Hrun)
    as (Hstatus & Hchannel & Hpriority & _).
  exists result, w'. repeat split; assumption.
Defined.

(** X10: a record the Notifier returns is addressed to the userId of the
    event and carries, under originalData, the dataType, recordsProcessed
    and processingScore it received (or their defaults: [unknown],
    [general], 0, 0.0), and under metadata the USERNAME of the environment
    (or [unknown]), the function name and the request id. *)
Theorem notification_echoes_outcome environ event context w result w' :
  lambda_handler environ event context w = (Returned result, w') ->
  exists entries,
    event = PDict entries /\
    userId result = dict_get entries "userId" (PStr "unknown") /\
    originalData result
    = {| dataType := dict_get entries "dataType" (PStr "general");
         recordsProcessed := dict_get entries "recordsProcessed" (PInt 0);
         processingScore :=
           dict_get entries "processingScore" (PFloat (FFin 0)) |} /\
    metadata result
    = {| username := environ_get_default environ "USERNAME" "unknown";
         functionName := function_name context;
         requestId := aws_request_id context |}.
Proof.
  intros H.
  destruct (notifier_returns_inv _ _ _ _ _ _ H) as (entries & -> & Hrun).
  destruct (attempt_returns_inv _ _ _ _ _ _ Hrun)
    as (lo & hi & _ & _ & _ & _ & _ & _ & Huser & _ & _ & _ & _
        & Hdata & Hmeta & _).
  exists entries. repeat split; assumption.
Qed.

Lemma notification_echoes_outcome_witness :
  exists result w',
    lambda_handler [] (PDict excellent_outcome) sample_context steady
    = (Returned result, w') /\
    userId result = PStr "u1" /\
    dataType (originalData result) = PStr "sales_data" /\
    recordsProcessed (originalData result) = PInt 600.
Proof.
  destruct (lambda_handler [] (PDict excellent_outcome) sample_context steady)
    as [[result | e] w'] eqn:Hrun;
    [ | vm_compute in Hrun; discriminate Hrun ].
  destruct (notification_echoes_outcome _ _ _ _ _ _ Hrun)
    as (entries & Hevent & Huser & Hdata & _).
  apply (f_equal (fun v => match v with PDict es => es | _ => [] end)) in Hevent.
  subst entries.
  exists result, w'. rewrite Huser, Hdata. repeat split.
Defined.

(** X11: the sending time is drawn within the range of the channel that
    was chosen (EMAIL 0.5 to 1.5, SMS 0.2 to 0.8, PUSH 0.1 to 0.5 seconds,
    as floats): the Notifier sleeps that long, the sendDuration it reports
    (the draw rounded to two decimals) lies within the range too, and sentAt
    is read when the sleep is over. *)
Theorem send_duration_in_range environ event context w result w' :
  lambda_handler environ event context w = (Returned result, w') ->
  exists lo hi,
    assoc (notificationType result) notification_times = Some (lo, hi) /\
    (lo <= sendDuration result)%Q /\ (sendDuration result <= hi)%Q /\
    (lo <= now w' - now w)%Q /\ (now w' - now w <= hi)%Q /\
    sentAt result = int_of_float (now w').
Proof.
  intros H.
  destruct (notifier_returns_inv _ _ _ _ _ _ H) as (entries & -> & Hrun).
  destruct (attempt_returns_inv _ _ _ _ _ _ Hrun)
    as (lo & hi & Htimes & _ & _ & _ & _ & _ & _ & _ & Hsent & Hduration
        & _ & _ & _ & ->).
  destruct (unit_float_range (entropy w (drawn w))) as [H0 H1].
  destruct (send_duration_bounds _ _ _ _ Htimes H0 H1)
    as (Hd1 & Hd2 & Hr1 & Hr2).
  exists lo, hi. rewrite Hduration, Hsent. cbn [now].
  repeat split; try assumption; lra.
Qed.

Lemma send_duration_in_range_witness :
  exists result w',
    lambda_handler [] (PDict excellent_outcome) sample_context steady
    = (Returned result, w') /\
    notificationType result = "SMS" /\
    (double (2 # 10) <= sendDuration result)%Q /\
    (sendDuration result <= double (8 # 10))%Q.
Proof.
  destruct (lambda_handler [] (PDict excellent_outcome) sample_context steady)
    as [[result | e] w'] eqn:Hrun;
    [ | vm_compute in Hrun; discriminate Hrun ].
  destruct (send_duration_in_range _ _ _ _ _ _ Hrun)
    as (lo & hi & Htimes & Hd1 & Hd2 & _).
  assert (Hchannel : notificationType result = "SMS").
  { vm_compute in Hrun. apply returned_eq in Hrun. destruct Hrun as [<- _].
    reflexivity. }
  rewrite Hchannel in Htimes.
  apply (f_equal (fun o => match o with Some v => v | None => (0, 0)%Q end))
    in Htimes.
  cbv beta iota in Htimes. apply pair_eq in Htimes. destruct Htimes as [<- <-].
  exists result, w'. repeat split; assumption.
Defined.

(** X12: the deliveryId of a record is the channel in lower case, an
    integer timestamp and a suffix drawn in [1000, 9999], joined by
    underscores. *)
Theorem delivery_id_format environ event context w result w' :
  lambda_handler environ event context w = (Returned result, w') ->
  exists timestamp suffix,
    (1000 <= suffix <= 9999)%Z /\
    deliveryId result
    = lower (notificationType result) ++ "_" ++ str_of_int timestamp
        ++ "_" ++ str_of_int suffix.
Proof.
  intros H.
  destruct (notifier_returns_inv _ _ _ _ _ _ H) as (entries & -> & Hrun).
  destruct (attempt_returns_inv _ _ _ _ _ _ Hrun)
    as (lo & hi & _ & _ & _ & _ & _ & _ & _ & _ & _ & _ & Hid & _).
  eexists _, _. split; [ | exact Hid ].
  pose proof (Z.mod_pos_bound (entropy w (S (S (drawn w)))) 9000 eq_refl).
  lia.
Qed.

Lemma delivery_id_format_witness :
  exists result w' timestamp suffix,
    lambda_handler [] (PDict excellent_outcome) sample_context steady
    = (Returned result, w') /\
    (1000 <= suffix <= 9999)%Z /\
    deliveryId result
    = lower (notificationType result) ++ "_" ++ str_of_int timestamp
        ++ "_" ++ str_of_int suffix.
Proof.
  destruct (lambda_handler [] (PDict excellent_outcome) sample_context steady)
    as [[result | e] w'] eqn:Hrun;
    [ | vm_compute in Hrun; discriminate Hrun ].
  destruct (delivery_id_format _ _ _ _ _ _ Hrun)
    as (timestamp & suffix & Hrange & Hid).
  exists result, w', timestamp, suffix. repeat split; assumption || apply Hrange.
Defined.

(** X13: an event that is no object is refused by [event.get] in the
    [try] block and again in the [except] block: the Notifier raises
    [AttributeError], not the [Exception(str(e))] of its other failures,
    before any draw or sleep. *)
Theorem non_object_outcome_raises_attribute_error environ event context w :
  (forall entries, event <> PDict entries) ->
  lambda_handler environ event context w
  = (Raised (AttributeError
               ("'" ++ type_name event ++ "' object has no attribute 'get'")),
     w).
Proof.
  intros H. destruct event; try reflexivity.
  now contradiction (H entries).
Qed.

Lemma non_object_outcome_raises_attribute_error_witness :
  (forall entries, PNone <> PDict entries) /\
  lambda_handler [] PNone sample_context steady
  = (Raised (AttributeError "'NoneType' object has no attribute 'get'"),
     steady).
Proof.
  assert (H : forall entries, PNone <> PDict entries) by discriminate.
  split; [ exact H | ].
  exact (non_object_outcome_raises_attribute_error
           [] PNone sample_context steady H).
Defined.

Lemma float_int_limit_positive : 1 <= float_int_limit.
Proof. apply Z.leb_le. vm_compute. reflexivity. Qed.

Lemma nine_tenths_below_one : (double (9 # 10) < 1)%Q.
Proof. apply Qlt_bool_iff. vm_compute. reflexivity. Qed.

(** X27: a SUCCESS outcome whose processingScore is an int too large for a
    float (2^1024 - 2^970 and above) exceeds 0.9, so the channel is SMS;
    after the draw and the sleep of that channel, between 0.2 and 0.8
    seconds, the percent format of the message fails and the Notifier
    raises [Exception('int too large to convert to float')]: no record,
    no delivery draw, whatever recordsProcessed holds. *)
Theorem oversized_score_overflows environ entries context w z :
  dict_get entries "status" (PStr "UNKNOWN") = PStr "SUCCESS" ->
  dict_get entries "processingScore" (PFloat (FFin 0)) = PInt z ->
  float_int_limit <= z ->
  exists duration,
    (double (2 # 10) <= duration)%Q /\ (duration <= double (8 # 10))%Q /\
    lambda_handler environ (PDict entries) context w
    = (Raised (Exception "int too large to convert to float"),
       {| entropy := entropy w; drawn := S (drawn w);
          now := (now w + duration)%Q |}).
Proof.
  intros Hstatus Hscore Hlarge.
  pose proof float_int_limit_positive as Hpos.
  assert (Hexcellent : Qlt_bool (double (9 # 10)) (inject_Z z) = true).
  { apply Qlt_bool_iff. apply Qlt_le_trans with (1 := nine_tenths_below_one).
    change 1%Q with (inject_Z 1). rewrite <- Zle_Qle. lia. }
  assert (Hformat : format_percent1 (PInt z)
                    = Raised (OtherError "OverflowError"
                                         "int too large to convert to float")).
  { unfold format_percent1.
    replace (Z.abs z <? float_int_limit) with false; [ reflexivity | ].
    symmetry. apply Z.ltb_ge. lia. }
  rewrite notifier_of_attempt. run_send. rewrite Hstatus, Hscore, Hformat.
  cbn [eq_str String.eqb Ascii.eqb Bool.eqb].
  rewrite (py_gt_real (PInt z) (inject_Z z) _ eq_refl), Hexcellent.
  cbv beta iota.
  destruct (unit_float_range (entropy w (drawn w))) as [H0 H1].
  destruct (send_duration_bounds
              "SMS" (double (2 # 10)) (double (8 # 10))
              (unit_float (entropy w (drawn w))) eq_refl H0 H1)
    as (Hlo & Hhi & _ & _).
  exists (fadd (double (2 # 10))
               (fmul (fsub (double (8 # 10)) (double (2 # 10)))
                     (unit_float (entropy w (drawn w))))).
  split; [ exact Hlo | ]. split; [ exact Hhi | ].
  change (assoc "SMS" notification_times)
    with (Some (double (2 # 10), double (8 # 10))).
  cbv beta iota.
  replace (Qlt_bool _ 0) with false; [ reflexivity | ].
  symmetry. apply Qlt_bool_false_iff.
  eapply Qle_trans; [ | exact Hlo ].
  apply Qle_bool_iff. vm_compute. reflexivity.
Qed.

Lemma oversized_score_overflows_witness :
  dict_get outcome_with_huge_score "status" (PStr "UNKNOWN")
  = PStr "SUCCESS" /\
  dict_get outcome_with_huge_score "processingScore" (PFloat (FFin 0))
  = PInt (10 ^ 400) /\
  float_int_limit <= 10 ^ 400 /\
  exists duration,
    (double (2 # 10) <= duration)%Q /\ (duration <= double (8 # 10))%Q /\
    lambda_handler [] (PDict outcome_with_huge_score) sample_context steady
    = (Raised (Exception "int too large to convert to float"),
       {| entropy := entropy steady; drawn := S (drawn steady);
          now := (now steady + duration)%Q |}).
Proof.
  assert (Hlarge : float_int_limit <= 10 ^ 400)
    by (apply Z.leb_le; vm_compute; reflexivity).
  split; [ reflexivity | ]. split; [ reflexivity | ].
  split; [ exact Hlarge | ].
  exact (oversized_score_overflows
           [] outcome_with_huge_score sample_context steady (10 ^ 400)
           eq_refl eq_refl Hlarge).
Defined.

End SendNotificationBehaviour.

(** ** The two steps, one after the other *)

Module Pipeline.
Import RunFacts NumFacts.

(** X14: the two steps compose.  A payload the Data Processor returns is a
    Processing Outcome the Notifier can read (status SUCCESS, a real score,
    an integer count): fed to the Notifier, under any environment, context,
    generator and clock of its own, it is never refused for its types; when
    the delivery draw is above 0.05 the notification goes to the userId of
    the original task, for its dataType, over the channel and with the
    priority the score and the count select, and otherwise the only failure
    is [Notification service unavailable]. *)
Theorem processor_payload_feeds_notifier
        environ event context w payload w1 environ' context' w2 :
  ProcessData.lambda_handler environ event context w = (Returned payload, w1) ->
  exists entries fields score records,
    event = PDict entries /\
    payload = PDict fields /\
    SendNotification.processing_outcome
      fields "SUCCESS" score (inject_Z records) /\
    (double (7 # 10) <= score)%Q /\ (score <= double (99 # 100))%Q /\
    (100 <= records <= 1000)%Z /\
    let channel :=
      SendNotification.channel_spec "SUCCESS" score (inject_Z records) in
    (Qlt_bool (double (5 # 100)) (second_draw w2) = true ->
     exists note w3,
       SendNotification.lambda_handler environ' payload context' w2
       = (Returned note, w3) /\
       SendNotification.userId note
       = dict_get entries "userId" (PStr "unknown") /\
       SendNotification.dataType (SendNotification.originalData note)
       = dict_get entries "dataType" (PStr "general") /\
       SendNotification.notificationType note = channel /\
       SendNotification.priority note
       = SendNotification.priority_spec "SUCCESS" score)
    /\ (Qlt_bool (double (5 # 100)) (second_draw w2) = false ->
        exists w3,
          SendNotification.lambda_handler environ' payload context' w2
          = (Raised (Exception ("Notification service unavailable for "
                                  ++ channel)), w3)).
Proof.
  intros H.
  pose proof (ProcessDataFacts.attempt_returns_success) as Hsuccess.
  destruct (ProcessDataBehaviour.processor_returns_inv _ _ _ _ _ _ H)
    as (entries & lo & hi & rate & -> & Hu & Hd & Htimes & Hrate & Hdraw
        & Hrun).
  destruct (Hsuccess _ _ _ _ _ _ Hrun)
    as (fields0 & n & q & Hpayload & _ & Hrecords & Hn & Hscore & Hq1 & Hq2).
  rewrite (ProcessDataBehaviour.attempt_run _ _ _ _ _ _ _ Hu Hd Htimes Hrate),
    Hdraw in Hrun.
  apply returned_eq in Hrun. destruct Hrun as [Hfields _].
  rewrite <- Hfields in Hpayload.
  apply (f_equal (fun v => match v with PDict es => es | _ => [] end))
    in Hpayload.
  cbv beta iota in Hpayload.
  assert (Houtcome :
    SendNotification.processing_outcome fields0 "SUCCESS" q (inject_Z n)).
  { unfold SendNotification.processing_outcome, dict_get.
    rewrite Hrecords, Hscore. rewrite <- Hpayload.
    repeat split. }
  exists entries, fields0, q, n.
  split; [ reflexivity | ].
  split; [ rewrite <- Hfields, Hpayload; reflexivity | ].
  split; [ exact Houtcome | ].
  split; [ exact Hq1 | ]. split; [ exact Hq2 | ]. split; [ exact Hn | ].
  intros channel.
  assert (Hprintable : SendNotification.printable_score fields0).
  { unfold SendNotification.printable_score, dict_get.
    rewrite Hscore. reflexivity. }
  destruct (SendNotificationFacts.notifier_outcome
              environ' fields0 context' w2 "SUCCESS" q (inject_Z n) Houtcome
              (fun _ => Hprintable))
    as [Hsent Hfailed].
  rewrite <- Hfields, Hpayload.
  split; [ | exact Hfailed ].
  intros Hdelivery.
  destruct (Hsent Hdelivery)
    as (note & w3 & Hnote & Huser & Hchannel & _ & Hpriority).
  exists note, w3. split; [ exact Hnote | ].
  destruct (SendNotificationBehaviour.notifier_returns_inv _ _ _ _ _ _ Hnote)
    as (fields1 & Heq & Hattempt).
  apply (f_equal (fun v => match v with PDict es => es | _ => [] end)) in Heq.
  cbv beta iota in Heq. subst fields1.
  destruct (SendNotificationBehaviour.attempt_returns_inv _ _ _ _ _ _ Hattempt)
    as (_ & _ & _ & _ & _ & _ & _ & _ & _ & _ & _ & _ & _ & Hdata & _).
  rewrite Huser, Hdata, <- Hpayload.
  repeat split; assumption.
Qed.

Lemma processor_payload_feeds_notifier_witness :
  exists payload w1 note w3,
    ProcessData.lambda_handler
      [] ProcessData.sample_task ProcessData.sample_context ProcessData.lucky
    = (Returned payload, w1) /\
    SendNotification.lambda_handler
      [] payload SendNotification.sample_context SendNotification.steady
    = (Returned note, w3) /\
    SendNotification.userId note = PStr "u1" /\
    SendNotification.dataType (SendNotification.originalData note)
    = PStr "sales_data".
Proof.
  destruct (ProcessData.lambda_handler
              [] ProcessData.sample_task ProcessData.sample_context
              ProcessData.lucky) as [[payload | e] w1] eqn:Hrun;
    [ | vm_compute in Hrun; discriminate Hrun ].
  destruct (processor_payload_feeds_notifier
              _ _ _ _ _ _ [] SendNotification.sample_context
              SendNotification.steady Hrun)
    as (entries & fields & score & records & Hevent & _ & _ & _ & _ & _
        & Hsent & _).
  apply (f_equal (fun v => match v with PDict es => es | _ => [] end)) in Hevent.
  subst entries.
  destruct (Hsent eq_refl) as (note & w3 & Hnote & Huser & Hdata & _).
  exists payload, w1, note, w3. repeat split; assumption.
Defined.

End Pipeline.

(** ** The Workflow Trigger: every invocation, and the request sent *)

Module TriggerWorkflowBehaviour.
Import TriggerWorkflow Scenarios RunFacts TriggerWorkflowFacts.

Lemma is_allowed_in (s : string) :
  is_allowed (PStr s) = true -> In s allowed_data_types.
Proof.
  unfold is_allowed. intros H. apply existsb_exists in H.
  destruct H as (x & Hin & Heq). cbn [eq_str] in Heq.
  apply String.eqb_eq in Heq. now subst x.
Qed.

Lemma has_key_assoc entries key :
  (if has_key entries key
   then Some (dict_get entries key PNone) else None) = assoc key entries.
Proof.
  unfold has_key, dict_get. destruct (assoc key entries); reflexivity.
Qed.

(** What [start_workflow] does once the request passed validation, in
    full: the request it sends, once, and the response it builds from the
    reply. *)
Lemma start_workflow_request P username arn context entries s :
  truthy (dict_get entries "userId" PNone) = true ->
  truthy (dict_get entries "dataType" PNone) = true ->
  exists data_type document,
    In data_type allowed_data_types /\
    (is_allowed (dict_get entries "dataType" PNone) = true ->
     dict_get entries "dataType" PNone = PStr data_type) /\
    (is_allowed (dict_get entries "dataType" PNone) = false ->
     data_type = "general") /\
    assoc "userId" document = Some (dict_get entries "userId" PNone) /\
    assoc "dataType" document = Some (PStr data_type) /\
    assoc "requestMetadata" document
    = Some (PDict [ ("requestId", PStr (aws_request_id context));
                    ("triggerSource", PStr "api_gateway");
                    ("username", PStr username);
                    ("timestamp", PInt (int_of_float (now s)));
                    ("apiVersion", PStr "1.0") ]) /\
    assoc "priority" document = assoc "priority" entries /\
    assoc "options" document = assoc "options" entries /\
    (forall key,
        ~ In key [ "userId"; "dataType"; "requestMetadata"; "priority";
                   "options" ] ->
        assoc key document = None) /\
    let request :=
      {| stateMachineArn := arn;
         name := username ++ "-" ++ data_type ++ "-"
                   ++ str_of_int (int_of_float (now s)) ++ "-"
                   ++ substring 0 8 (uuid4_hex P);
         input := json_dumps (PDict document) |} in
    let s1 := {| now := now s; started := (started s ++ [request])%list |} in
    start_workflow P username arn context (PDict entries) s
    = match start_execution P request with
      | Returned reply =>
          (Returned
             {| statusCode := 200;
                headers := [ ("Content-Type", "application/json");
                             ("Access-Control-Allow-Origin", "*");
                             ("X-Request-ID", aws_request_id context) ];
                body :=
                  json_dumps
                    (PDict
                       [ ("message", PStr "Workflow started successfully");
                         ("executionArn", PStr (executionArn reply));
                         ("executionName", PStr (name request));
                         ("stateMachineArn", PStr arn);
                         ("input", PDict document);
                         ("metadata",
                           PDict [ ("username", PStr username);
                                   ("requestId",
                                     PStr (aws_request_id context));
                                   ("startedAt",
                                     match startDate reply with
                                     | Some date => PStr date
                                     | None => PNone
                                     end) ]) ]) |}, s1)
      | Raised e => on_client_error e s1
      end.
Proof.
  intros Hu Hd.
  cbv beta iota zeta delta
    [start_workflow bind lift ret try_except call_start_execution time_time
     py_get].
  rewrite Hu, Hd. cbn [negb now started].
  match goal with
  | |- context [start_execution P ?request] =>
      match request with
      | {| stateMachineArn := _;
           name := (_ ++ "-" ++ ?data_type ++ "-" ++ _);
           input := json_dumps (PDict ?document) |} =>
          exists data_type, document
      end
  end.
  split.
  { destruct (dict_get entries "dataType" PNone) as [ | | | | t | | ];
      try (cbn; tauto).
    destruct (is_allowed (PStr t)) eqn:Hallowed;
      [ now apply is_allowed_in | cbn; tauto ]. }
  split.
  { destruct (dict_get entries "dataType" PNone); try discriminate.
    intros ->. reflexivity. }
  split.
  { destruct (dict_get entries "dataType" PNone); try reflexivity.
    intros ->. reflexivity. }
  pose proof (has_key_assoc entries "priority") as Hpriority.
  pose proof (has_key_assoc entries "options") as Hoptions.
  split.
  { destruct (has_key entries "priority"), (has_key entries "options");
      reflexivity. }
  split.
  { destruct (has_key entries "priority"), (has_key entries "options");
      reflexivity. }
  split.
  { destruct (has_key entries "priority"), (has_key entries "options");
      reflexivity. }
  split.
  { rewrite <- Hpriority.
    destruct (has_key entries "priority"), (has_key entries "options");
      reflexivity. }
  split.
  { rewrite <- Hoptions.
    destruct (has_key entries "priority"), (has_key entries "options");
      reflexivity. }
  split.
  { intros key Hkey. cbn [In] in Hkey.
    assert (H1 : String.eqb "userId" key = false)
      by (apply String.eqb_neq; tauto).
    assert (H2 : String.eqb "dataType" key = false)
      by (apply String.eqb_neq; tauto).
    assert (H3 : String.eqb "requestMetadata" key = false)
      by (apply String.eqb_neq; tauto).
    assert (H4 : String.eqb "priority" key = false)
      by (apply String.eqb_neq; tauto).
    assert (H5 : String.eqb "options" key = false)
      by (apply String.eqb_neq; tauto).
    destruct (has_key entries "priority"), (has_key entries "options");
      cbn [assoc app]; rewrite ?H1, ?H2, ?H3, ?H4, ?H5; reflexivity. }
  cbv zeta. cbn [name].
  destruct (start_execution P _) as [reply | e].
  - reflexivity.
  - destruct e; reflexivity.
Qed.


(** The [except ClientError] block answers 400, 429 or 500, and lets any
    other exception through. *)
Lemma on_client_error_cases e s :
  (exists code message,
      In code [ 400; 429; 500 ] /\
      (code = 429 ->
       message = "Too many concurrent executions" /\
       exists text, e = ClientError "ExecutionLimitExceeded" text) /\
      on_client_error e s = create_error_response code message s)
  \/ on_client_error e s = (Raised e, s).
Proof.
  destruct e; try (right; reflexivity).
  left. unfold on_client_error.
  destruct (String.eqb code "StateMachineDoesNotExist");
    [ | destruct (String.eqb code "InvalidParameterValue");
        [ | destruct (String.eqb_spec code "ExecutionLimitExceeded")
              as [-> | _] ] ];
    eexists _, _; (split; [ | split; [ | reflexivity ] ]);
    try (cbn; tauto); try discriminate.
  intros _. split; [ reflexivity | eexists; reflexivity ].
Qed.

(** The ways [start_workflow] ends: an exception before anything was sent
    (the request is no object), a 400 before anything was sent, or one call
    of [start_execution] and the response to its outcome. *)
Lemma start_workflow_cases P username arn context body s :
  (exists e, start_workflow P username arn context body s = (Raised e, s))
  \/ (exists message,
         start_workflow P username arn context body s
         = create_error_response 400 message s)
  \/ (exists request document,
         stateMachineArn request = arn /\
         input request = json_dumps (PDict document) /\
         let s1 := {| now := now s; started := (started s ++ [request])%list |} in
         start_workflow P username arn context body s
         = match start_execution P request with
           | Returned reply =>
               (Returned
                  {| statusCode := 200;
                     headers := [ ("Content-Type", "application/json");
                                  ("Access-Control-Allow-Origin", "*");
                                  ("X-Request-ID", aws_request_id context) ];
                     body :=
                       json_dumps
                         (PDict
                            [ ("message", PStr "Workflow started successfully");
                              ("executionArn", PStr (executionArn reply));
                              ("executionName", PStr (name request));
                              ("stateMachineArn", PStr arn);
                              ("input", PDict document);
                              ("metadata",
                                PDict [ ("username", PStr username);
                                        ("requestId",
                                          PStr (aws_request_id context));
                                        ("startedAt",
                                          match startDate reply with
                                          | Some date => PStr date
                                          | None => PNone
                                          end) ]) ]) |}, s1)
           | Raised e => on_client_error e s1
           end).
Proof.
  destruct body as [ | | | | | | entries];
    try (left; eexists; reflexivity).
  destruct (truthy (dict_get entries "userId" PNone)) eqn:Hu.
  - destruct (truthy (dict_get entries "dataType" PNone)) eqn:Hd.
    + right. right.
      destruct (start_workflow_request P username arn context entries s Hu Hd)
        as (data_type & document & _ & _ & _ & _ & _ & _ & _ & _ & _ & Hrun).
      exists {| stateMachineArn := arn;
                name := username ++ "-" ++ data_type ++ "-"
                          ++ str_of_int (int_of_float (now s)) ++ "-"
                          ++ substring 0 8 (uuid4_hex P);
                input := json_dumps (PDict document) |}, document.
      split; [ reflexivity | ]. split; [ reflexivity | exact Hrun ].
    + right. left. eexists.
      apply (start_workflow_rejects_data_type _ _ _ _ _ _ Hu Hd).
  - right. left. eexists.
    apply (start_workflow_rejects_user _ _ _ _ _ _ Hu).
Qed.

(** The same for the attempt: the request is the event or the decoded
    body. *)
Lemma attempt_cases P username arn event context s :
  (exists e, attempt P username arn event context s = (Raised e, s))
  \/ (exists message,
         attempt P username arn event context s
         = create_error_response 400 message s)
  \/ (exists body,
         attempt P username arn event context s
         = start_workflow P username arn context body s).
Proof.
  cbv beta iota zeta delta [attempt bind lift].
  destruct (boto3_client P) as [[] | e]; [ | left; eexists; reflexivity ].
  destruct (py_get event "body" PNone) as [event_body | e];
    [ | left; eexists; reflexivity ].
  destruct (truthy event_body).
  - destruct event_body; try (left; eexists; reflexivity).
    destruct (json_loads P s0) as [body | e].
    + right. right. eexists. reflexivity.
    + destruct e; try (left; eexists; reflexivity).
      right. left. eexists. reflexivity.
  - right. right. eexists. reflexivity.
Qed.

(** Every invocation that gets past the log line, in full: a 400 or 500
    before anything was sent; or one call of [start_execution], answered
    200 when it returns and 400, 429 or 500 when it raises. *)
Lemma handler_cases P environ event context s :
  json_dumps_default_str P event = Returned tt ->
  exists r s',
    lambda_handler P environ event context s = (Returned r, s') /\
    ((s' = s /\
      exists code message,
        In code [ 400; 500 ] /\
        create_error_response code message s = (Returned r, s))
     \/ (exists request,
            s' = {| now := now s; started := (started s ++ [request])%list |} /\
            ((exists reply document,
                 start_execution P request = Returned reply /\
                 environ_get environ "STATE_MACHINE_ARN"
                 = Some (stateMachineArn request) /\
                 input request = json_dumps (PDict document) /\
                 r = {| statusCode := 200;
                        headers := [ ("Content-Type", "application/json");
                                     ("Access-Control-Allow-Origin", "*");
                                     ("X-Request-ID", aws_request_id context) ];
                        body :=
                          json_dumps
                            (PDict
                               [ ("message",
                                   PStr "Workflow started successfully");
                                 ("executionArn", PStr (executionArn reply));
                                 ("executionName", PStr (name request));
                                 ("stateMachineArn",
                                   PStr (stateMachineArn request));
                                 ("input", PDict document);
                                 ("metadata",
                                   PDict
                                     [ ("username",
                                         PStr (environ_get_default
                                                 environ "USERNAME" "unknown"));
                                       ("requestId",
                                         PStr (aws_request_id context));
                                       ("startedAt",
                                         match startDate reply with
                                         | Some date => PStr date
                                         | None => PNone
                                         end) ]) ]) |})
             \/ (exists e code message,
                    start_execution P request = Raised e /\
                    In code [ 400; 429; 500 ] /\
                    (code = 429 ->
                     message = "Too many concurrent executions" /\
                     exists text,
                       e = ClientError "ExecutionLimitExceeded" text) /\
                    create_error_response code message s' = (Returned r, s'))))).
Proof.
  intros Hlogged.
  destruct (environ_get environ "STATE_MACHINE_ARN") as [arn | ] eqn:Harn;
    [ destruct (string_dec arn "") as [-> | Hne] | ].
  2: {
    rewrite (lambda_handler_configured P environ event context s arn
               (conj Harn Hne) Hlogged).
    unfold try_except.
    set (username := environ_get_default environ "USERNAME" "unknown").
    assert (Hearly : forall e,
      exists r s',
        (let (o, s1) := (@Raised response e, s) in
         match o with
         | Returned a => (Returned a, s1)
         | Raised e0 =>
             (_ <- time_time ;;
              create_error_response
                500 ("Internal server error: " ++ exn_str e0)) s1
         end) = (Returned r, s') /\
        (s' = s /\
         exists code message,
           In code [ 400; 500 ] /\
           create_error_response code message s = (Returned r, s))).
    { intros e. eexists _, s. split; [ reflexivity | ].
      split; [ reflexivity | ].
      exists 500, ("Internal server error: " ++ exn_str e).
      split; [ cbn; tauto | reflexivity ]. }
    destruct (attempt_cases P username arn event context s)
      as [[e ->] | [[message ->] | [body ->]]].
    - destruct (Hearly e) as (r & s' & Hrun & Hcase).
      exists r, s'. split; [ exact Hrun | left; exact Hcase ].
    - eexists _, s. split; [ reflexivity | ]. left.
      split; [ reflexivity | ].
      exists 400, message. split; [ cbn; tauto | reflexivity ].
    - destruct (start_workflow_cases P username arn context body s)
        as [[e ->] | [[message ->]
                      | (request & document & Hsm & Hinput & Hrun)]].
      + destruct (Hearly e) as (r & s' & Hrun & Hcase).
        exists r, s'. split; [ exact Hrun | left; exact Hcase ].
      + eexists _, s. split; [ reflexivity | ]. left.
        split; [ reflexivity | ].
        exists 400, message. split; [ cbn; tauto | reflexivity ].
      + cbv zeta in Hrun. rewrite Hrun.
        destruct (start_execution P request) as [reply | e] eqn:Hcall.
        * eexists _, _. split; [ reflexivity | ]. right.
          exists request. split; [ reflexivity | ]. left.
          exists reply, document.
          split; [ exact Hcall | ]. split; [ now rewrite Hsm | ].
          split; [ exact Hinput | rewrite Hsm; reflexivity ].
        * destruct (on_client_error_cases
                      e {| now := now s;
                           started := (started s ++ [request])%list |})
            as [(code & message & Hcode & Hlimit & ->) | ->].
          -- eexists _, _. split; [ reflexivity | ]. right.
             exists request. split; [ reflexivity | ]. right.
             exists e, code, message.
             split; [ exact Hcall | ]. split; [ exact Hcode | ].
             split; [ exact Hlimit | reflexivity ].
          -- eexists _, _. split; [ reflexivity | ]. right.
             exists request. split; [ reflexivity | ]. right.
             exists e, 500, ("Internal server error: " ++ exn_str e).
             split; [ exact Hcall | ].
             split; [ cbn; tauto | ].
             split; [ discriminate | reflexivity ]. }
  all: unfold lambda_handler; cbv beta iota delta [bind time_time lift];
    rewrite Harn, Hlogged; eexists _, s; (split; [ reflexivity | ]); left;
    (split; [ reflexivity | ]);
    exists 500, "Configuration error: STATE_MACHINE_ARN not found";
    (split; [ cbn; tauto | reflexivity ]).
Qed.


(** A handler that returned got past its log line. *)
Lemma returned_event_was_logged P environ event context s r s' :
  lambda_handler P environ event context s = (Returned r, s') ->
  json_dumps_default_str P event = Returned tt.
Proof.
  intros Hrun.
  destruct (json_dumps_default_str P event) as [[] | e] eqn:Hlog;
    [ reflexivity | ].
  rewrite (unlogged_event_escapes P environ event context s e Hlog) in Hrun.
  discriminate Hrun.
Qed.

Lemma error_response_eq code message s r :
  create_error_response code message s = (Returned r, s) ->
  r = {| statusCode := code;
         headers := [ ("Content-Type", "application/json");
                      ("Access-Control-Allow-Origin", "*") ];
         body := json_dumps
                   (PDict [ ("error", PStr message);
                            ("statusCode", PInt code);
                            ("timestamp", PInt (int_of_float (now s))) ]) |}.
Proof.
  intros H. apply returned_eq in H. destruct H as [<- _]. reflexivity.
Qed.


(** X15: whatever the platform and the environment, for every event
    that the Workflow Trigger can write to its log (the
    [json.dumps(event, default=str)] that comes before its [try]) it
    answers with status 200, 400, 429 or 500, asks the orchestrator to
    start at most one execution, and leaves the executions asked for before
    as they were. *)
Theorem trigger_answers_once P environ event context s :
  json_dumps_default_str P event = Returned tt ->
  exists r s',
    lambda_handler P environ event context s = (Returned r, s') /\
    In (statusCode r) [ 200; 400; 429; 500 ] /\
    (started s' = started s \/
     exists request, started s' = (started s ++ [request])%list).
Proof.
  intros Hlogged.
  destruct (handler_cases P environ event context s Hlogged)
    as (r & s' & Hrun & Hcases).
  exists r, s'. split; [ exact Hrun | ].
  destruct Hcases
    as [(-> & code & message & Hcode & Hresp)
       | (request & -> & [(reply & document & _ & _ & _ & ->)
                         | (e & code & message & _ & Hcode & _ & Hresp)])].
  - apply error_response_eq in Hresp. subst r. cbn [statusCode].
    split; [ cbn [In] in *; tauto | now left ].
  - cbn [statusCode started]. split; [ cbn; tauto | ].
    right. exists request. reflexivity.
  - apply error_response_eq in Hresp. subst r. cbn [statusCode started].
    split; [ cbn [In] in *; tauto | ].
    right. exists request. reflexivity.
Qed.

Lemma trigger_answers_once_witness :
  json_dumps_default_str throttled (PDict sample_request) = Returned tt /\
  exists r s',
    lambda_handler throttled lab_environ (PDict sample_request)
                   trigger_context fresh = (Returned r, s') /\
    In (statusCode r) [ 200; 400; 429; 500 ] /\
    (started s' = [] \/ exists request, started s' = [ request ]).
Proof.
  split; [ reflexivity | ].
  exact (trigger_answers_once
           throttled lab_environ (PDict sample_request) trigger_context fresh
           eq_refl).
Defined.



(** X17: a 200 response describes the execution that was started: its
    body carries the executionArn the orchestrator replied, the name and
    the workflow identifier that were sent, and, as [input], the very
    document that was sent; the header X-Request-ID carries the request id
    of the invocation. *)
Theorem success_response_describes_execution
        P environ event context s r s' :
  lambda_handler P environ event context s = (Returned r, s') ->
  statusCode r = 200 ->
  exists request reply document,
    started s' = (started s ++ [request])%list /\
    start_execution P request = Returned reply /\
    input request = json_dumps (PDict document) /\
    environ_get environ "STATE_MACHINE_ARN" = Some (stateMachineArn request) /\
    headers r = [ ("Content-Type", "application/json");
                  ("Access-Control-Allow-Origin", "*");
                  ("X-Request-ID", aws_request_id context) ] /\
    body r
    = json_dumps
        (PDict
           [ ("message", PStr "Workflow started successfully");
             ("executionArn", PStr (executionArn reply));
             ("executionName", PStr (name request));
             ("stateMachineArn", PStr (stateMachineArn request));
             ("input", PDict document);
             ("metadata",
               PDict [ ("username",
                         PStr (environ_get_default environ "USERNAME" "unknown"));
                       ("requestId", PStr (aws_request_id context));
                       ("startedAt", match startDate reply with
                                     | Some date => PStr date
                                     | None => PNone
                                     end) ]) ]).
Proof.
  intros Hrun Hok.
  destruct (handler_cases P environ event context s
              (returned_event_was_logged _ _ _ _ _ _ _ Hrun))
    as (r0 & s0 & Hrun0 & Hcases).
  rewrite Hrun in Hrun0. apply returned_eq in Hrun0.
  destruct Hrun0 as [<- <-].
  destruct Hcases
    as [(-> & code & message & Hcode & Hresp)
       | (request & -> & [(reply & document & Hcall & Harn & Hinput & ->)
                         | (e & code & message & Hcall & Hcode & _ & Hresp)])].
  - apply error_response_eq in Hresp. subst r. cbn [statusCode] in Hok.
    subst code. cbn [In] in Hcode. lia.
  - exists request, reply, document. repeat split; assumption.
  - apply error_response_eq in Hresp. subst r. cbn [statusCode] in Hok.
    subst code. cbn [In] in Hcode. lia.
Qed.

Lemma success_response_describes_execution_witness :
  exists r s' request,
    lambda_handler accepting lab_environ (PDict sample_request)
                   trigger_context fresh = (Returned r, s') /\
    statusCode r = 200 /\
    started s' = [ request ] /\
    assoc "X-Request-ID" (headers r) = Some "req-7".
Proof.
  destruct (lambda_handler accepting lab_environ (PDict sample_request)
                           trigger_context fresh) as [[r | e] s'] eqn:Hrun;
    [ | vm_compute in Hrun; discriminate Hrun ].
  assert (Hok : statusCode r = 200).
  { vm_compute in Hrun. apply returned_eq in Hrun. destruct Hrun as [<- _].
    reflexivity. }
  destruct (success_response_describes_execution _ _ _ _ _ _ _ Hrun Hok)
    as (request & reply & document & Hstarted & _ & _ & _ & Hheaders & _).
  exists r, s', request. rewrite Hheaders.
  repeat split; assumption.
Defined.

(** X18: a response with another status than 200 is an error response:
    the two standard headers and no X-Request-ID, and a body
    [{error, statusCode, timestamp}] whose statusCode is the status of the
    response and whose timestamp is the clock of the invocation. *)
Theorem error_response_is_consistent P environ event context s r s' :
  lambda_handler P environ event context s = (Returned r, s') ->
  statusCode r <> 200 ->
  exists message,
    headers r = [ ("Content-Type", "application/json");
                  ("Access-Control-Allow-Origin", "*") ] /\
    body r = json_dumps
               (PDict [ ("error", PStr message);
                        ("statusCode", PInt (statusCode r));
                        ("timestamp", PInt (int_of_float (now s))) ]).
Proof.
  intros Hrun Hko.
  destruct (handler_cases P environ event context s
              (returned_event_was_logged _ _ _ _ _ _ _ Hrun))
    as (r0 & s0 & Hrun0 & Hcases).
  rewrite Hrun in Hrun0. apply returned_eq in Hrun0.
  destruct Hrun0 as [<- <-].
  destruct Hcases
    as [(-> & code & message & Hcode & Hresp)
       | (request & -> & [(reply & document & Hcall & Harn & Hinput & ->)
                         | (e & code & message & Hcall & Hcode & _ & Hresp)])].
  - apply error_response_eq in Hresp. subst r.
    exists message. split; reflexivity.
  - now contradiction Hko.
  - apply error_response_eq in Hresp. subst r.
    exists message. split; reflexivity.
Qed.

Lemma error_response_is_consistent_witness :
  exists r s' message,
    lambda_handler throttled lab_environ (PDict sample_request)
                   trigger_context fresh = (Returned r, s') /\
    statusCode r = 429 /\
    assoc "X-Request-ID" (headers r) = None /\
    body r = json_dumps
               (PDict [ ("error", PStr message);
                        ("statusCode", PInt 429);
                        ("timestamp", PInt 1700000000) ]).
Proof.
  destruct (lambda_handler throttled lab_environ (PDict sample_request)
                           trigger_context fresh) as [[r | e] s'] eqn:Hrun;
    [ | vm_compute in Hrun; discriminate Hrun ].
  assert (Hcode : statusCode r = 429).
  { vm_compute in Hrun. apply returned_eq in Hrun. destruct Hrun as [<- _].
    reflexivity. }
  assert (Hko : statusCode r <> 200) by (rewrite Hcode; discriminate).
  destruct (error_response_is_consistent _ _ _ _ _ _ _ Hrun Hko)
    as (message & Hheaders & Hbody).
  exists r, s', message. rewrite Hheaders, Hbody, Hcode.
  repeat split.
Defined.


(** X19: the status 429 has one cause.  A response with status 429 means
    that the orchestrator was asked, once, to start an execution and
    refused it with the [ClientError] code ExecutionLimitExceeded; its
    message is [Too many concurrent executions]. *)
Theorem only_throttling_answers_429 P environ event context s r s' :
  lambda_handler P environ event context s = (Returned r, s') ->
  statusCode r = 429 ->
  exists request text,
    started s' = (started s ++ [request])%list /\
    start_execution P request
    = Raised (ClientError "ExecutionLimitExceeded" text) /\
    is_error_response r 429 "Too many concurrent executions".
Proof.
  intros Hrun Hthrottled.
  destruct (handler_cases P environ event context s
              (returned_event_was_logged _ _ _ _ _ _ _ Hrun))
    as (r0 & s0 & Hrun0 & Hcases).
  rewrite Hrun in Hrun0. apply returned_eq in Hrun0.
  destruct Hrun0 as [<- <-].
  destruct Hcases
    as [(-> & code & message & Hcode & Hresp)
       | (request & -> & [(reply & document & Hcall & Harn & Hinput & ->)
                         | (e & code & message & Hcall & Hcode & Hlimit
                            & Hresp)])].
  - apply error_response_eq in Hresp. subst r. cbn [statusCode] in Hthrottled.
    subst code. cbn [In] in Hcode. lia.
  - discriminate Hthrottled.
  - assert (Hcode429 : code = 429).
    { apply error_response_eq in Hresp. subst r. exact Hthrottled. }
    subst code. destruct (Hlimit eq_refl) as (-> & text & ->).
    exists request, text. split; [ reflexivity | ].
    split; [ exact Hcall | ].
    destruct (create_error_response_run
                429 "Too many concurrent executions"
                {| now := now s; started := (started s ++ [request])%list |})
      as (r1 & Hr1 & Herr).
    rewrite Hresp in Hr1. apply returned_eq in Hr1. destruct Hr1 as [<- _].
    exact Herr.
Qed.

Lemma only_throttling_answers_429_witness :
  exists r s' request text,
    lambda_handler throttled lab_environ (PDict sample_request)
                   trigger_context fresh = (Returned r, s') /\
    statusCode r = 429 /\
    started s' = [ request ] /\
    start_execution throttled request
    = Raised (ClientError "ExecutionLimitExceeded" text).
Proof.
  destruct (lambda_handler throttled lab_environ (PDict sample_request)
                           trigger_context fresh) as [[r | e] s'] eqn:Hrun;
    [ | vm_compute in Hrun; discriminate Hrun ].
  assert (Hcode : statusCode r = 429).
  { vm_compute in Hrun. apply returned_eq in Hrun. destruct Hrun as [<- _].
    reflexivity. }
  destruct (only_throttling_answers_429 _ _ _ _ _ _ _ Hrun Hcode)
    as (request & text & Hstarted & Hcall & _).
  exists r, s', request, text. repeat split; assumption.
Defined.

(** X20: when the boto3 client cannot be built the Workflow Trigger
    answers 500 [Internal server error] with the text of the exception, for
    every event that it could write to its log, a valid request or not: the
    request is not looked at, and nothing is sent. *)
Theorem client_failure_is_500 P environ arn event context s e :
  configured environ arn ->
  json_dumps_default_str P event = Returned tt ->
  boto3_client P = Raised e ->
  exists r,
    lambda_handler P environ event context s = (Returned r, s) /\
    is_error_response r 500 ("Internal server error: " ++ exn_str e).
Proof.
  intros Hconfigured Hlogged Hclient.
  rewrite (lambda_handler_configured P environ event context s arn
             Hconfigured Hlogged).
  unfold try_except. cbv beta iota zeta delta [attempt bind lift].
  rewrite Hclient. cbv beta iota delta [bind time_time].
  apply create_error_response_run.
Qed.

Lemma client_failure_is_500_witness :
  configured lab_environ
             "arn:aws:states:us-east-1:123456789012:stateMachine:lab" /\
  json_dumps_default_str without_region (PDict request_without_user)
  = Returned tt /\
  boto3_client without_region
  = Raised (OtherError "NoRegionError" "You must specify a region.") /\
  exists r,
    lambda_handler without_region lab_environ (PDict request_without_user)
                   trigger_context fresh
    = (Returned r, fresh) /\
    is_error_response
      r 500 "Internal server error: You must specify a region.".
Proof.
  split; [ exact lab_is_configured | ]. split; [ reflexivity | ].
  split; [ reflexivity | ].
  exact (client_failure_is_500
           without_region lab_environ _ (PDict request_without_user)
           trigger_context fresh _ lab_is_configured eq_refl eq_refl).
Defined.

(** X21: a request that is no JSON object is answered 500, not 400, and
    nothing is sent: once the event was written to the log, an event that
    is no object, an event whose body is there and is no text (an object, a
    number), and a body that decodes to something else than an object (a
    list, a string) each end in the outer [except], with the text of the
    [AttributeError] or [TypeError]. *)
Theorem non_object_request_is_500 P environ arn event context s :
  configured environ arn ->
  boto3_client P = Returned tt ->
  json_dumps_default_str P event = Returned tt ->
  ((forall entries, event <> PDict entries) ->
   exists r,
     lambda_handler P environ event context s = (Returned r, s) /\
     is_error_response
       r 500 ("Internal server error: '" ++ type_name event
                ++ "' object has no attribute 'get'"))
  /\ (forall entries event_body,
         event = PDict entries ->
         dict_get entries "body" PNone = event_body ->
         truthy event_body = true ->
         (forall text, event_body <> PStr text) ->
         exists r,
           lambda_handler P environ event context s = (Returned r, s) /\
           is_error_response
             r 500 ("Internal server error: the JSON object must be str, "
                      ++ "bytes or bytearray, not " ++ type_name event_body))
  /\ (forall entries text decoded,
         event = PDict entries ->
         dict_get entries "body" PNone = PStr text ->
         text <> "" ->
         json_loads P text = Returned decoded ->
         (forall fields, decoded <> PDict fields) ->
         exists r,
           lambda_handler P environ event context s = (Returned r, s) /\
           is_error_response
             r 500 ("Internal server error: '" ++ type_name decoded
                      ++ "' object has no attribute 'get'")).
Proof.
  intros Hconfigured Hclient Hlogged.
  rewrite (lambda_handler_configured P environ event context s arn
             Hconfigured Hlogged).
  unfold try_except. cbv beta iota zeta delta [attempt bind lift].
  rewrite Hclient. cbv beta iota.
  split; [ | split ].
  - intros Hevent.
    destruct event; try (now contradiction (Hevent entries));
      cbv beta iota delta [py_get bind time_time];
      apply create_error_response_run.
  - intros entries event_body -> Hbody Htruthy Htext.
    cbv beta iota delta [py_get]. rewrite Hbody, Htruthy.
    destruct event_body; try (now contradiction (Htext s0));
      cbv beta iota delta [bind time_time raise];
      apply (create_error_response_run 500).
  - intros entries text decoded -> Hbody Hne Hloads Hdecoded.
    cbv beta iota delta [py_get]. rewrite Hbody. cbn [truthy].
    destruct (String.eqb_spec text "") as [-> | _]; [ contradiction | ].
    cbn [negb]. rewrite Hloads.
    destruct decoded; try (now contradiction (Hdecoded entries0));
      cbv beta iota zeta delta [start_workflow py_get bind lift time_time];
      apply create_error_response_run.
Qed.

Lemma non_object_request_is_500_witness :
  (json_dumps_default_str accepting (PList []) = Returned tt /\
   exists r,
     lambda_handler accepting lab_environ (PList []) trigger_context fresh
     = (Returned r, fresh) /\
     is_error_response
       r 500 "Internal server error: 'list' object has no attribute 'get'")
  /\ (json_dumps_default_str accepting
                             (PDict [ ("body", PDict sample_request) ])
      = Returned tt /\
      exists r,
        lambda_handler accepting lab_environ
                       (PDict [ ("body", PDict sample_request) ])
                       trigger_context fresh
        = (Returned r, fresh) /\
        is_error_response
          r 500 ("Internal server error: the JSON object must be str, "
                   ++ "bytes or bytearray, not dict"))
  /\ (json_loads accepting "[]" = Returned (PList []) /\
      exists r,
        lambda_handler accepting lab_environ (PDict envelope_of_a_list)
                       trigger_context fresh
        = (Returned r, fresh) /\
        is_error_response
          r 500 "Internal server error: 'list' object has no attribute 'get'").
Proof.
  split; [ | split ]; (split; [ reflexivity | ]).
  - destruct (non_object_request_is_500
                accepting lab_environ _ (PList []) trigger_context fresh
                lab_is_configured eq_refl eq_refl) as (Hevent & _ & _).
    apply Hevent. discriminate.
  - destruct (non_object_request_is_500
                accepting lab_environ _
                (PDict [ ("body", PDict sample_request) ])
                trigger_context fresh lab_is_configured eq_refl eq_refl)
      as (_ & Hbody & _).
    apply (Hbody [ ("body", PDict sample_request) ] (PDict sample_request)
                 eq_refl eq_refl eq_refl).
    discriminate.
  - destruct (non_object_request_is_500
                accepting lab_environ _ (PDict envelope_of_a_list)
                trigger_context fresh lab_is_configured eq_refl eq_refl)
      as (_ & _ & Hdecoded).
    apply (Hdecoded envelope_of_a_list "[]" (PList []) eq_refl eq_refl).
    + discriminate.
    + reflexivity.
    + discriminate.
Defined.

Lemma append_inv_head (prefix a b : string) :
  prefix ++ a = prefix ++ b -> a = b.
Proof.
  induction prefix as [ | c prefix IH]; cbn; [ trivial | ].
  intros H. apply IH. now injection H.
Qed.

Lemma payload_of_decoder P P' event body :
  json_dumps_default_str P' = json_dumps_default_str P ->
  json_loads P' = json_loads P ->
  payload_of P event body -> payload_of P' event body.
Proof.
  intros Hdumps Hloads
         [entries Hlogged Hnone | entries text body' Hlogged Htext Hne Hdecoded].
  - apply direct_payload; [ now rewrite Hdumps | exact Hnone ].
  - apply (decoded_payload P' entries text body');
      [ now rewrite Hdumps | exact Htext | exact Hne | now rewrite Hloads ].
Qed.

(** *** A request that passes the validation *)

Section Accepted.

Variable P : platform.
Variable environ : list (string * string).
Variable arn : string.
Hypothesis Hconfigured : configured environ arn.
Hypothesis Hclient : boto3_client P = Returned tt.
Variable event : pyval.
Variable context : LambdaContext.
Variable s : session.

(** The handler on a valid request, in full. *)
Lemma valid_request_sends entries :
  valid_request P event entries ->
  exists data_type document,
    In data_type allowed_data_types /\
    (is_allowed (dict_get entries "dataType" PNone) = true ->
     dict_get entries "dataType" PNone = PStr data_type) /\
    (is_allowed (dict_get entries "dataType" PNone) = false ->
     data_type = "general") /\
    assoc "userId" document = Some (dict_get entries "userId" PNone) /\
    assoc "dataType" document = Some (PStr data_type) /\
    assoc "requestMetadata" document
    = Some (PDict [ ("requestId", PStr (aws_request_id context));
                    ("triggerSource", PStr "api_gateway");
                    ("username",
                      PStr (environ_get_default environ "USERNAME" "unknown"));
                    ("timestamp", PInt (int_of_float (now s)));
                    ("apiVersion", PStr "1.0") ]) /\
    assoc "priority" document = assoc "priority" entries /\
    assoc "options" document = assoc "options" entries /\
    (forall key,
        ~ In key [ "userId"; "dataType"; "requestMetadata"; "priority";
                   "options" ] ->
        assoc key document = None) /\
    let request :=
      {| stateMachineArn := arn;
         name := environ_get_default environ "USERNAME" "unknown"
                   ++ "-" ++ data_type ++ "-"
                   ++ str_of_int (int_of_float (now s)) ++ "-"
                   ++ substring 0 8 (uuid4_hex P);
         input := json_dumps (PDict document) |} in
    exists r,
      lambda_handler P environ event context s
      = (Returned r,
         {| now := now s; started := (started s ++ [request])%list |}) /\
      (forall reply,
          start_execution P request = Returned reply -> statusCode r = 200) /\
      (forall e,
          start_execution P request = Raised e ->
          (forall code message, e <> ClientError code message) ->
          is_error_response r 500 ("Internal server error: " ++ exn_str e)).
Proof.
  intros (Hpayload & Hu & Hd).
  rewrite (handler_on_payload P environ arn Hconfigured Hclient
             event context s _ Hpayload).
  unfold try_except.
  destruct (start_workflow_request
              P (environ_get_default environ "USERNAME" "unknown")
              arn context entries s Hu Hd)
    as (data_type & document & Hin & Hkept & Hgeneral & Huser & Htype & Hmeta
        & Hpriority & Hoptions & Hother & Hrun).
  exists data_type, document.
  repeat (split; [ assumption | ]).
  cbv zeta in Hrun |- *. rewrite Hrun.
  match goal with
  | |- context [start_execution P ?sent] => set (request := sent)
  end.
  destruct (start_execution P request) as [reply | e].
  - eexists. split; [ reflexivity | ].
    split; [ reflexivity | discriminate ].
  - assert (Hother_error :
      (forall code message, e <> ClientError code message) ->
      on_client_error
        e {| now := now s; started := (started s ++ [request])%list |}
      = (Raised e,
         {| now := now s; started := (started s ++ [request])%list |})).
    { intros Hnot. destruct e; try reflexivity.
      now contradiction (Hnot code message). }
    destruct (on_client_error_cases
                e {| now := now s; started := (started s ++ [request])%list |})
      as [(code & message & _ & _ & Hmapped) | Hraised].
    + rewrite Hmapped.
      destruct (create_error_response_run
                  code message
                  {| now := now s; started := (started s ++ [request])%list |})
        as (r & Hresp & _).
      rewrite Hresp. exists r. split; [ reflexivity | ].
      split; [ discriminate | ].
      intros e' He' Hnot.
      assert (e' = e) by congruence. subst e'.
      rewrite (Hother_error Hnot) in Hmapped.
      rewrite Hresp in Hmapped. discriminate Hmapped.
    + rewrite Hraised. cbv beta iota delta [bind time_time].
      destruct (create_error_response_run
                  500 ("Internal server error: " ++ exn_str e)
                  {| now := now s; started := (started s ++ [request])%list |})
        as (r & Hresp & Herr).
      rewrite Hresp. exists r. split; [ reflexivity | ].
      split; [ discriminate | ].
      intros e' He' _.
      assert (e' = e) by congruence. subst e'. exact Herr.
Qed.

(** X22: of the fields of a valid request, the optional [priority] and
    [options] are handed to the workflow as they were received, each when
    it is there, and no field besides userId, dataType, requestMetadata and
    these two is handed on. *)
Theorem optional_fields_pass_through entries :
  valid_request P event entries ->
  exists r request document,
    lambda_handler P environ event context s
    = (Returned r,
       {| now := now s; started := (started s ++ [request])%list |}) /\
    input request = json_dumps (PDict document) /\
    assoc "priority" document = assoc "priority" entries /\
    assoc "options" document = assoc "options" entries /\
    (forall key,
        ~ In key [ "userId"; "dataType"; "requestMetadata"; "priority";
                   "options" ] ->
        assoc key document = None).
Proof.
  intros Hvalid.
  destruct (valid_request_sends entries Hvalid)
    as (data_type & document & _ & _ & _ & _ & _ & _ & Hpriority & Hoptions
        & Hother & r & Hrun & _).
  eexists r, _, document. split; [ exact Hrun | ].
  repeat split; assumption.
Qed.

(** X23: the document handed to the workflow for a valid request holds
    the userId as it was received, a dataType that is one of the five
    recognised ones (the one received, when that is recognised), and a
    requestMetadata with the request id of the invocation, the trigger
    source [api_gateway], the USERNAME of the environment, the clock and
    the API version 1.0; the execution is named after USERNAME and that
    dataType, for the configured workflow. *)
Theorem document_sent_for_valid_request entries :
  valid_request P event entries ->
  exists r request data_type document suffix,
    lambda_handler P environ event context s
    = (Returned r,
       {| now := now s; started := (started s ++ [request])%list |}) /\
    stateMachineArn request = arn /\
    name request
    = environ_get_default environ "USERNAME" "unknown"
        ++ "-" ++ data_type ++ "-" ++ suffix /\
    input request = json_dumps (PDict document) /\
    assoc "userId" document = Some (dict_get entries "userId" PNone) /\
    assoc "dataType" document = Some (PStr data_type) /\
    In data_type allowed_data_types /\
    (is_allowed (dict_get entries "dataType" PNone) = true ->
     dict_get entries "dataType" PNone = PStr data_type) /\
    assoc "requestMetadata" document
    = Some (PDict [ ("requestId", PStr (aws_request_id context));
                    ("triggerSource", PStr "api_gateway");
                    ("username",
                      PStr (environ_get_default environ "USERNAME" "unknown"));
                    ("timestamp", PInt (int_of_float (now s)));
                    ("apiVersion", PStr "1.0") ]).
Proof.
  intros Hvalid.
  destruct (valid_request_sends entries Hvalid)
    as (data_type & document & Hin & Hkept & _ & Huser & Htype & Hmeta & _ & _
        & _ & r & Hrun & _).
  eexists r, _, data_type, document, _. split; [ exact Hrun | ].
  cbn [stateMachineArn name input].
  repeat split; try assumption; reflexivity.
Qed.

(** X24: when the orchestrator fails a valid request with an exception
    that is no [ClientError] (a timeout of the connection, say), the
    [except ClientError] block lets it through and the outer block answers
    500 [Internal server error] with its text; the call was made, once. *)
Theorem unexpected_orchestrator_error_is_500 entries e :
  valid_request P event entries ->
  (forall request, start_execution P request = Raised e) ->
  (forall code message, e <> ClientError code message) ->
  exists r request,
    lambda_handler P environ event context s
    = (Returned r,
       {| now := now s; started := (started s ++ [request])%list |}) /\
    is_error_response r 500 ("Internal server error: " ++ exn_str e).
Proof.
  intros Hvalid Hfails Hnot.
  destruct (valid_request_sends entries Hvalid)
    as (data_type & document & _ & _ & _ & _ & _ & _ & _ & _ & _
        & r & Hrun & _ & Hunexpected).
  eexists r, _. split; [ exact Hrun | ].
  exact (Hunexpected e (Hfails _) Hnot).
Qed.

(** X25: a request is handled alike whether it is the event itself (a
    direct invocation) or the JSON text under [body] of an API Gateway
    event, when the line that writes the event to the log does the same on
    the two events: the same response, the same call to the orchestrator,
    or the same exception of the serialiser. *)
Theorem envelope_and_direct_agree envelope text request :
  event = PDict envelope ->
  json_dumps_default_str P (PDict request) = json_dumps_default_str P event ->
  dict_get envelope "body" PNone = PStr text ->
  text <> "" ->
  json_loads P text = Returned (PDict request) ->
  truthy (dict_get request "body" PNone) = false ->
  lambda_handler P environ event context s
  = lambda_handler P environ (PDict request) context s.
Proof.
  intros Hevent Hsame Hbody Hne Hloads Hdirect.
  destruct (json_dumps_default_str P event) as [[] | e] eqn:Hlogged.
  - rewrite (handler_on_payload P environ arn Hconfigured Hclient
               event context s (PDict request)).
    + rewrite (handler_on_payload P environ arn Hconfigured Hclient
                 (PDict request) context s (PDict request)).
      * reflexivity.
      * now apply direct_payload.
    + rewrite Hevent in Hlogged |- *.
      now apply (decoded_payload P envelope text).
  - rewrite (unlogged_event_escapes P environ event context s e Hlogged).
    rewrite (unlogged_event_escapes P environ (PDict request) context s e
               Hsame).
    reflexivity.
Qed.

End Accepted.

(** X26: the name of an execution is USERNAME, the dataType, the clock in
    seconds and the first eight hexadecimal digits of a fresh UUID: for the
    same user, data type and second, two invocations name their executions
    alike exactly when their UUIDs agree on these eight digits. *)
Theorem execution_name_rests_on_uuid_prefix
        P environ arn event context s entries hex1 hex2 :
  configured environ arn ->
  boto3_client P = Returned tt ->
  valid_request P event entries ->
  let with_uuid hex :=
    {| json_dumps_default_str := json_dumps_default_str P;
       json_loads := json_loads P;
       boto3_client := boto3_client P;
       start_execution := start_execution P;
       uuid4_hex := hex |} in
  exists r1 r2 request1 request2,
    lambda_handler (with_uuid hex1) environ event context s
    = (Returned r1,
       {| now := now s; started := (started s ++ [request1])%list |}) /\
    lambda_handler (with_uuid hex2) environ event context s
    = (Returned r2,
       {| now := now s; started := (started s ++ [request2])%list |}) /\
    (name request1 = name request2
     <-> substring 0 8 hex1 = substring 0 8 hex2).
Proof.
  intros Hconfigured Hclient (Hpayload & Hu & Hd) with_uuid.
  assert (Hvalid : forall hex, valid_request (with_uuid hex) event entries).
  { intros hex. split; [ | split; assumption ].
    apply (payload_of_decoder P); [ reflexivity | reflexivity | assumption ]. }
  destruct (valid_request_sends (with_uuid hex1) environ arn Hconfigured Hclient
              event context s entries (Hvalid hex1))
    as (type1 & document1 & _ & Hkept1 & Hgeneral1 & _ & _ & _ & _ & _ & _
        & r1 & Hrun1 & _).
  destruct (valid_request_sends (with_uuid hex2) environ arn Hconfigured Hclient
              event context s entries (Hvalid hex2))
    as (type2 & document2 & _ & Hkept2 & Hgeneral2 & _ & _ & _ & _ & _ & _
        & r2 & Hrun2 & _).
  assert (Htype : type1 = type2).
  { destruct (is_allowed (dict_get entries "dataType" PNone)).
    - specialize (Hkept1 eq_refl). specialize (Hkept2 eq_refl). congruence.
    - rewrite (Hgeneral1 eq_refl), (Hgeneral2 eq_refl). reflexivity. }
  subst type2.
  eexists r1, r2, _, _. split; [ exact Hrun1 | ]. split; [ exact Hrun2 | ].
  subst with_uuid. cbn [name uuid4_hex]. split.
  - intros Hname.
    do 6 apply append_inv_head in Hname. exact Hname.
  - intros Hprefix. rewrite Hprefix. reflexivity.
Qed.


(** *** The theorems at sample requests *)

Lemma prioritised_request_is_valid (P : platform) :
  json_dumps_default_str P (PDict prioritised_request) = Returned tt ->
  valid_request P (PDict prioritised_request) prioritised_request.
Proof.
  intros Hlogged.
  split; [ apply direct_payload; [ exact Hlogged | reflexivity ]
         | split; reflexivity ].
Defined.

Lemma optional_fields_pass_through_witness :
  valid_request accepting (PDict prioritised_request) prioritised_request /\
  exists r request document,
    lambda_handler accepting lab_environ (PDict prioritised_request)
                   trigger_context fresh
    = (Returned r, {| now := now fresh; started := [request] |}) /\
    input request = json_dumps (PDict document) /\
    assoc "priority" document = Some (PStr "high") /\
    assoc "options" document = None /\
    assoc "debug" document = None.
Proof.
  split; [ exact (prioritised_request_is_valid accepting eq_refl) | ].
  destruct (optional_fields_pass_through
              accepting lab_environ _ lab_is_configured eq_refl
              (PDict prioritised_request) trigger_context fresh
              prioritised_request (prioritised_request_is_valid accepting eq_refl))
    as (r & request & document & Hrun & Hinput & Hpriority & Hoptions & Hother).
  exists r, request, document.
  split; [ exact Hrun | ]. split; [ exact Hinput | ].
  split; [ exact Hpriority | ]. split; [ exact Hoptions | ].
  apply Hother. cbn [In].
  intros [H | [H | [H | [H | [H | []]]]]]; discriminate H.
Defined.

Lemma document_sent_for_valid_request_witness :
  valid_request accepting (PDict sample_request) sample_request /\
  exists r request document,
    lambda_handler accepting lab_environ (PDict sample_request)
                   trigger_context fresh
    = (Returned r, {| now := now fresh; started := [request] |}) /\
    input request = json_dumps (PDict document) /\
    assoc "userId" document = Some (PStr "u1") /\
    assoc "dataType" document = Some (PStr "sales_data").
Proof.
  split; [ exact (sample_request_is_valid accepting eq_refl) | ].
  destruct (document_sent_for_valid_request
              accepting lab_environ _ lab_is_configured eq_refl
              (PDict sample_request) trigger_context fresh
              sample_request (sample_request_is_valid accepting eq_refl))
    as (r & request & data_type & document & suffix & Hrun & _ & _ & Hinput
        & Huser & Htype & _ & Hkept & _).
  exists r, request, document.
  split; [ exact Hrun | ]. split; [ exact Hinput | ].
  split; [ exact Huser | ].
  rewrite Htype. symmetry. f_equal. exact (Hkept eq_refl).
Defined.

Lemma unexpected_orchestrator_error_is_500_witness :
  valid_request unreachable (PDict sample_request) sample_request /\
  exists r request,
    lambda_handler unreachable lab_environ (PDict sample_request)
                   trigger_context fresh
    = (Returned r, {| now := now fresh; started := [request] |}) /\
    is_error_response
      r 500 "Internal server error: Could not connect to the endpoint URL".
Proof.
  split; [ exact (sample_request_is_valid unreachable eq_refl) | ].
  apply (unexpected_orchestrator_error_is_500
           unreachable lab_environ _ lab_is_configured eq_refl
           (PDict sample_request) trigger_context fresh sample_request
           (OtherError "EndpointConnectionError"
                       "Could not connect to the endpoint URL")
           (sample_request_is_valid unreachable eq_refl)).
  - intros request. reflexivity.
  - discriminate.
Defined.

Lemma envelope_and_direct_agree_witness :
  json_dumps_default_str accepting (PDict [])
  = json_dumps_default_str accepting (PDict [ ("body", PStr "{}") ]) /\
  json_loads accepting "{}" = Returned (PDict []) /\
  lambda_handler accepting lab_environ (PDict [ ("body", PStr "{}") ])
                 trigger_context fresh
  = lambda_handler accepting lab_environ (PDict []) trigger_context fresh.
Proof.
  split; [ reflexivity | ]. split; [ reflexivity | ].
  apply (envelope_and_direct_agree
           accepting lab_environ _ lab_is_configured eq_refl
           (PDict [ ("body", PStr "{}") ]) trigger_context fresh
           [ ("body", PStr "{}") ] "{}" []).
  - reflexivity.
  - reflexivity.
  - reflexivity.
  - discriminate.
  - reflexivity.
  - reflexivity.
Defined.

Lemma execution_name_rests_on_uuid_prefix_witness :
  valid_request accepting (PDict sample_request) sample_request /\
  substring 0 8 "0123456789abcdef0123456789abcdef"
  = substring 0 8 "01234567ffffffffffffffffffffffff" /\
  exists r1 r2 request1 request2,
    lambda_handler accepting lab_environ (PDict sample_request)
                   trigger_context fresh
    = (Returned r1, {| now := now fresh; started := [request1] |}) /\
    lambda_handler
      {| json_dumps_default_str := json_dumps_default_str accepting;
         json_loads := json_loads accepting;
         boto3_client := boto3_client accepting;
         start_execution := start_execution accepting;
         uuid4_hex := "01234567ffffffffffffffffffffffff" |}
      lab_environ (PDict sample_request) trigger_context fresh
    = (Returned r2, {| now := now fresh; started := [request2] |}) /\
    name request1 = name request2.
Proof.
  split; [ exact (sample_request_is_valid accepting eq_refl) | ].
  split; [ reflexivity | ].
  destruct (execution_name_rests_on_uuid_prefix
              accepting lab_environ _ (PDict sample_request) trigger_context
              fresh sample_request
              "0123456789abcdef0123456789abcdef"
              "01234567ffffffffffffffffffffffff"
              lab_is_configured eq_refl (sample_request_is_valid accepting eq_refl))
    as (r1 & r2 & request1 & request2 & Hrun1 & Hrun2 & Hnames).
  exists r1, r2, request1, request2.
  split; [ exact Hrun1 | ]. split; [ exact Hrun2 | ].
  apply Hnames. reflexivity.
Defined.

End TriggerWorkflowBehaviour.
